(** * Commute Briefing: quota ledger, source orchestration, scraper service

    A shallow embedding of the two files that carry the logic of the
    integration,

      - [custom_components/commute_briefing/coordinator.py]
        (class [CommuteBriefingCoordinator]), and
      - [scraper-microservice/app.py]
        ([SimpleCache], the time-text parser, the control skeleton of
        [scrape_lothian_stop] and the endpoint [get_stop_departures]),

    with what the other files of the integration do with the coordinator:
    the services of [__init__.py] and the buttons of [button.py] that call
    it, the entities of [sensor.py] and [binary_sensor.py] that read it, and
    the quota step of [config_flow.py] that sets it up.  The properties
    proved are those the specification states about them, and further
    properties of the ledger, the fetch cycles, the normalizers, the
    snapshot and the service.  Python integers are [Z]; [str] is [string]
    restricted to ASCII; a [dict] with a fixed schema is a record whose
    optional keys are [option] fields, a [dict] used as a map is a [gmap];
    coroutines are run sequentially, one [await] after the other, in a state
    monad over the object's attributes and the part of the outside world
    they see. *)

From Stdlib Require Import ZArith List String Ascii Bool Lia.
From Stdlib Require Import DecimalString DecimalNat.
From Stdlib Require Import Sorting.Sorted Sorting.Permutation.
From stdpp Require Import gmap strings.
Import ListNotations.

Open Scope string_scope.
Open Scope Z_scope.

(* ===================================================================== *)
(** * Python built-ins used by the sources *)
(* ===================================================================== *)

Module Py.

(** ** Truthiness *)

(** [bool(s)] for a [str]. *)
Definition truthy (s : string) : bool :=
  match s with EmptyString => false | String _ _ => true end.

(** [bool(x)] for a value that is a [str] or [None]. *)
Definition truthy_opt (o : option string) : bool :=
  match o with Some s => truthy s | None => false end.

(** ** Characters *)

Definition code (c : ascii) : N := N_of_ascii c.

Definition is_upper (c : ascii) : bool :=
  ((65 <=? code c) && (code c <=? 90))%N.

Definition is_digit (c : ascii) : bool :=
  ((48 <=? code c) && (code c <=? 57))%N.

(** The characters [str.strip()] removes, among ASCII: TAB, LF, VT, FF,
    CR, FS, GS, RS, US and the space. *)
Definition is_space (c : ascii) : bool :=
  (((9 <=? code c) && (code c <=? 13))
   || ((28 <=? code c) && (code c <=? 32)))%N.

Definition lower_char (c : ascii) : ascii :=
  if is_upper c then ascii_of_N (code c + 32) else c.

Definition digit_value (c : ascii) : option N :=
  if is_digit c then Some (code c - 48)%N else None.

Definition is_lower (c : ascii) : bool :=
  ((97 <=? code c) && (code c <=? 122))%N.

Definition upper_char (c : ascii) : ascii :=
  if is_lower c then ascii_of_N (code c - 32) else c.

(** ** [str] methods *)

(** [s.lower()] *)
Fixpoint lower (s : string) : string :=
  match s with
  | EmptyString => EmptyString
  | String c r => String (lower_char c) (lower r)
  end.

(** [s.upper()] *)
Fixpoint upper (s : string) : string :=
  match s with
  | EmptyString => EmptyString
  | String c r => String (upper_char c) (upper r)
  end.

Fixpoint lstrip (s : string) : string :=
  match s with
  | EmptyString => EmptyString
  | String c r => if is_space c then lstrip r else s
  end.

(** [s.rstrip()]: a character is dropped when everything from it to the
    end of the string is white space. *)
Fixpoint rstrip (s : string) : string :=
  match s with
  | EmptyString => EmptyString
  | String c r =>
      match rstrip r with
      | EmptyString => if is_space c then EmptyString else String c EmptyString
      | r' => String c r'
      end
  end.

(** [s.strip()] *)
Definition strip (s : string) : string := rstrip (lstrip s).

(** [sub in s] *)
Fixpoint contains (sub s : string) : bool :=
  String.prefix sub s
  || match s with
     | EmptyString => false
     | String _ r => contains sub r
     end.

(** [s.split(sep)] for a separator of one character: never empty, and
    [''.split(',')] is [['']]. *)
Fixpoint split (sep : ascii) (s : string) : list string :=
  match s with
  | EmptyString => [EmptyString]
  | String c r =>
      if Ascii.eqb c sep then EmptyString :: split sep r
      else match split sep r with
           | h :: t => String c h :: t
           | [] => [String c EmptyString]
           end
  end.

(** [s[:n]] *)
Fixpoint take (n : nat) (s : string) : string :=
  match n, s with
  | S n', String c r => String c (take n' r)
  | _, _ => EmptyString
  end.

(** [x in l] for a list of strings. *)
Definition mem (x : string) (l : list string) : bool :=
  existsb (String.eqb x) l.

(** [[r.strip() for r in s.split(",") if r.strip()]] *)
Definition comma_list (s : string) : list string :=
  List.filter truthy (map strip (split "," s)).

(** [a] occurs in [b]: [b] is some text, then [a], then some text. *)
Definition substring_of (a b : string) : Prop :=
  exists pre post, b = pre +:+ a +:+ post.

(** ** Texts that differ in the case of their letters

    What "case-insensitive" says, stated on the alphabet and not through
    [lower] or [upper]: the twenty-six capital letters, each with its small
    letter at the same place. *)
Definition capitals : string := "ABCDEFGHIJKLMNOPQRSTUVWXYZ".
Definition smalls : string := "abcdefghijklmnopqrstuvwxyz".

(** [x] is a capital letter and [y] is its small letter. *)
Fixpoint paired (x y : ascii) (caps smls : string) : bool :=
  match caps, smls with
  | String C caps', String c smls' =>
      (Ascii.eqb x C && Ascii.eqb y c) || paired x y caps' smls'
  | _, _ => false
  end.

(** Two characters that are the same, or the same letter in the two
    cases. *)
Definition same_letter (x y : ascii) : bool :=
  Ascii.eqb x y || paired x y capitals smalls || paired y x capitals smalls.

(** Two texts of one length whose characters are the same, place by place,
    but for the case of the letters. *)
Fixpoint same_text (a b : string) : bool :=
  match a, b with
  | EmptyString, EmptyString => true
  | String x a', String y b' => same_letter x y && same_text a' b'
  | _, _ => false
  end.

(** [a] occurs in [b] when the case of the letters is disregarded: [b] is
    some text, then a text that is [a] but for the case of its letters, then
    some text. *)
Definition occurs_ignoring_case (a b : string) : Prop :=
  exists pre mid post, b = pre +:+ mid +:+ post /\ same_text a mid = true.

(** A text made of white space only: spaces, TAB, LF, VT, FF and CR. *)
Definition white : list ascii :=
  [" "%char; "009"%char; "010"%char; "011"%char; "012"%char; "013"%char].

Fixpoint blank (s : string) : bool :=
  match s with
  | EmptyString => true
  | String c r => existsb (Ascii.eqb c) white && blank r
  end.

(** ** [int(s)] on a [str], base ten

    The literal may have white space around it, may carry one sign, and is
    a run of digits in which single underscores may separate digits.  White
    space is, for [int], TAB, LF, VT, FF, CR and the space: the separators
    FS, GS, RS and US, which [str.strip()] removes, are not skipped.  A
    literal of more than 4300 digits is refused
    ([sys.int_info.default_max_str_digits]; leading zeros count, underscores
    and the sign do not).  [None] stands for [ValueError]. *)

Definition is_int_space (c : ascii) : bool :=
  (((9 <=? code c) && (code c <=? 13)) || (code c =? 32))%N.

Fixpoint int_lstrip (s : string) : string :=
  match s with
  | EmptyString => EmptyString
  | String c r => if is_int_space c then int_lstrip r else s
  end.

Fixpoint int_rstrip (s : string) : string :=
  match s with
  | EmptyString => EmptyString
  | String c r =>
      match int_rstrip r with
      | EmptyString => if is_int_space c then EmptyString else String c EmptyString
      | r' => String c r'
      end
  end.

Definition MAX_STR_DIGITS : N := 4300.

Fixpoint count_digits (s : string) : N :=
  match s with
  | EmptyString => 0
  | String c r => ((if is_digit c then 1 else 0) + count_digits r)%N
  end.

Fixpoint digits_acc (after_digit : bool) (acc : N) (s : string) : option N :=
  match s with
  | EmptyString => if after_digit then Some acc else None
  | String c r =>
      match digit_value c with
      | Some d => digits_acc true (acc * 10 + d)%N r
      | None =>
          if Ascii.eqb c "_" && after_digit then digits_acc false acc r
          else None
      end
  end.

(** The digits of a literal, once the white space and the sign are off. *)
Definition literal (s : string) : option N :=
  match digits_acc false 0%N s with
  | Some n => if (MAX_STR_DIGITS <? count_digits s)%N then None else Some n
  | None => None
  end.

Definition int (s : string) : option Z :=
  match int_rstrip (int_lstrip s) with
  | String "+" r => option_map Z.of_N (literal r)
  | String "-" r => option_map (fun n => - Z.of_N n) (literal r)
  | t => option_map Z.of_N (literal t)
  end.

(** ** [re.search(r'(\d+)', s)]: the leftmost, longest run of digits *)

Fixpoint digit_run (s : string) : string :=
  match s with
  | String c r => if is_digit c then String c (digit_run r) else EmptyString
  | EmptyString => EmptyString
  end.

Fixpoint search_digits (s : string) : option string :=
  match s with
  | EmptyString => None
  | String c r => if is_digit c then Some (digit_run s) else search_digits r
  end.

(** ** [list.sort(key=...)]

    CPython sorts with a stable comparison sort, and the stable sorted
    arrangement of a list is unique, so the built-in is modelled by stable
    insertion: an element is placed before the first element of the
    already sorted tail whose key is not smaller. *)
Section Sort.
Context {A : Type} (key : A -> Z).

Fixpoint insert (x : A) (l : list A) : list A :=
  match l with
  | [] => [x]
  | y :: t => if key x <=? key y then x :: y :: t else y :: insert x t
  end.

Fixpoint sort (l : list A) : list A :=
  match l with
  | [] => []
  | x :: t => insert x (sort t)
  end.
End Sort.

End Py.

(* ===================================================================== *)
(** * [datetime] *)
(* ===================================================================== *)

Module DateTime.

(** A [datetime] by its fields; the calendar date is kept as the
    proleptic ordinal of the day ([date.toordinal()]).  All the values the
    sources handle come from one clock and carry the same [tzinfo], so
    comparison and subtraction are those of the wall-clock fields. *)
Record datetime := mk_datetime {
  ordinal : Z;
  hour : Z;
  minute : Z;
  second : Z;
  microsecond : Z
}.

Definition wf (d : datetime) : Prop :=
  0 <= hour d < 24 /\ 0 <= minute d < 60 /\ 0 <= second d < 60
  /\ 0 <= microsecond d < 1000000.

(** [d.date()] *)
Definition date (d : datetime) : Z := ordinal d.

(** Microseconds since the start of day zero. *)
Definition to_micros (d : datetime) : Z :=
  (((ordinal d * 24 + hour d) * 60 + minute d) * 60 + second d) * 1000000
  + microsecond d.

(** [a < b] *)
Definition ltb (a b : datetime) : bool := to_micros a <? to_micros b.

(** [d.replace(hour=h, minute=m, second=0, microsecond=0)];
    [None] is the [ValueError] of an hour or a minute out of range. *)
Definition replace_hm (d : datetime) (h m : Z) : option datetime :=
  if (0 <=? h) && (h <=? 23) && (0 <=? m) && (m <=? 59)
  then Some (mk_datetime (ordinal d) h m 0 0)
  else None.

(** [d + timedelta(days=1)] *)
Definition add_day (d : datetime) : datetime :=
  mk_datetime (ordinal d + 1) (hour d) (minute d) (second d) (microsecond d).

(** [int((a - b).total_seconds() / 60)]: [int] truncates towards zero.
    The quotient is taken on the exact number of microseconds; the
    sources take it on the [float] of the seconds, which gives the same
    integer for differences of a few days. *)
Definition minutes_between (a b : datetime) : Z :=
  Z.quot (to_micros a - to_micros b) 60000000.

(** The steps that both time parsers share once hour and minute are
    known:
<<
    dep = now.replace(hour=h, minute=m, second=0, microsecond=0)
    if dep < now: dep += timedelta(days=1)
    due_mins = int((dep - now).total_seconds() / 60)
>> *)
Definition due_from_clock (now : datetime) (h m : Z) : option Z :=
  match replace_hm now h m with
  | Some dep =>
      let dep' := if ltb dep now then add_day dep else dep in
      Some (minutes_between dep' now)
  | None => None
  end.

(** [datetime.strptime(s, "%H:%M")], as the pair of hour and minute.  The
    format compiles to the regular expression
    [(2[0-3]|[0-1]\d|\d):([0-5]\d|\d)], matched at the start of [s] with
    backtracking over the alternatives of the hour; text left after the
    match is the [ValueError] "unconverted data remains". *)
Definition two_digits (lo hi : N) (s : string) : option (Z * string) :=
  match s with
  | String a (String b r) =>
      match Py.digit_value a, Py.digit_value b with
      | Some x, Some y =>
          if ((lo <=? x * 10 + y) && (x * 10 + y <=? hi))%N
          then Some (Z.of_N (x * 10 + y), r) else None
      | _, _ => None
      end
  | _ => None
  end.

Definition one_digit (s : string) : option (Z * string) :=
  match s with
  | String a r =>
      match Py.digit_value a with
      | Some x => Some (Z.of_N x, r)
      | None => None
      end
  | EmptyString => None
  end.

Definition minute_field (s : string) : option (Z * string) :=
  match two_digits 0 59 s with
  | Some r => Some r
  | None => one_digit s
  end.

(** What follows one alternative of the hour: the colon, the minute, the
    end of the text.  [None]: this alternative does not match, try the
    next; [Some None]: it matches and leaves text unconverted. *)
Definition after_hour (h : Z) (s : string) : option (option (Z * Z)) :=
  match s with
  | String ":" r =>
      match minute_field r with
      | Some (m, EmptyString) => Some (Some (h, m))
      | Some (_, String _ _) => Some None
      | None => None
      end
  | _ => None
  end.

Definition try_hour (f : string -> option (Z * string)) (s : string)
  : option (option (Z * Z)) :=
  match f s with
  | Some (h, r) => after_hour h r
  | None => None
  end.

Definition strptime_HM (s : string) : option (Z * Z) :=
  match try_hour (two_digits 20 23) s with
  | Some r => r
  | None =>
      match try_hour (two_digits 0 19) s with
      | Some r => r
      | None =>
          match try_hour one_digit s with
          | Some r => r
          | None => None
          end
      end
  end.

End DateTime.

(* ===================================================================== *)
(** * [coordinator.py]: the quota ledger and the source orchestrator *)
(* ===================================================================== *)

Module Coordinator.
Import DateTime.

(** ** [const.py] *)

Definition DEFAULT_DAILY_QUOTA : Z := 30.
Definition DEFAULT_RESERVED_FOR_MANUAL : Z := 6.
Definition DEFAULT_MAX_AUTO_CALLS : Z := 10.
Definition DEFAULT_SCRAPER_URL : string := "http://localhost:8765".
Definition SOURCE_TRANSPORTAPI : string := "TransportAPI".
Definition SOURCE_SCRAPER : string := "Lothian Scrape".
Definition SOURCE_NONE : string := "None".

(** ** Data *)

(** [entry.data], the options of the config entry.  The config flow
    stores text under the textual keys and coerces the three quota
    settings to [int]; a key that is not stored is [None] here, and
    [self.config.get(key, default)] is [default default_value field]. *)
Record Config := mk_config {
  bus_stop_primary : option string;
  bus_routes : option string;
  daily_quota : option Z;
  reserved_for_manual : option Z;
  max_auto_calls : option Z;
  notify_service : option string;
  calendar_entity : option string;
  office_keywords : option string;
  wfh_keywords : option string;
  scraper_url : option string
}.

(** One entry of a route in the TransportAPI answer.  A key can be
    missing ([None]), hold [null] ([Some None]) or hold text. *)
Record raw_departure := mk_raw {
  aimed_departure_time : option (option string);
  expected_departure_time : option (option string);
  best_departure_estimate : option (option string);
  direction : option (option string)
}.

(** The body of a TransportAPI answer: ["departures"] maps a route to its
    entries, in the order of the document. *)
Record api_payload := mk_api {
  api_departures : option (list (string * list raw_departure))
}.

(** A standardized departure.  [is_realtime] is absent from the records
    that come from the scraper. *)
Record departure := mk_departure {
  route : string;
  due_mins : option Z;
  aimed : option string;
  expected : option string;
  destination : option string;
  status : string;
  is_realtime : option bool
}.

(** The body of an answer of the scraper service. *)
Record scraper_payload := mk_scr {
  scr_departures : option (list departure)
}.

(** What [session.get] does, as far as the coordinator tells the cases
    apart: an answer with its status (the body is read for status 200
    only), or [aiohttp.ClientError].  Exceptions of other classes are not
    part of the model. *)
Inductive http_outcome (A : Type) :=
| Response (status_code : Z) (body : A)
| ClientError (msg : string).
Arguments Response {A} _ _.
Arguments ClientError {A} _.

(** A state object of the host: [state.state] and
    [state.attributes.get("message")]. *)
Record entity_state := mk_entity {
  state_text : string;
  message : option string
}.

(** [{"departures": ..., "source": ...}] *)
Record snapshot := mk_snapshot {
  departures : list departure;
  source : string
}.

(** The further keys of the dictionary a full update returns.  The two
    keys of the traffic reading hold floats and are left out: they are
    computed from the host state alone and written nowhere else. *)
Record details := mk_details {
  next_bus : option departure;
  is_commute_day : bool;
  calls_today_key : Z;
  auto_calls_today_key : Z;
  last_check : option datetime
}.

Record update_data := mk_update {
  ud_snapshot : snapshot;
  ud_details : option details
}.

Inductive level := DEBUG | INFO | WARNING | ERROR.

(** The world outside the coordinator: the successive readings of
    [dt_util.now()], the outcome of the successive requests to the two
    services, the state machine of the host as it stands at a reading of
    the clock, and the outcome of the successive service calls
    ([Some msg]: the call raises). *)
Record world := mk_world {
  clock : nat -> datetime;
  transportapi : nat -> string -> http_outcome api_payload;
  scraper : nat -> string -> string -> http_outcome scraper_payload;
  hass_states : nat -> string -> option entity_state;
  service_call : nat -> option string
}.

(** The attributes of the coordinator, then how far the world has been
    consumed and what has been logged. *)
Record state := mk_state {
  _calls_today : Z;
  _auto_calls_today : Z;
  _last_reset_date : option datetime;
  _last_check_time : option datetime;
  _bus_data : option snapshot;
  _data_source : string;
  data : option update_data;
  ticks : nat;
  api_requests : nat;
  scraper_requests : nat;
  service_calls : nat;
  log : list (level * string)
}.

(** [__init__] *)
Definition init : state :=
  mk_state 0 0 None None None SOURCE_NONE None 0 0 0 0 [].

(** ** The state monad *)

Definition M (A : Type) : Type := state -> A * state.

Definition ret {A} (a : A) : M A := fun s => (a, s).
Definition bind {A B} (m : M A) (k : A -> M B) : M B :=
  fun s => let (a, s') := m s in k a s'.
Definition gets {A} (f : state -> A) : M A := fun s => (f s, s).
Definition modify (f : state -> state) : M unit := fun s => (tt, f s).

Declare Scope coord_scope.
Delimit Scope coord_scope with coord.
Notation "x <- m ;; k" := (bind m (fun x => k))
  (at level 100, m at next level, right associativity) : coord_scope.
Notation "m ;; k" := (bind m (fun _ => k))
  (at level 100, right associativity) : coord_scope.
Open Scope coord_scope.

Fixpoint mapM {A B} (f : A -> M B) (l : list A) : M (list B) :=
  match l with
  | [] => ret []
  | x :: t => y <- f x ;; ys <- mapM f t ;; ret (y :: ys)
  end.

Definition set_calls_today (v : Z) (s : state) : state :=
  mk_state v (_auto_calls_today s) (_last_reset_date s) (_last_check_time s)
    (_bus_data s) (_data_source s) (data s) (ticks s) (api_requests s)
    (scraper_requests s) (service_calls s) (log s).
Definition set_auto_calls_today (v : Z) (s : state) : state :=
  mk_state (_calls_today s) v (_last_reset_date s) (_last_check_time s)
    (_bus_data s) (_data_source s) (data s) (ticks s) (api_requests s)
    (scraper_requests s) (service_calls s) (log s).
Definition set_last_reset_date (v : option datetime) (s : state) : state :=
  mk_state (_calls_today s) (_auto_calls_today s) v (_last_check_time s)
    (_bus_data s) (_data_source s) (data s) (ticks s) (api_requests s)
    (scraper_requests s) (service_calls s) (log s).
Definition set_last_check_time (v : option datetime) (s : state) : state :=
  mk_state (_calls_today s) (_auto_calls_today s) (_last_reset_date s) v
    (_bus_data s) (_data_source s) (data s) (ticks s) (api_requests s)
    (scraper_requests s) (service_calls s) (log s).
Definition set_bus_data (b : snapshot) (s : state) : state :=
  mk_state (_calls_today s) (_auto_calls_today s) (_last_reset_date s)
    (_last_check_time s) (Some b) (source b) (data s) (ticks s)
    (api_requests s) (scraper_requests s) (service_calls s) (log s).
Definition set_data (v : option update_data) (s : state) : state :=
  mk_state (_calls_today s) (_auto_calls_today s) (_last_reset_date s)
    (_last_check_time s) (_bus_data s) (_data_source s) v (ticks s)
    (api_requests s) (scraper_requests s) (service_calls s) (log s).
Definition set_ticks (v : nat) (s : state) : state :=
  mk_state (_calls_today s) (_auto_calls_today s) (_last_reset_date s)
    (_last_check_time s) (_bus_data s) (_data_source s) (data s) v
    (api_requests s) (scraper_requests s) (service_calls s) (log s).
Definition set_api_requests (v : nat) (s : state) : state :=
  mk_state (_calls_today s) (_auto_calls_today s) (_last_reset_date s)
    (_last_check_time s) (_bus_data s) (_data_source s) (data s) (ticks s)
    v (scraper_requests s) (service_calls s) (log s).
Definition set_scraper_requests (v : nat) (s : state) : state :=
  mk_state (_calls_today s) (_auto_calls_today s) (_last_reset_date s)
    (_last_check_time s) (_bus_data s) (_data_source s) (data s) (ticks s)
    (api_requests s) v (service_calls s) (log s).
Definition set_service_calls (v : nat) (s : state) : state :=
  mk_state (_calls_today s) (_auto_calls_today s) (_last_reset_date s)
    (_last_check_time s) (_bus_data s) (_data_source s) (data s) (ticks s)
    (api_requests s) (scraper_requests s) v (log s).
Definition add_log (r : level * string) (s : state) : state :=
  mk_state (_calls_today s) (_auto_calls_today s) (_last_reset_date s)
    (_last_check_time s) (_bus_data s) (_data_source s) (data s) (ticks s)
    (api_requests s) (scraper_requests s) (service_calls s) (log s ++ [r]).

(** [_LOGGER.info(msg)] and its siblings. *)
Definition logger (l : level) (msg : string) : M unit := modify (add_log (l, msg)).

(** [%s] of an [int]. *)
Definition str_of_int (z : Z) : string := NilEmpty.string_of_int (Z.to_int z).

(** ** The pure parts of the normalizers *)

(** [a or b] on values that are text or [None]. *)
Definition py_or (a b : option string) : option string :=
  if Py.truthy_opt a then a else b.

(** [lambda x: x.get("due_mins") or 999] *)
Definition sort_key (d : departure) : Z :=
  match due_mins d with
  | Some n => if n =? 0 then 999 else n
  | None => 999
  end.

(** The key as the specification words it: [dueMinutes], and the sentinel
    999 for an absent one. *)
Definition due_key (d : departure) : Z := default 999 (due_mins d).

(** The status of a departure of TransportAPI, lines 204 to 218. *)
Definition status_of (aimed expected : option string) : string :=
  if Py.truthy_opt aimed && Py.truthy_opt expected
     && negb (bool_decide (aimed = expected))
  then
    match aimed, expected with
    | Some a, Some e =>
        match strptime_HM a, strptime_HM e with
        | Some (ah, am), Some (eh, em) =>
            if ah * 60 + am <? eh * 60 + em then "Late"
            else if eh * 60 + em <? ah * 60 + am then "Early"
            else "On time"
        | _, _ => "On time"
        end
    | _, _ => "On time"
    end
  else if Py.truthy_opt expected then "On time"
  else "Scheduled".

(** [expected is not None and expected != aimed] *)
Definition realtime_of (aimed expected : option string) : bool :=
  match expected with
  | None => false
  | Some _ => negb (bool_decide (expected = aimed))
  end.

Section Methods.

(** The world the coordinator runs in, and [self.config], which is
    bound once by [__init__]. *)
Variable w : world.
Variable config : Config.

(** [dt_util.now()] *)
Definition now : M datetime :=
  fun s => (clock w (ticks s), set_ticks (S (ticks s)) s).

(** The allow-list of routes of lines 174 and 237: the stripped, non-empty
    items of [CONF_BUS_ROUTES], which defaults to the empty text. *)
Definition allowlist : list string :=
  Py.comma_list (default EmptyString (bus_routes config)).

(** *** The ledger *)

Definition needs_reset (last : option datetime) (t : datetime) : bool :=
  match last with
  | None => true
  | Some d => negb (date d =? date t)
  end.

Definition _check_daily_reset : M unit :=
  t <- now ;;
  last <- gets _last_reset_date ;;
  if needs_reset last t then
    modify (set_calls_today 0) ;;
    modify (set_auto_calls_today 0) ;;
    modify (set_last_reset_date (Some t)) ;;
    logger INFO "Daily API counters reset"
  else ret tt.

(** The property [calls_today]. *)
Definition calls_today : M Z :=
  _check_daily_reset ;; gets _calls_today.

(** The property [auto_calls_today]. *)
Definition auto_calls_today : M Z :=
  _check_daily_reset ;; gets _auto_calls_today.

Definition can_call_api_auto : M bool :=
  _check_daily_reset ;;
  let quota := default DEFAULT_DAILY_QUOTA (daily_quota config) in
  let reserved := default DEFAULT_RESERVED_FOR_MANUAL (reserved_for_manual config) in
  let max_auto := default DEFAULT_MAX_AUTO_CALLS (max_auto_calls config) in
  calls <- gets _calls_today ;;
  auto <- gets _auto_calls_today ;;
  ret ((calls <? quota - reserved) && (auto <? max_auto)).

Definition can_call_api_manual : M bool :=
  _check_daily_reset ;;
  let quota := default DEFAULT_DAILY_QUOTA (daily_quota config) in
  calls <- gets _calls_today ;;
  ret (calls <? quota).

(** *** The two sources *)

Definition _fetch_transportapi (stop_code : string) : M (option api_payload) :=
  n <- gets api_requests ;;
  modify (set_api_requests (S n)) ;;
  match transportapi w n stop_code with
  | Response st body =>
      if st =? 200 then
        calls <- gets _calls_today ;;
        modify (set_calls_today (calls + 1)) ;;
        ret (Some body)
      else
        logger WARNING ("TransportAPI returned status " +:+ str_of_int st) ;;
        ret None
  | ClientError e =>
      logger ERROR ("Error fetching from TransportAPI: " +:+ e) ;;
      ret None
  end.

Definition _fetch_scraper (stop_code : string) : M (option scraper_payload) :=
  let url := default DEFAULT_SCRAPER_URL (scraper_url config) in
  if negb (Py.truthy url) then ret None
  else
    n <- gets scraper_requests ;;
    modify (set_scraper_requests (S n)) ;;
    match scraper w n url stop_code with
    | Response st body =>
        if st =? 200 then ret (Some body)
        else
          logger WARNING ("Scraper returned status " +:+ str_of_int st) ;;
          ret None
    | ClientError e =>
        logger ERROR ("Error fetching from scraper: " +:+ e) ;;
        ret None
    end.

(** *** The normalizers *)

(** Minutes until departure, lines 186 to 201: the clock is read when
    [best] is truthy, before the text is parsed. *)
Definition due_mins_of (best : option string) : M (option Z) :=
  if Py.truthy_opt best then
    t <- now ;;
    ret (match strptime_HM (default EmptyString best) with
         | Some (h, m) => due_from_clock t h m
         | None => None
         end)
  else ret None.

(** The body of the inner loop of [_parse_transportapi_departures]. *)
Definition parse_departure (rt : string) (dep : raw_departure) : M departure :=
  let aimed := default (Some EmptyString) (aimed_departure_time dep) in
  let expected := default aimed (expected_departure_time dep) in
  let best := default (py_or expected aimed) (best_departure_estimate dep) in
  due <- due_mins_of best ;;
  ret (mk_departure rt due aimed expected
         (default (Some EmptyString) (direction dep))
         (status_of aimed expected)
         (Some (realtime_of aimed expected))).

(** The body of the outer loop: the entries of one route. *)
Definition parse_route (entry : string * list raw_departure) : M (list departure) :=
  if negb (Nat.eqb (length allowlist) 0) && negb (Py.mem (fst entry) allowlist)
  then ret []
  else mapM (parse_departure (fst entry)) (snd entry).

(** The records of [_parse_transportapi_departures] as the two loops
    append them, before the sort of line 231. *)
Definition transportapi_records (d : api_payload) : M (list departure) :=
  per_route <- mapM parse_route (default [] (api_departures d)) ;;
  ret (concat per_route).

Definition _parse_transportapi_departures (d : api_payload) : M (list departure) :=
  recs <- transportapi_records d ;;
  ret (Py.sort sort_key recs).

(** The records of [_parse_scraper_departures] before the sort of line
    243. *)
Definition scraper_records (d : scraper_payload) : list departure :=
  let deps := default [] (scr_departures d) in
  if negb (Nat.eqb (length allowlist) 0)
  then List.filter (fun x => Py.mem (route x) allowlist) deps
  else deps.

Definition _parse_scraper_departures (d : scraper_payload) : list departure :=
  Py.sort sort_key (scraper_records d).

(** [data and data.get("departures")] for the two kinds of body; an
    empty JSON object has no ["departures"]. *)
Definition has_api_departures (d : option api_payload) : bool :=
  match d with
  | Some (mk_api (Some (_ :: _))) => true
  | _ => false
  end.

Definition has_scr_departures (d : option scraper_payload) : bool :=
  match d with
  | Some (mk_scr (Some (_ :: _))) => true
  | _ => false
  end.

(** *** The commute day *)

Definition _check_commute_day : M bool :=
  if negb (Py.truthy_opt (calendar_entity config)) then ret true
  else
    n <- gets ticks ;;
    match hass_states w n (default EmptyString (calendar_entity config)) with
    | None => ret false
    | Some st =>
        if negb (String.eqb (state_text st) "on") then ret false
        else
          let event_title :=
            Py.lower (default EmptyString (py_or (message st) (Some EmptyString))) in
          let office :=
            map Py.lower
              (Py.comma_list (default EmptyString (office_keywords config))) in
          let wfh :=
            map Py.lower
              (Py.comma_list (default EmptyString (wfh_keywords config))) in
          let is_wfh := existsb (fun kw => Py.contains kw event_title) wfh in
          let is_office := existsb (fun kw => Py.contains kw event_title) office in
          ret (is_office && negb is_wfh)
    end.

(** *** The fetch cycles *)

(** Lines 266 to 271 and 345 to 350: the fall-back, shared by the two
    cycles.  It takes and returns the local variables [departures] and
    [source]. *)
Definition fall_back (stop_code : string) (cur : snapshot) : M snapshot :=
  match departures cur with
  | [] =>
      d <- _fetch_scraper stop_code ;;
      if has_scr_departures d
      then ret (mk_snapshot
                  (_parse_scraper_departures (default (mk_scr None) d))
                  SOURCE_SCRAPER)
      else ret cur
  | _ :: _ => ret cur
  end.

(** Lines 258 to 264: the primary source, under the automatic
    admission. *)
Definition primary_auto (stop_code : string) : M snapshot :=
  admitted <- can_call_api_auto ;;
  if admitted then
    d <- _fetch_transportapi stop_code ;;
    if has_api_departures d then
      deps <- _parse_transportapi_departures (default (mk_api None) d) ;;
      auto <- gets _auto_calls_today ;;
      modify (set_auto_calls_today (auto + 1)) ;;
      ret (mk_snapshot deps SOURCE_TRANSPORTAPI)
    else ret (mk_snapshot [] SOURCE_NONE)
  else ret (mk_snapshot [] SOURCE_NONE).

(** Lines 338 to 343: the primary source, under the manual admission. *)
Definition primary_manual (stop_code : string) : M snapshot :=
  admitted <- can_call_api_manual ;;
  if admitted then
    d <- _fetch_transportapi stop_code ;;
    if has_api_departures d then
      deps <- _parse_transportapi_departures (default (mk_api None) d) ;;
      ret (mk_snapshot deps SOURCE_TRANSPORTAPI)
    else ret (mk_snapshot [] SOURCE_NONE)
  else ret (mk_snapshot [] SOURCE_NONE).

Definition _async_update_data : M update_data :=
  _check_daily_reset ;;
  t <- now ;;
  modify (set_last_check_time (Some t)) ;;
  if negb (Py.truthy_opt (bus_stop_primary config))
  then ret (mk_update (mk_snapshot [] SOURCE_NONE) None)
  else
    let stop_code := default EmptyString (bus_stop_primary config) in
    cur <- primary_auto stop_code ;;
    cur <- fall_back stop_code cur ;;
    modify (set_bus_data cur) ;;
    commute <- _check_commute_day ;;
    calls <- gets _calls_today ;;
    auto <- gets _auto_calls_today ;;
    checked <- gets _last_check_time ;;
    ret (mk_update cur
           (Some (mk_details (hd_error (departures cur)) commute calls auto
                    checked))).

(** [DataUpdateCoordinator.async_refresh], of the host's library: it
    awaits [_async_update_data] at once and keeps the result as
    [self.data]. *)
Definition async_refresh : M unit :=
  r <- _async_update_data ;;
  modify (set_data (Some r)).

(** [async_send_notification].  The text of the message is not built
    here (it formats the float of the traffic reading); what is kept is
    whether the service is called and what is logged. *)
Definition async_send_notification : M unit :=
  if negb (Py.truthy_opt (notify_service config))
  then logger DEBUG "No notification service configured"
  else if Py.contains "." (default EmptyString (notify_service config)) then
    n <- gets service_calls ;;
    modify (set_service_calls (S n)) ;;
    match service_call w n with
    | None => logger INFO "Commute notification sent"
    | Some e => logger ERROR ("Failed to send notification: " +:+ e)
    end
  else ret tt.

(** Lines 328 to 353 of [async_manual_refresh]: its own fetch.  The
    result is [false] for the early return of line 333. *)
Definition manual_fetch : M bool :=
  _check_daily_reset ;;
  t <- now ;;
  modify (set_last_check_time (Some t)) ;;
  if negb (Py.truthy_opt (bus_stop_primary config)) then ret false
  else
    let stop_code := default EmptyString (bus_stop_primary config) in
    cur <- primary_manual stop_code ;;
    cur <- fall_back stop_code cur ;;
    modify (set_bus_data cur) ;;
    ret true.

Definition async_manual_refresh : M unit :=
  go <- manual_fetch ;;
  if go then
    async_refresh ;;
    async_send_notification
  else ret tt.

Definition async_reset_daily_counters : M unit :=
  modify (set_calls_today 0) ;;
  modify (set_auto_calls_today 0) ;;
  t <- now ;;
  modify (set_last_reset_date (Some t)) ;;
  logger INFO "Daily API counters manually reset" ;;
  async_refresh.

(** *** Runs of ledger operations *)

(** The operations that reach the ledger in normal running: the two
    admission checks, the two counter reads, the periodic fetch cycle
    and the manual one. *)
Inductive op :=
| CanCallAuto
| CanCallManual
| ReadCalls
| ReadAutoCalls
| Refresh
| ManualRefresh.

Definition step (o : op) : M unit :=
  match o with
  | CanCallAuto => can_call_api_auto ;; ret tt
  | CanCallManual => can_call_api_manual ;; ret tt
  | ReadCalls => calls_today ;; ret tt
  | ReadAutoCalls => auto_calls_today ;; ret tt
  | Refresh => async_refresh
  | ManualRefresh => async_manual_refresh
  end.

Fixpoint run (ops : list op) : M unit :=
  match ops with
  | [] => ret tt
  | o :: rest => step o ;; run rest
  end.

(** The state a run ends in. *)
Definition exec (ops : list op) (s : state) : state := snd (run ops s).

(** *** The two kinds of call of the specification *)

Inductive kind := Automatic | Manual.

Definition can_call (k : kind) : M bool :=
  match k with
  | Automatic => can_call_api_auto
  | Manual => can_call_api_manual
  end.

Definition primary (k : kind) (stop_code : string) : M snapshot :=
  match k with
  | Automatic => primary_auto stop_code
  | Manual => primary_manual stop_code
  end.

End Methods.

(** How often the daily reset has fired, by its log line. *)
Definition is_reset_line (r : level * string) : bool :=
  match r with
  | (INFO, msg) => String.eqb msg "Daily API counters reset"
  | _ => false
  end.

Definition resets (s : state) : nat := length (List.filter is_reset_line (log s)).

(** A state the coordinator can be in: one that a run of operations
    reaches from [__init__]. *)
Definition reachable (w : world) (config : Config) (s : state) : Prop :=
  exists ops, s = exec w config ops init.

(** ** One calendar day

    [D] is the date of the readings of the clock that a run takes, which are
    those below [N].  [today] adds that the last reset was made on [D];
    [grows] relates a state to a later one of the same day. *)

Section Day.
Variable w : world.
Variable D : Z.
Variable N : nat.

Definition same_day (s : state) : Prop :=
  (forall n, (ticks s <= n < N)%nat -> date (clock w n) = D)
  /\ 0 <= _calls_today s /\ 0 <= _auto_calls_today s.

Definition today (s : state) : Prop :=
  same_day s /\ exists d, _last_reset_date s = Some d /\ date d = D.

Definition grows (s s' : state) : Prop :=
  (ticks s <= ticks s')%nat
  /\ _calls_today s <= _calls_today s'
  /\ _auto_calls_today s <= _auto_calls_today s'
  /\ resets s' = resets s
  /\ _last_reset_date s' = _last_reset_date s.

(** [m] only reads the clock forwards, and when it is run on day [D] and
    ends before the clock leaves it, the state grows. *)
Definition steady_at {A} (m : M A) (s : state) : Prop :=
  (ticks s <= ticks (snd (m s)))%nat
  /\ (today s -> (ticks (snd (m s)) <= N)%nat -> grows s (snd (m s))).

Definition steady {A} (m : M A) : Prop := forall s, steady_at m s.

End Day.

End Coordinator.

(* ===================================================================== *)
(** * [app.py]: the scraper service *)
(* ===================================================================== *)

Module Scraper.
Import DateTime.

(** ** Configuration from the environment *)

Definition LOTHIAN_BASE_URL : string :=
  "https://www.lothianbuses.com/live-travel-info/live-bus-times/".

(** ** Data models *)

Record BusDeparture := mk_bus {
  route : string;
  due_mins : Z;
  aimed : option string;
  expected : option string;
  destination : option string;
  status : string
}.

(** [generated_at] is kept as the reading of the clock it is formatted
    from. *)
Record StopDepartures := mk_stop {
  stop_code : string;
  stop_name : option string;
  generated_at : datetime;
  departures : list BusDeparture;
  error : option string;
  cached : bool
}.

(** ** The cache

    Python objects have an identity, and the cache hands objects around by
    reference.  The [StopDepartures] objects live in a heap indexed by
    locations; an entry of the cache holds the location of its payload. *)

Module SimpleCache.

Record CacheEntry := mk_entry {
  data : positive;
  expires_at : Z
}.

(** A point of time of the naive local clock, and a [timedelta], are
    counted in microseconds. *)
Record t := mk_cache {
  _cache : gmap string CacheEntry;
  _ttl : Z
}.

(** [SimpleCache(ttl_seconds)] *)
Definition new (ttl_seconds : Z) : t := mk_cache ∅ (ttl_seconds * 1000000).

(** [o.cached = b] *)
Definition set_cached (b : bool) (o : StopDepartures) : StopDepartures :=
  mk_stop (stop_code o) (stop_name o) (generated_at o) (departures o)
    (error o) b.

(** [obj.model_copy()], for the object at [l]: a new object, at a location
    that no object occupies, with the fields of [obj].  The copy is shallow:
    the values of the fields are those of [obj].  [None] is a reference to
    no object, which the cache never holds. *)
Definition model_copy (l : positive) (h : gmap positive StopDepartures)
  : option (positive * gmap positive StopDepartures) :=
  match h !! l with
  | Some o => let l' := fresh (dom h) in Some (l', <[l' := o]> h)
  | None => None
  end.

(** [get(key)] at the reading [now] of the clock.  The result is the
    location returned, with the heap and the cache as they are left. *)
Definition get (key : string) (now : Z)
    (h : gmap positive StopDepartures) (c : t)
  : option positive * gmap positive StopDepartures * t :=
  match _cache c !! key with
  | Some entry =>
      if now <? expires_at entry then
        match model_copy (data entry) h with
        | Some (result, h') => (Some result, alter (set_cached true) result h', c)
        | None => (None, h, c)
        end
      else (None, h, mk_cache (delete key (_cache c)) (_ttl c))
  | None => (None, h, c)
  end.

(** [set(key, data)] at the reading [now] of the clock: the entry keeps the
    reference it is given. *)
Definition set (key : string) (payload : positive) (now : Z) (c : t) : t :=
  mk_cache (<[key := mk_entry payload (now + _ttl c)]> (_cache c)) (_ttl c).

Definition clear (c : t) : t := mk_cache ∅ (_ttl c).

End SimpleCache.

(** ** The time text of a departure row *)

(** An exception of the row body that its inner handlers do not catch is
    [None]: the handler of the row logs it and goes to the next row. *)
Definition minutes_branch (time_text : string) : option Z :=
  match Py.search_digits time_text with
  | Some g => Py.int g
  | None => Some 0
  end.

(** Lines 311 to 321; every exception in there is passed over and leaves
    [due_mins] at 0. *)
Definition clock_branch (now : datetime) (time_text : string) : Z :=
  match Py.split ":" time_text with
  | p0 :: p1 :: _ =>
      match Py.int p0, Py.int (Py.take 2 p1) with
      | Some h, Some m => default 0 (due_from_clock now h m)
      | _, _ => 0
      end
  | _ => 0
  end.

(** Lines 284 and 298 to 321: [due_mins] from the text found for the time,
    [now] being the reading of [datetime.now()] of line 315. *)
Definition due_mins_of_text (now : datetime) (time_text : option string) : option Z :=
  match time_text with
  | Some (String _ _ as tx) =>
      let time_text_lower := Py.lower tx in
      if Py.contains "due" time_text_lower || Py.contains "now" time_text_lower
      then Some 0
      else if Py.contains "min" time_text_lower then minutes_branch tx
      else if Py.contains ":" tx then Some (clock_branch now tx)
      else Some 0
  | _ => Some 0
  end.

(** The clock text the specification writes [HH:MM]: two digits, a colon,
    two digits. *)
Definition digit_char (n : nat) : ascii := ascii_of_nat (48 + n).

Definition two_digit_text (n : nat) : string :=
  String (digit_char (n / 10)) (String (digit_char (n mod 10)) EmptyString).

Definition clock_text (h m : nat) : string :=
  two_digit_text h +:+ ":" +:+ two_digit_text m.

(** The text the specification writes [<N> min(s)]. *)
Definition minutes_text (n : nat) (plural : bool) : string :=
  NilEmpty.string_of_uint (Nat.to_uint n)
  +:+ (if plural then " mins" else " min").

(** The decimal numeral of [n], the [<N>] of that text. *)
Definition numeral (n : nat) : string := NilEmpty.string_of_uint (Nat.to_uint n).

(** The hour and the minute that lines 313 and 314 read in a text with a
    colon: [int] of what stands before the first colon, and [int] of the
    first two characters of what follows it. *)
Definition clock_fields (time_text : string) : option (Z * Z) :=
  match Py.split ":" time_text with
  | p0 :: p1 :: _ =>
      match Py.int p0, Py.int (Py.take 2 p1) with
      | Some h, Some m => Some (h, m)
      | _, _ => None
      end
  | _ => None
  end.

(** The time texts on which the [int] of line 308 raises: "min" occurs,
    neither "due" nor "now" does, and the first run of digits has more
    digits than [int] accepts. *)
Definition overlong_minutes (time_text : option string) : Prop :=
  exists tx g,
    time_text = Some tx
    /\ ~ Py.occurs_ignoring_case "due" tx
    /\ ~ Py.occurs_ignoring_case "now" tx
    /\ Py.occurs_ignoring_case "min" tx
    /\ Py.search_digits tx = Some g
    /\ (Py.MAX_STR_DIGITS < N.of_nat (String.length g))%N.

(** ** The page *)

(** The two handlers at the end of [scrape_lothian_stop] tell
    [asyncio.TimeoutError] from any other [Exception], of which they use
    [str(e)]. *)
Inductive exn :=
| TimeoutError
| OtherError (msg : string).

(** What [await elem.query_selector(sel)] followed by
    [await found.text_content()] comes to: one of the two raises, the
    selector matches nothing, or the text of the match (which can be
    [None]). *)
Inductive query_result :=
| QRaises
| QNothing
| QText (text : option string).

(** An element is known by what its selectors give. *)
Definition element := string -> query_result.

(** What the browser and the page do in one invocation.  Each field is the
    outcome of the awaited calls of the lines named; [Some e] says that one
    of them raises [e]. *)
Record session := mk_session {
  get_browser : option exn;                       (* line 167 *)
  new_page : option exn;                          (* line 168 *)
  open_page : option exn;                         (* lines 176 to 183 *)
  wait_for_selector : string -> option bool;      (* line 200: raises, or found? *)
  submit_search : option exn;                     (* lines 209 to 214 *)
  open_direct_url : option exn;                   (* lines 217 to 220 *)
  page_query : element;                           (* lines 233 to 236 *)
  query_selector_all : string -> option (list element);   (* line 256 *)
  row_clock : nat -> datetime;                    (* line 315, by row *)
  page_content : option exn;                      (* line 373 *)
  close_page : option exn;                        (* line 387 *)
  return_clock : datetime                         (* line 392 *)
}.

(** The double quote, for the selectors that have one. *)
Definition dq : string := String (ascii_of_nat 34) EmptyString.

Definition search_selectors : list string :=
  ["input[name=" +:+ dq +:+ "stop" +:+ dq +:+ "]";
   "input[placeholder*=" +:+ dq +:+ "stop" +:+ dq +:+ "]";
   "input[id*=" +:+ dq +:+ "stop" +:+ dq +:+ "]";
   "input[type=" +:+ dq +:+ "search" +:+ dq +:+ "]";
   "#stop-search"; ".stop-search input"; "input.form-control"].

Definition stop_name_selectors : list string :=
  [".stop-name"; "h1.stop-title"; "h2.stop-name"; ".departure-board-header h2";
   "[data-stop-name]"].

Definition departure_selectors : list string :=
  [".departure-row"; ".bus-departure"; "tr.departure"; ".live-times li";
   ".departure-board tbody tr"; "[data-departure]"].

Definition route_selectors : list string :=
  [".route"; ".service"; ".bus-number"; "td:first-child"; ".line-number"].

Definition time_selectors : list string :=
  [".time"; ".due"; ".minutes"; "td:last-child"; ".departure-time"].

Definition dest_selectors : list string :=
  [".destination"; ".to"; "td:nth-child(2)"].

Definition status_selectors : list string := [".status"; ".delay"; "[data-status]"].

(** Lines 198 to 205: is there a search box?  A selector that raises or
    finds nothing passes to the next. *)
Fixpoint find_search (wait : string -> option bool) (sels : list string) : bool :=
  match sels with
  | [] => false
  | sel :: rest =>
      match wait sel with
      | Some true => true
      | _ => find_search wait rest
      end
  end.

(** [x.strip() if x else None] *)
Definition stripped (x : option string) : option string :=
  if Py.truthy_opt x then Some (Py.strip (default EmptyString x)) else None.

(** The loop over the selectors of one field (stop name, route, time,
    destination).  [cur] is the variable the loop assigns; the loop breaks
    on the first truthy text, and a raise keeps the variable as it is. *)
Fixpoint first_text (e : element) (sels : list string) (cur : option string)
  : option string :=
  match sels with
  | [] => cur
  | sel :: rest =>
      match e sel with
      | QText x =>
          let v := stripped x in
          if Py.truthy_opt v then v else first_text e rest v
      | QNothing | QRaises => first_text e rest cur
      end
  end.

(** Lines 345 to 352. *)
Definition status_of_text (status_text : string) : string :=
  let st := Py.lower (Py.strip status_text) in
  if Py.contains "late" st || Py.contains "delayed" st then "Late"
  else if Py.contains "early" st then "Early"
  else if Py.contains "on time" st then "On time"
  else "Scheduled".

(** Lines 338 to 355: the loop breaks on the first selector that matches an
    element whose text could be read. *)
Fixpoint status_chain (e : element) (sels : list string) : string :=
  match sels with
  | [] => "Scheduled"
  | sel :: rest =>
      match e sel with
      | QText x =>
          if Py.truthy_opt x then status_of_text (default EmptyString x)
          else "Scheduled"
      | QNothing | QRaises => status_chain e rest
      end
  end.

(** The body of the loop over the rows, lines 265 to 368; [None] is a row
    that is passed over. *)
Definition parse_row (now : datetime) (e : element) : option BusDeparture :=
  let route := first_text e route_selectors None in
  if negb (Py.truthy_opt route) then None
  else
    let time_text := first_text e time_selectors None in
    match due_mins_of_text now time_text with
    | None => None
    | Some due =>
        Some (mk_bus (default EmptyString route) due time_text time_text
                (first_text e dest_selectors None)
                (status_chain e status_selectors))
    end.

Fixpoint parse_rows (clock : nat -> datetime) (i : nat) (rows : list element)
  : list BusDeparture :=
  match rows with
  | [] => []
  | e :: rest =>
      match parse_row (clock i) e with
      | Some d => d :: parse_rows clock (S i) rest
      | None => parse_rows clock (S i) rest
      end
  end.

(** Lines 253 to 262: the rows of the first selector that finds any. *)
Fixpoint find_rows (q : string -> option (list element)) (sels : list string)
  : list element :=
  match sels with
  | [] => []
  | sel :: rest =>
      match q sel with
      | Some (e :: els) => e :: els
      | _ => find_rows q rest
      end
  end.

(** The text of the two handlers of lines 380 to 385. *)
Definition describe (stop : string) (e : exn) : string :=
  match e with
  | TimeoutError => "Timeout while fetching stop " +:+ stop
  | OtherError msg => "Error scraping stop " +:+ stop +:+ ": " +:+ msg
  end.

(** The [try] block with its two handlers, lines 174 to 385: the local
    variables [departures], [stop_name] and [error] as they stand when the
    [finally] clause is reached. *)
Definition scrape_body (ss : session) (stop : string)
  : list BusDeparture * option string * option string :=
  match open_page ss with
  | Some e => ([], None, Some (describe stop e))
  | None =>
      let navigation :=
        if find_search (wait_for_selector ss) search_selectors
        then submit_search ss
        else open_direct_url ss in
      match navigation with
      | Some e => ([], None, Some (describe stop e))
      | None =>
          let name := first_text (page_query ss) stop_name_selectors None in
          let rows := firstn 10 (find_rows (query_selector_all ss) departure_selectors) in
          match parse_rows (row_clock ss) 0 rows with
          | [] =>
              match page_content ss with
              | Some e => ([], name, Some (describe stop e))
              | None =>
                  ([], name,
                   Some "No departure data found - website structure may have changed")
              end
          | d :: ds => (d :: ds, name, None)
          end
      end
  end.

(** [scrape_lothian_stop]: [inl e] is the exception [e] leaving the
    function, [inr r] is [return r]. *)
Definition scrape_lothian_stop (ss : session) (stop : string) : exn + StopDepartures :=
  match get_browser ss with
  | Some e => inl e
  | None =>
      match new_page ss with
      | Some e => inl e
      | None =>
          let '(deps, name, err) := scrape_body ss stop in
          match close_page ss with
          | Some e => inl e
          | None => inr (mk_stop stop name (return_clock ss) deps err false)
          end
      end
  end.

End Scraper.

(* ===================================================================== *)
(** * Sample configurations and worlds *)
(* ===================================================================== *)

Module Sample.
Import DateTime Coordinator.

(** Ten past eight in the morning of some day. *)
Definition morning : datetime := mk_datetime 739000 8 10 0 0.

(** A stop is configured, everything else is left to the defaults. *)
Definition config_stop : Config :=
  mk_config (Some "6200206420") None None None None None None None None None.

(** The same with the allow-list of routes ["12"]. *)
Definition config_route_12 : Config :=
  mk_config (Some "6200206420") (Some "12") None None None None None None None None.

Definition dep_0805 : raw_departure :=
  mk_raw (Some (Some "08:05")) None None (Some (Some "City")).

Definition dep_0815 : raw_departure :=
  mk_raw (Some (Some "08:15")) None None (Some (Some "City")).

Definition dep_untimed : raw_departure :=
  mk_raw (Some None) None None (Some (Some "City")).

Definition dep_0830 : raw_departure :=
  mk_raw (Some (Some "08:30")) None None (Some (Some "City")).

(** Three departures of one route, listed out of order: at 08:30, without
    any time, at 08:15. *)
Definition payload_out_of_order : api_payload :=
  mk_api (Some [("X4", [dep_0830; dep_untimed; dep_0815])]).

Definition payload_X4 : api_payload := mk_api (Some [("X4", [dep_0815])]).

Definition payload_untimed_then_0805 : api_payload :=
  mk_api (Some [("X4", [dep_untimed; dep_0805])]).

(** A world of one moment in which the primary source gives the same answer
    to every request, the scraper service is down, the host has no entity
    and service calls succeed. *)
Definition world_of (answer : http_outcome api_payload) : world :=
  mk_world (fun _ => morning) (fun _ _ => answer)
    (fun _ _ _ => ClientError "Cannot connect to host")
    (fun _ _ => None) (fun _ => None).

(** The same moment for the first fourteen readings of the clock, and the
    same time of the next day from then on. *)
Definition world_two_days : world :=
  mk_world
    (fun n => if (n <? 14)%nat then morning else mk_datetime 739001 8 10 0 0)
    (fun _ _ => Response 200 (mk_api (Some [("X4", [dep_0815])])))
    (fun _ _ _ => ClientError "Cannot connect to host")
    (fun _ _ => None) (fun _ => None).

Definition world_X4 : world := world_of (Response 200 payload_X4).
Definition world_500 : world := world_of (Response 500 (mk_api None)).
Definition world_no_departures : world := world_of (Response 200 (mk_api (Some []))).

(** A calendar is configured, with one office and one work-from-home
    keyword; the calendar entity is "on" with the given event text. *)
Definition config_calendar : Config :=
  mk_config (Some "6200206420") None None None None None
    (Some "calendar.work") (Some "Office") (Some "WFH") None.

Definition world_event (text : string) : world :=
  mk_world (fun _ => morning) (fun _ _ => Response 200 payload_X4)
    (fun _ _ _ => ClientError "Cannot connect to host")
    (fun _ entity =>
       if String.eqb entity "calendar.work"
       then Some (mk_entity "on" (Some text)) else None)
    (fun _ => None).

(** Two records as the scraper service sends them: a bus that is due, and
    one in five minutes. *)
Definition due_now : departure :=
  mk_departure "X4" (Some 0) (Some "Due") (Some "Due") (Some "City") "Scheduled" None.

Definition due_in_5 : departure :=
  mk_departure "X4" (Some 5) (Some "5 min") (Some "5 min") (Some "City") "Scheduled" None.

End Sample.

Module ScraperSample.
Import DateTime Scraper.

(** Ten past eight in the morning, and half a minute later. *)
Definition morning : datetime := mk_datetime 739000 8 10 0 0.
Definition morning_later : datetime := mk_datetime 739000 8 10 30 0.

(** A row of route 12 whose time cell reads "soon". *)
Definition row_soon : element :=
  fun sel =>
    if String.eqb sel ".route" then QText (Some "12")
    else if String.eqb sel ".time" then QText (Some "soon")
    else QNothing.

(** A number of 4301 digits, and a row of route 12 that is that many
    minutes away. *)
Definition nines : string := string_of_list_ascii (repeat "9"%char 4301).

Definition row_overlong : element :=
  fun sel =>
    if String.eqb sel ".route" then QText (Some "12")
    else if String.eqb sel ".time" then QText (Some (nines +:+ " min"))
    else QNothing.

(** A page that loads, has a search box, and shows no departure row. *)
Definition session_blank : session :=
  mk_session None None None (fun _ => Some true) None None (fun _ => QNothing)
    (fun _ => Some []) (fun _ => morning) None None morning.

(** The browser cannot be started. *)
Definition session_no_browser : session :=
  mk_session (Some (OtherError "Executable doesn't exist")) None None
    (fun _ => Some true) None None (fun _ => QNothing)
    (fun _ => Some []) (fun _ => morning) None None morning.

(** The page is gone when it is to be closed. *)
Definition session_close_fails : session :=
  mk_session None None (Some TimeoutError)
    (fun _ => Some true) None None (fun _ => QNothing)
    (fun _ => Some []) (fun _ => morning) None
    (Some (OtherError "Target page, context or browser has been closed")) morning.

End ScraperSample.

(* ===================================================================== *)
(** * The entry points of the coordinator and what the ledger bounds *)
(* ===================================================================== *)

Module Entry.
Import DateTime Coordinator.

(** What the rest of the integration calls on the coordinator: the update
    interval of the host, the three services of [__init__.py] with the
    three buttons of [button.py], the two admission sensors of
    [binary_sensor.py], and the two counter properties. *)
Inductive action :=
| Tick                 (* update_interval: async_refresh *)
| RefreshCommute       (* refresh_commute, RefreshCommuteButton.async_press *)
| SendNotification     (* send_notification, SendNotificationButton.async_press *)
| ResetCounters        (* reset_counters, ResetCountersButton.async_press *)
| CanAutoSensor        (* CanCallApiAutoBinarySensor.is_on *)
| CanManualSensor      (* CanCallApiManualBinarySensor.is_on *)
| CallsTodayProperty
| AutoCallsTodayProperty.

Section Actions.
Variable w : world.
Variable config : Config.

Definition perform (a : action) : M unit :=
  match a with
  | Tick => async_refresh w config
  | RefreshCommute => async_manual_refresh w config
  | SendNotification => async_send_notification w config
  | ResetCounters => async_reset_daily_counters w config
  | CanAutoSensor => can_call_api_auto w config ;; ret tt
  | CanManualSensor => can_call_api_manual w config ;; ret tt
  | CallsTodayProperty => calls_today w ;; ret tt
  | AutoCallsTodayProperty => auto_calls_today w ;; ret tt
  end.

Fixpoint perform_all (l : list action) : M unit :=
  match l with
  | [] => ret tt
  | a :: rest => perform a ;; perform_all rest
  end.

(** The state after a sequence of actions. *)
Definition after (l : list action) (s : state) : state := snd (perform_all l s).

(** The two fetch cycles open alike, lines 248 to 254 and 328 to 333: the
    reset check, the reading of the clock that becomes the time of the last
    check, and the test for a configured stop.  [entering s] is the state
    in which a cycle started in [s] reaches its admission check. *)
Definition entering (s : state) : state :=
  snd ((_check_daily_reset w ;;
        t <- now w ;;
        modify (set_last_check_time (Some t))) s).

(** The fetch cycle of each kind. *)
Definition cycle (k : kind) : M unit :=
  match k with
  | Automatic => _async_update_data w config ;; ret tt
  | Manual => manual_fetch w config ;; ret tt
  end.

End Actions.

(** The three quota settings as the admission checks read them. *)
Definition quota_of (config : Config) : Z :=
  default DEFAULT_DAILY_QUOTA (daily_quota config).
Definition reserved_of (config : Config) : Z :=
  default DEFAULT_RESERVED_FOR_MANUAL (reserved_for_manual config).
Definition max_auto_of (config : Config) : Z :=
  default DEFAULT_MAX_AUTO_CALLS (max_auto_calls config).

(** The comparison each admission makes, on the two counters. *)
Definition admits (config : Config) (k : kind) (calls auto : Z) : bool :=
  match k with
  | Automatic =>
      (calls <? quota_of config - reserved_of config) && (auto <? max_auto_of config)
  | Manual => calls <? quota_of config
  end.

(** The ledger: the two counters, and the numbers of requests sent so far
    to the primary source and to the scraper service. *)
Record ledger := mk_ledger {
  l_calls : Z;
  l_auto : Z;
  l_api : nat;
  l_scraper : nat
}.

Definition ledger_of (s : state) : ledger :=
  mk_ledger (_calls_today s) (_auto_calls_today s) (api_requests s)
    (scraper_requests s).

(** The five ways in which the ledger changes: both counters are zeroed
    (by the daily reset or by the reset service); an admitted request to the
    primary source is sent and not counted (it is not answered with status
    200), or counted as a call (it is), or counted as a call and as an
    automatic call (it is answered with departures, in the automatic cycle);
    a request is sent to the scraper service. *)
Inductive event (config : Config) : ledger -> ledger -> Prop :=
| Zeroed c a p q :
    event config (mk_ledger c a p q) (mk_ledger 0 0 p q)
| NotCounted k c a p q :
    admits config k c a = true ->
    event config (mk_ledger c a p q) (mk_ledger c a (S p) q)
| Counted k c a p q :
    admits config k c a = true ->
    event config (mk_ledger c a p q) (mk_ledger (c + 1) a (S p) q)
| CountedAutomatic c a p q :
    admits config Automatic c a = true ->
    event config (mk_ledger c a p q) (mk_ledger (c + 1) (a + 1) (S p) q)
| Scraped c a p q :
    event config (mk_ledger c a p q) (mk_ledger c a p (S q)).

(** [m] moves the ledger along the relation [L]. *)
Definition respects (L : ledger -> ledger -> Prop) {A} (m : M A) : Prop :=
  forall s, L (ledger_of s) (ledger_of (snd (m s))).

(** The budget: the automatic calls are among the calls, the calls are
    within the daily quota, and the automatic calls are within their cap and
    within the part of the quota that is not reserved. *)
Definition within_budget (config : Config) (l : ledger) : Prop :=
  0 <= l_auto l <= l_calls l
  /\ l_calls l <= Z.max 0 (quota_of config)
  /\ l_auto l <= Z.max 0 (max_auto_of config)
  /\ l_auto l <= Z.max 0 (quota_of config - reserved_of config).

(** The most requests an action sends to either source, and the most calls
    to the notification service it makes. *)
Definition requests_of (a : action) : nat :=
  match a with
  | Tick | ResetCounters => 1
  | RefreshCommute => 2
  | _ => 0
  end.

Definition notifications_of (a : action) : nat :=
  match a with
  | RefreshCommute | SendNotification => 1
  | _ => 0
  end.

(** [m] raises the counter [f] of the state by [n] at most, and never
    lowers it. *)
Definition costs (f : state -> nat) (n : nat) {A} (m : M A) : Prop :=
  forall s, (f s <= f (snd (m s)) <= f s + n)%nat.

(** [m] leaves the reading [f] of the state as it is. *)
Definition keeps {B} (f : state -> B) {A} (m : M A) : Prop :=
  forall s, f (snd (m s)) = f s.

(** ** [sensor.py] and [binary_sensor.py]: what the entities show

    Every entity reads [self.coordinator.data or {}]. *)

Definition details_of (d : option update_data) : option details :=
  match d with
  | Some u => ud_details u
  | None => None
  end.

(** [data.get("next_bus")] *)
Definition next_bus_of (d : option update_data) : option departure :=
  match details_of d with
  | Some det => next_bus det
  | None => None
  end.

(** [NextBusMinutesSensor.native_value].  A departure record is a
    dictionary that is not empty, hence truthy. *)
Definition next_bus_minutes (d : option update_data) : option Z :=
  match next_bus_of d with
  | Some nb => due_mins nb
  | None => None
  end.

(** [BusDataSourceSensor.native_value] *)
Definition bus_data_source (d : option update_data) : string :=
  match d with
  | Some u => source (ud_snapshot u)
  | None => SOURCE_NONE
  end.

(** [ApiCallsTodaySensor.native_value] and
    [AutoApiCallsTodaySensor.native_value] *)
Definition api_calls_today (d : option update_data) : Z :=
  match details_of d with
  | Some det => calls_today_key det
  | None => 0
  end.

Definition auto_api_calls_today (d : option update_data) : Z :=
  match details_of d with
  | Some det => auto_calls_today_key det
  | None => 0
  end.

Definition DEFAULT_BUS_GAP_THRESHOLD : Z := 20.

(** [CommutePotentialIssueBinarySensor.is_on].  The traffic delay is a
    float; [traffic_over] is the outcome of the first comparison,
    [traffic_delay >= delay_threshold], and [bus_gap_threshold] is the
    setting [CONF_BUS_GAP_THRESHOLD], an [int].  A departure record always
    has the key ["due_mins"], so [next_bus.get("due_mins", 999)] is its
    value, which can be [None]; the result [None] is the [TypeError] of
    comparing [None] with a number. *)
Definition potential_issue (traffic_over : bool) (bus_gap_threshold : option Z)
    (d : option update_data) : option bool :=
  let bus_threshold := default DEFAULT_BUS_GAP_THRESHOLD bus_gap_threshold in
  if traffic_over then Some true
  else
    match next_bus_of d with
    | None => Some ((bus_threshold <=? 999) || (999 =? 999))
    | Some nb =>
        match due_mins nb with
        | Some bus_mins => Some ((bus_threshold <=? bus_mins) || (bus_mins =? 999))
        | None => None
        end
    end.

(** What a refresh leaves for the entities to show: the snapshot the
    coordinator keeps is the one it publishes, the next bus is its first
    departure, the counters shown are the counters of the ledger, and a
    snapshot whose source is None has no departure. *)
Definition published (s : state) : Prop :=
  exists snap,
    _bus_data s = Some snap
    /\ _data_source s = source snap
    /\ option_map ud_snapshot (data s) = Some snap
    /\ bus_data_source (data s) = source snap
    /\ next_bus_of (data s) = hd_error (departures snap)
    /\ api_calls_today (data s) = _calls_today s
    /\ auto_api_calls_today (data s) = _auto_calls_today s
    /\ (source snap = SOURCE_NONE -> departures snap = [])
    /\ In (source snap) [SOURCE_TRANSPORTAPI; SOURCE_SCRAPER; SOURCE_NONE].

(** The three entry points that end with a refresh. *)
Definition refreshes (a : action) : bool :=
  match a with
  | Tick | RefreshCommute | ResetCounters => true
  | _ => false
  end.

(** What [published] reads of the state. *)
Definition shown (s : state) :=
  (data s, _bus_data s, _data_source s, _calls_today s, _auto_calls_today s).

(** ** The route filter of the two normalizers *)

(** A route passes when the allow-list is empty or names it: lines 176
    and 239 to 240. *)
Definition allowed (config : Config) (rt : string) : bool :=
  Nat.eqb (length (allowlist config)) 0 || Py.mem rt (allowlist config).

(** The order of the sort of lines 231 and 243. *)
Definition by_sort_key (a b : departure) : Prop := sort_key a <= sort_key b.

(** An entry of the primary source that gives both times as clock texts,
    and no estimate of its own. *)
Definition timed_entry (ha ma he me : nat) (dir : option (option string))
  : raw_departure :=
  mk_raw (Some (Some (Scraper.clock_text ha ma)))
    (Some (Some (Scraper.clock_text he me))) None dir.

(** ** A day on which the quota is used up

    [D] and [N] are as in [Coordinator.steady_at].  [m] only reads the clock
    forwards, and when it is run on day [D] with the calls at the quota or
    above and ends before the clock leaves the day, the state grows and no
    request has been sent to the primary source. *)
Definition calm_at (w : world) (config : Config) (D : Z) (N : nat) {A}
    (m : M A) (s : state) : Prop :=
  (ticks s <= ticks (snd (m s)))%nat
  /\ (today w D N s -> quota_of config <= _calls_today s ->
      (ticks (snd (m s)) <= N)%nat ->
      grows s (snd (m s)) /\ api_requests (snd (m s)) = api_requests s).

(** The admissions an entry point can ask for. *)
Definition kinds_of (a : action) : list kind :=
  match a with
  | Tick | ResetCounters => [Automatic]
  | RefreshCommute => [Manual; Automatic]
  | _ => []
  end.

(** The part of the quota that the automatic cycle may use. *)
Definition unreserved (config : Config) : Z :=
  Z.max 0 (quota_of config - reserved_of config).

(** ** [config_flow.py]: the quota step

    The form of [async_step_quota] requires the three settings, coerces
    them to [int] and accepts them within these ranges; what it accepts is
    stored in the data of the entry, which the coordinator reads. *)
Definition accepted_quota (config : Config) : Prop :=
  exists q r m,
    daily_quota config = Some q /\ 1 <= q <= 1000
    /\ reserved_for_manual config = Some r /\ 0 <= r <= 30
    /\ max_auto_calls config = Some m /\ 1 <= m <= 30.

End Entry.

(* ===================================================================== *)
(** * [app.py]: the endpoints of the scraper service *)
(* ===================================================================== *)

Module Service.
Import DateTime Scraper.

(** The module-level state of the service: the objects it has made, the
    global [cache], and the stop codes [scrape_lothian_stop] has been called
    with, the latest first. *)
Record service := mk_service {
  heap : gmap positive StopDepartures;
  cache : SimpleCache.t;
  scraped : list string
}.

(** [cache = SimpleCache(ttl_seconds=CACHE_TTL_SECONDS)], before any
    request. *)
Definition start (ttl_seconds : Z) : service :=
  mk_service ∅ (SimpleCache.new ttl_seconds) [].

(** One request to [/lothian/stop/{stop_code}]: the stop code of the path,
    the readings of [datetime.now()] that [cache.get] and [cache.set] take,
    and what the browser and the page do if the stop is scraped. *)
Record request := mk_request {
  path_stop : string;
  t_get : Z;
  t_set : Z;
  page : session
}.

(** How the handler ends: it returns an object, which the framework
    serializes; it raises [HTTPException]; or an exception of the scrape
    leaves it. *)
Inductive reply :=
| Returned (l : positive)
| HTTPException (status_code : Z) (detail : string)
| Raised (e : exn).

(** [get_stop_departures].  An instance of a pydantic model is truthy, so
    [if cached_data:] tests for [None]. *)
Definition get_stop_departures (rq : request) (sv : service) : reply * service :=
  let stop_code := Py.upper (Py.strip (path_stop rq)) in
  if negb (Py.truthy stop_code)
  then (HTTPException 400 "Stop code is required", sv)
  else
    match SimpleCache.get stop_code (t_get rq) (heap sv) (cache sv) with
    | (Some cached_data, h, c) => (Returned cached_data, mk_service h c (scraped sv))
    | (None, h, c) =>
        match scrape_lothian_stop (page rq) stop_code with
        | inl e => (Raised e, mk_service h c (stop_code :: scraped sv))
        | inr data =>
            let l := fresh (dom h) in
            (Returned l,
             mk_service (<[l := data]> h)
               (SimpleCache.set stop_code l (t_set rq) c)
               (stop_code :: scraped sv))
        end
    end.

(** [clear_cache] *)
Definition clear_cache (sv : service) : service :=
  mk_service (heap sv) (SimpleCache.clear (cache sv)) (scraped sv).

(** The key under which a request looks its stop up. *)
Definition key_of (rq : request) : string := Py.upper (Py.strip (path_stop rq)).

(** Requests served one after the other. *)
Fixpoint serve (rqs : list request) (sv : service) : list reply * service :=
  match rqs with
  | [] => ([], sv)
  | rq :: rest =>
      let (r, sv1) := get_stop_departures rq sv in
      let (rs, sv2) := serve rest sv1 in
      (r :: rs, sv2)
  end.

(** The cache holds, under the key [K] and until [E], the object at [l],
    which is [obj]. *)
Definition holds (K : string) (l : positive) (obj : StopDepartures) (E : Z)
    (sv : service) : Prop :=
  SimpleCache._cache (cache sv) !! K = Some (SimpleCache.mk_entry l E)
  /\ heap sv !! l = Some obj.

(** ** The fields of a row, as the loops over the selectors find them *)

(** The stripped text a selector gives on an element; [None] when the
    query raises, matches nothing or has no text. *)
Definition text_at (e : element) (sel : string) : option string :=
  match e sel with
  | QText x => stripped x
  | _ => None
  end.

(** The first text, in the order of the selectors, that is not blank. *)
Fixpoint first_nonblank (e : element) (sels : list string) : option string :=
  match sels with
  | [] => None
  | sel :: rest =>
      match text_at e sel with
      | Some t => if Py.truthy t then Some t else first_nonblank e rest
      | None => first_nonblank e rest
      end
  end.

End Service.

Module ServiceSample.
Import DateTime Scraper ScraperSample.

(** A row of route 26 that is five minutes away and marked as delayed. *)
Definition row_5_min : element :=
  fun sel =>
    if String.eqb sel ".route" then QText (Some " 26 ")
    else if String.eqb sel ".time" then QText (Some "5 min")
    else if String.eqb sel ".destination" then QText (Some "Clerwood")
    else if String.eqb sel ".status" then QText (Some "Delayed")
    else QNothing.

(** A page that loads, has no search box, and lists two rows under the
    first selector. *)
Definition session_two_rows : session :=
  mk_session None None None (fun _ => Some false) None None (fun _ => QNothing)
    (fun sel => if String.eqb sel ".departure-row"
                then Some [row_5_min; row_soon] else Some [])
    (fun _ => morning) None None morning.

End ServiceSample.

(* ===================================================================== *)
(** * From the scraper service to the coordinator *)
(* ===================================================================== *)

Module Wire.
Import DateTime.

(** The body of an answer of the service as the coordinator reads it:
    the framework writes the returned [StopDepartures] as a JSON object,
    each [BusDeparture] with its six keys, and [response.json()] reads it
    back.  [due_mins] is an [int] of the model, hence always present, and
    there is no key ["is_realtime"]. *)
Definition to_record (d : Scraper.BusDeparture) : Coordinator.departure :=
  Coordinator.mk_departure (Scraper.route d) (Some (Scraper.due_mins d))
    (Scraper.aimed d) (Scraper.expected d) (Scraper.destination d)
    (Scraper.status d) None.

Definition to_payload (r : Scraper.StopDepartures) : Coordinator.scraper_payload :=
  Coordinator.mk_scr (Some (map to_record (Scraper.departures r))).

(** A world in which the scraper service answers every request with the
    result of scraping a page of two rows, and the primary source is down. *)
Definition world_scraper_up : Coordinator.world :=
  Coordinator.mk_world (fun _ => Sample.morning)
    (fun _ _ => Coordinator.ClientError "Cannot connect to host")
    (fun _ _ stop =>
       match Scraper.scrape_lothian_stop ServiceSample.session_two_rows stop with
       | inr r => Coordinator.Response 200 (to_payload r)
       | inl _ => Coordinator.Response 500 (Coordinator.mk_scr None)
       end)
    (fun _ _ => None) (fun _ => None).

End Wire.

(* ===================================================================== *)
(** * Properties of the quota ledger *)
(* ===================================================================== *)

Section LedgerFacts.
Import DateTime Coordinator.

Variable w : world.
Variable cfg : Config.
Variable D : Z.
Variable N : nat.

Local Abbreviation same_day := (Coordinator.same_day w D N).
Local Abbreviation today := (Coordinator.today w D N).
Local Abbreviation steady_at := (Coordinator.steady_at w D N).
Local Abbreviation steady := (Coordinator.steady w D N).

Lemma bind_eq {A B} (m : M A) (k : A -> M B) (s : state) :
  bind m k s = k (fst (m s)) (snd (m s)).
Proof. unfold bind. destruct (m s); reflexivity. Qed.

(** C1.  After the daily-reset check, the automatic admission holds
    exactly when [callsToday < dailyQuota - reservedForManual] and
    [autoCallsToday < maxAutoCalls], the manual admission exactly when
    [callsToday < dailyQuota]; neither predicate changes the ledger beyond
    that check. *)
Theorem admission_predicates (s : state) :
  let s' := snd (_check_daily_reset w s) in
  let quota := default DEFAULT_DAILY_QUOTA (daily_quota cfg) in
  let reserved := default DEFAULT_RESERVED_FOR_MANUAL (reserved_for_manual cfg) in
  let max_auto := default DEFAULT_MAX_AUTO_CALLS (max_auto_calls cfg) in
  (fst (can_call_api_auto w cfg s) = true
     <-> _calls_today s' < quota - reserved /\ _auto_calls_today s' < max_auto)
  /\ (fst (can_call_api_manual w cfg s) = true <-> _calls_today s' < quota)
  /\ snd (can_call_api_auto w cfg s) = s'
  /\ snd (can_call_api_manual w cfg s) = s'.
Proof.
  intros s' quota reserved max_auto.
  unfold can_call_api_auto, can_call_api_manual.
  rewrite !bind_eq. fold s'. cbn.
  rewrite andb_true_iff, !Z.ltb_lt. tauto.
Qed.

Lemma grows_refl s : grows s s.
Proof. unfold grows; repeat split; lia. Qed.

Lemma grows_trans s1 s2 s3 : grows s1 s2 -> grows s2 s3 -> grows s1 s3.
Proof. unfold grows; intros; repeat split; try lia; intuition congruence. Qed.

Lemma today_grows s s' : today s -> grows s s' -> today s'.
Proof.
  intros [[Hd [Hc Ha]] Hr] (Ht & Hc' & Ha' & _ & Hl).
  repeat split; try lia.
  - intros n Hn. apply Hd. lia.
  - rewrite Hl. exact Hr.
Qed.

Lemma steady_intro {A} (m : M A) s : grows s (snd (m s)) -> steady_at m s.
Proof. intros H. split; [apply H | intros _ _; exact H]. Qed.

Lemma steady_ret {A} (a : A) : steady (ret a).
Proof. intros s. apply steady_intro, grows_refl. Qed.

Lemma steady_gets {A} (f : state -> A) : steady (gets f).
Proof. intros s. apply steady_intro, grows_refl. Qed.

Lemma steady_bind {A B} (m : M A) (k : A -> M B) s :
  steady_at m s ->
  (forall a s1, a = fst (m s) -> s1 = snd (m s) -> steady_at (k a) s1) ->
  steady_at (bind m k) s.
Proof.
  intros [Hm1 Hm2] Hk. unfold Coordinator.steady_at. rewrite bind_eq.
  destruct (Hk _ _ eq_refl eq_refl) as [Hk1 Hk2].
  split; [lia|]. intros Hs HN.
  assert (Hg : grows s (snd (m s))) by (apply Hm2; [exact Hs|lia]).
  eapply grows_trans; [exact Hg|].
  apply Hk2; [eapply today_grows; eauto | exact HN].
Qed.

Lemma steady_now : steady (now w).
Proof. intros s. apply steady_intro. unfold grows; cbn. repeat split; lia. Qed.

Lemma steady_frame (f : state -> state) :
  (forall s, ticks (f s) = ticks s /\ _calls_today (f s) = _calls_today s
             /\ _auto_calls_today (f s) = _auto_calls_today s
             /\ log (f s) = log s
             /\ _last_reset_date (f s) = _last_reset_date s) ->
  steady (modify f).
Proof.
  intros H s. apply steady_intro. destruct (H s) as (H1 & H2 & H3 & H4 & H5).
  unfold grows, resets; cbn. rewrite H1, H2, H3, H4, H5.
  repeat split; lia.
Qed.

Lemma steady_set_calls s v :
  _calls_today s <= v -> steady_at (modify (set_calls_today v)) s.
Proof.
  intros H. apply steady_intro. unfold grows, resets; cbn. repeat split; lia.
Qed.

Lemma steady_set_auto s v :
  _auto_calls_today s <= v -> steady_at (modify (set_auto_calls_today v)) s.
Proof.
  intros H. apply steady_intro. unfold grows, resets; cbn. repeat split; lia.
Qed.

Lemma steady_logger l msg :
  is_reset_line (l, msg) = false -> steady (logger l msg).
Proof.
  intros H s. apply steady_intro.
  unfold grows, resets, logger, modify, add_log; cbn.
  rewrite List.filter_app, List.length_app. cbn [List.filter]. rewrite H. cbn.
  repeat split; lia.
Qed.

Lemma steady_mapM {A B} (f : A -> M B) (l : list A) :
  (forall x, steady (f x)) -> steady (mapM f l).
Proof.
  intros Hf. induction l as [|x t IH]; cbn [mapM].
  - apply steady_ret.
  - intros s. apply steady_bind; [apply Hf|]. intros a s1 _ _.
    apply steady_bind; [apply IH|]. intros; apply steady_ret.
Qed.

(** Symbolic execution of a monadic body, one construct at a time. *)
Ltac steady_leaf :=
  first
    [ apply steady_ret
    | apply steady_gets
    | apply steady_now
    | apply steady_logger; reflexivity
    | apply steady_set_calls; lia
    | apply steady_set_auto; lia
    | apply steady_frame; intros; cbn; repeat split; reflexivity ].

Ltac steady_go :=
  repeat
    match goal with
    | |- steady _ => intros ?
    | |- steady_at (bind (gets _) _) _ =>
        apply steady_bind; [apply steady_gets|]; intros ? ? -> ->; cbn [gets fst snd]
    | |- steady_at (bind _ _) _ => apply steady_bind; [|intros ? ? _ _]
    | |- steady_at (if ?b then _ else _) _ => destruct b
    | |- steady_at (match ?x with _ => _ end) _ => destruct x
    | |- steady_at (let _ := _ in _) _ => cbv zeta
    | |- steady_at _ _ => steady_leaf
    end.

(** The reset check, by whether it fires. *)
Lemma check_cases (s : state) :
  let s0 := snd (_check_daily_reset w s) in
  ticks s0 = S (ticks s)
  /\ (needs_reset (_last_reset_date s) (clock w (ticks s)) = false ->
      s0 = set_ticks (S (ticks s)) s)
  /\ (needs_reset (_last_reset_date s) (clock w (ticks s)) = true ->
      _calls_today s0 = 0 /\ _auto_calls_today s0 = 0
      /\ _last_reset_date s0 = Some (clock w (ticks s))
      /\ resets s0 = S (resets s)).
Proof.
  unfold _check_daily_reset. rewrite !bind_eq.
  cbn [now gets fst snd set_ticks _last_reset_date].
  destruct (needs_reset (_last_reset_date s) (clock w (ticks s))); cbn.
  - repeat split; try discriminate.
    unfold resets; cbn. rewrite List.filter_app, List.length_app; cbn. lia.
  - repeat split; discriminate.
Qed.

Lemma today_needs_no_reset (s : state) :
  today s -> (ticks s < N)%nat ->
  needs_reset (_last_reset_date s) (clock w (ticks s)) = false.
Proof.
  intros [[Hd _] (d & Hl & Hdate)] Hlt. rewrite Hl. cbn.
  rewrite Hdate, (Hd (ticks s)) by lia. rewrite Z.eqb_refl. reflexivity.
Qed.

Lemma steady_check : steady (_check_daily_reset w).
Proof.
  intros s. destruct (check_cases s) as (Ht & Hold & _).
  split; [lia|]. intros Hs HN.
  rewrite Hold by (apply today_needs_no_reset; [exact Hs|lia]).
  unfold grows, resets; cbn. repeat split; lia.
Qed.

Lemma steady_can_auto : steady (can_call_api_auto w cfg).
Proof. unfold can_call_api_auto. steady_go. apply steady_check. Qed.

Lemma steady_can_manual : steady (can_call_api_manual w cfg).
Proof. unfold can_call_api_manual. steady_go. apply steady_check. Qed.

Lemma steady_calls_today : steady (calls_today w).
Proof. unfold calls_today. steady_go. apply steady_check. Qed.

Lemma steady_auto_calls_today : steady (auto_calls_today w).
Proof. unfold auto_calls_today. steady_go. apply steady_check. Qed.

Lemma steady_fetch_transportapi stop : steady (_fetch_transportapi w stop).
Proof. unfold _fetch_transportapi. steady_go. Qed.

Lemma steady_fetch_scraper stop : steady (_fetch_scraper w cfg stop).
Proof. unfold _fetch_scraper. steady_go. Qed.

Lemma steady_parse_transportapi d : steady (_parse_transportapi_departures w cfg d).
Proof.
  unfold _parse_transportapi_departures, transportapi_records. steady_go.
  apply steady_mapM. intros e. unfold parse_route. steady_go.
  apply steady_mapM. intros x. unfold parse_departure, due_mins_of. steady_go.
Qed.

Lemma steady_check_commute : steady (_check_commute_day w cfg).
Proof. unfold _check_commute_day. steady_go. Qed.

Lemma steady_fall_back stop cur : steady (fall_back w cfg stop cur).
Proof. unfold fall_back. steady_go. apply steady_fetch_scraper. Qed.

Lemma steady_primary_auto stop : steady (primary_auto w cfg stop).
Proof.
  unfold primary_auto. steady_go;
    first [apply steady_can_auto | apply steady_fetch_transportapi
          | apply steady_parse_transportapi].
Qed.

Lemma steady_primary_manual stop : steady (primary_manual w cfg stop).
Proof.
  unfold primary_manual. steady_go;
    first [apply steady_can_manual | apply steady_fetch_transportapi
          | apply steady_parse_transportapi].
Qed.

Lemma steady_notification : steady (async_send_notification w cfg).
Proof. unfold async_send_notification. steady_go. Qed.

(** What a cycle does once its opening reset check is made. *)
Ltac steady_cycle :=
  steady_go;
  first [apply steady_primary_auto | apply steady_primary_manual
        | apply steady_fall_back | apply steady_check_commute
        | apply steady_notification | apply steady_check ].

Lemma steady_update : steady (_async_update_data w cfg).
Proof. unfold _async_update_data. steady_cycle. Qed.

Lemma steady_refresh : steady (async_refresh w cfg).
Proof. unfold async_refresh. steady_go. apply steady_update. Qed.

Lemma bind_assoc_at {A B C} (m : M A) (k : A -> M B) (k' : B -> M C) s :
  bind (bind m k) k' s = bind m (fun a => bind (k a) k') s.
Proof. rewrite !bind_eq. reflexivity. Qed.

(** Every operation opens with the reset check and goes on from the state
    the check leaves, along a path that no longer resets. *)
Lemma step_opens_with_check (o : op) :
  exists k : M unit,
    (forall s, step w cfg o s = k (snd (_check_daily_reset w s)))
    /\ steady k.
Proof.
  destruct o; cbn [step];
    unfold can_call_api_auto, can_call_api_manual, calls_today,
      auto_calls_today, async_manual_refresh, manual_fetch, async_refresh,
      _async_update_data;
    eexists; (split; [intros s; rewrite bind_assoc_at, bind_eq; cbv beta; reflexivity|]).
  - steady_go.
  - steady_go.
  - steady_go.
  - steady_go.
  - steady_cycle.
  - steady_cycle.
Qed.

Lemma check_same_day s :
  same_day s -> (ticks s < N)%nat ->
  let s0 := snd (_check_daily_reset w s) in
  today s0
  /\ (needs_reset (_last_reset_date s) (clock w (ticks s)) = false -> grows s s0).
Proof.
  intros (Hd & Hc & Ha) Hlt. destruct (check_cases s) as (Ht & Hold & Hnew).
  cbv zeta in *.
  destruct (needs_reset (_last_reset_date s) (clock w (ticks s))) eqn:Hr.
  - destruct (Hnew eq_refl) as (Hc0 & Ha0 & Hl0 & _).
    split; [|discriminate]. repeat split; try lia.
    + intros n Hn. apply Hd. lia.
    + eexists. split; [exact Hl0|]. apply Hd. lia.
  - rewrite (Hold eq_refl).
    assert (Hg : grows s (set_ticks (S (ticks s)) s))
      by (unfold grows, resets; cbn; repeat split; lia).
    split; [|intros _; exact Hg].
    apply today_grows with (s := s); [|exact Hg].
    split; [repeat split; assumption|].
    destruct (_last_reset_date s) as [d|]; [|discriminate].
    exists d. split; [reflexivity|]. cbn in Hr.
    apply negb_false_iff, Z.eqb_eq in Hr. rewrite Hr. apply Hd. lia.
Qed.

Lemma steady_step (o : op) : steady (step w cfg o).
Proof.
  intros s. destruct (step_opens_with_check o) as (k & Hk & Hst).
  unfold Coordinator.steady_at. rewrite Hk.
  destruct (steady_check s) as [Hc1 Hc2].
  destruct (Hst (snd (_check_daily_reset w s))) as [Hk1 Hk2].
  split; [lia|]. intros Hs HN.
  assert (Hg : grows s (snd (_check_daily_reset w s)))
    by (apply Hc2; [exact Hs|lia]).
  eapply grows_trans; [exact Hg|].
  apply Hk2; [eapply today_grows; eauto|exact HN].
Qed.

Lemma steady_run (ops : list op) : steady (run w cfg ops).
Proof.
  induction ops as [|o ops IH]; cbn [run].
  - apply steady_ret.
  - intros s. apply steady_bind; [apply steady_step|intros; apply IH].
Qed.

End LedgerFacts.

(* ===================================================================== *)
(** * Properties of the source orchestrator *)
(* ===================================================================== *)

Section OrchestratorFacts.
Import DateTime Coordinator.

Variable w : world.
Variable cfg : Config.

Lemma set_ticks_same (s : state) : s = set_ticks (ticks s) s.
Proof. destruct s; reflexivity. Qed.

(** The normalizer of the primary source reads the clock and touches
    nothing else. *)
Lemma mapM_only_ticks {A B} (f : A -> M B) (l : list A) :
  (forall x s, exists n, snd (f x s) = set_ticks n s) ->
  forall s, exists n, snd (mapM f l s) = set_ticks n s.
Proof.
  intros Hf. induction l as [|x t IH]; intros s; cbn [mapM].
  - exists (ticks s). cbn. apply set_ticks_same.
  - rewrite !bind_eq. cbn [ret snd].
    destruct (Hf x s) as [n Hn]. rewrite Hn.
    destruct (IH (set_ticks n s)) as [n' Hn']. rewrite Hn'.
    exists n'. reflexivity.
Qed.

Lemma parse_departure_only_ticks rt dep s :
  exists n, snd (parse_departure w rt dep s) = set_ticks n s.
Proof.
  unfold parse_departure, due_mins_of. rewrite bind_eq. cbn [ret snd].
  destruct (Py.truthy_opt _).
  - rewrite bind_eq. cbn. eexists; reflexivity.
  - exists (ticks s). cbn. apply set_ticks_same.
Qed.

Lemma parse_only_ticks d s :
  exists n, snd (_parse_transportapi_departures w cfg d s) = set_ticks n s.
Proof.
  unfold _parse_transportapi_departures, transportapi_records.
  rewrite !bind_eq. cbn [ret snd].
  apply mapM_only_ticks. intros e s1. unfold parse_route.
  destruct (_ && _).
  - exists (ticks s1). cbn. apply set_ticks_same.
  - apply mapM_only_ticks. intros; apply parse_departure_only_ticks.
Qed.

Lemma can_call_snd (k : kind) (s : state) :
  snd (can_call w cfg k s) = snd (_check_daily_reset w s).
Proof.
  destruct k; cbn [can_call]; unfold can_call_api_auto, can_call_api_manual;
    rewrite !bind_eq; reflexivity.
Qed.

Lemma check_api_requests (s : state) :
  api_requests (snd (_check_daily_reset w s)) = api_requests s.
Proof.
  unfold _check_daily_reset. rewrite !bind_eq. cbn [now gets fst snd].
  destruct (needs_reset _ _); reflexivity.
Qed.

(** What [_fetch_transportapi] leaves behind, by the outcome of the
    request. *)
Lemma fetch_transportapi_counters stop s :
  let s' := snd (_fetch_transportapi w stop s) in
  api_requests s' = S (api_requests s)
  /\ _auto_calls_today s' = _auto_calls_today s
  /\ _calls_today s' =
       match transportapi w (api_requests s) stop with
       | Response st _ => if st =? 200 then _calls_today s + 1 else _calls_today s
       | ClientError _ => _calls_today s
       end
  /\ fst (_fetch_transportapi w stop s) =
       match transportapi w (api_requests s) stop with
       | Response st body => if st =? 200 then Some body else None
       | ClientError _ => None
       end.
Proof.
  unfold _fetch_transportapi. rewrite !bind_eq. cbn [gets modify fst snd].
  cbn [api_requests set_api_requests].
  destruct (transportapi w (api_requests s) stop) as [st body|e].
  - destruct (st =? 200); rewrite ?bind_eq; cbn; auto.
  - rewrite ?bind_eq; cbn; auto.
Qed.

(** C3, as the code has it.  Let a primary-source call be admitted, for the
    automatic or for the manual cycle.  If it is answered with status 200
    and a payload whose departures are not empty, [callsToday] grows by
    exactly one, and [autoCallsToday] grows by exactly one for the automatic
    cycle and not at all for the manual one.  If it is answered with another
    status or fails with a client error, neither counter moves.  Whatever
    the answer, the manual call leaves [autoCallsToday] alone. *)
Theorem recorded_calls (k : kind) (stop : string) (s : state) :
  fst (can_call w cfg k s) = true ->
  let s0 := snd (_check_daily_reset w s) in
  let s' := snd (primary w cfg k stop s) in
  match transportapi w (api_requests s) stop with
  | Response st body =>
      if st =? 200 then
        has_api_departures (Some body) = true ->
        _calls_today s' = _calls_today s0 + 1
        /\ _auto_calls_today s' =
             _auto_calls_today s0 + match k with Automatic => 1 | Manual => 0 end
      else
        _calls_today s' = _calls_today s0
        /\ _auto_calls_today s' = _auto_calls_today s0
  | ClientError _ =>
      _calls_today s' = _calls_today s0
      /\ _auto_calls_today s' = _auto_calls_today s0
  end
  /\ (k = Manual -> _auto_calls_today s' = _auto_calls_today s0).
Proof.
  intros Hadm s0 s'.
  pose proof (can_call_snd k s) as Hs0. fold s0 in Hs0.
  pose proof (fetch_transportapi_counters stop s0) as (_ & Ha & Hc & Hd).
  assert (Hreq : api_requests s0 = api_requests s) by apply check_api_requests.
  rewrite Hreq in Hc, Hd.
  assert (Hstep : s' = snd (
     (d <- _fetch_transportapi w stop ;;
      if has_api_departures d then
        deps <- _parse_transportapi_departures w cfg (default (mk_api None) d) ;;
        match k with
        | Automatic =>
            auto <- gets _auto_calls_today ;;
            modify (set_auto_calls_today (auto + 1)) ;;
            ret (mk_snapshot deps SOURCE_TRANSPORTAPI)
        | Manual => ret (mk_snapshot deps SOURCE_TRANSPORTAPI)
        end
      else ret (mk_snapshot [] SOURCE_NONE)) s0)).
  { subst s'. destruct k; cbn [primary can_call] in *;
      unfold primary_auto, primary_manual; rewrite bind_eq, Hadm;
      cbn [can_call] in Hs0; rewrite Hs0; reflexivity. }
  rewrite bind_eq in Hstep.
  set (sf := snd (_fetch_transportapi w stop s0)) in *.
  set (d := fst (_fetch_transportapi w stop s0)) in *.
  assert (Hrest : has_api_departures d = true ->
            _calls_today s' = _calls_today sf
            /\ _auto_calls_today s' =
                 _auto_calls_today sf + match k with Automatic => 1 | Manual => 0 end).
  { intros Hh. rewrite Hh in Hstep. rewrite bind_eq in Hstep.
    destruct (parse_only_ticks (default (mk_api None) d) sf) as [n Hn].
    rewrite Hn in Hstep. rewrite Hstep. destruct k; cbn; split; lia. }
  assert (Hnone : has_api_departures d = false -> s' = sf).
  { intros Hh. rewrite Hh in Hstep. exact Hstep. }
  split.
  - destruct (transportapi w (api_requests s) stop) as [st body|e].
    + destruct (st =? 200).
      * intros Hh. rewrite Hd in Hrest. destruct (Hrest Hh). lia.
      * rewrite Hd in Hnone. rewrite (Hnone eq_refl). lia.
    + rewrite Hd in Hnone. rewrite (Hnone eq_refl). lia.
  - intros ->. destruct (has_api_departures d) eqn:Hh.
    + destruct (Hrest eq_refl). lia.
    + rewrite (Hnone eq_refl). lia.
Qed.

(** The part of C5 that the code keeps.  Whenever the primary source left
    no departure, whether it was skipped, failed or was emptied by the
    filter, the fall-back fetches from the scraper service, whatever the
    ledger says. *)
Lemma fall_back_invoked (stop : string) (src : string) (s : state) :
  Py.truthy (default DEFAULT_SCRAPER_URL (scraper_url cfg)) = true ->
  scraper_requests (snd (fall_back w cfg stop (mk_snapshot [] src) s))
  = S (scraper_requests s).
Proof.
  intros Hurl. unfold fall_back. cbn [departures]. rewrite bind_eq.
  assert (Hreq : scraper_requests (snd (_fetch_scraper w cfg stop s))
                 = S (scraper_requests s)).
  { unfold _fetch_scraper. rewrite Hurl. cbn [negb]. rewrite !bind_eq.
    cbn [gets modify fst snd].
    destruct (scraper w _ _ _) as [st body|e];
      [destruct (st =? 200)|]; rewrite ?bind_eq; reflexivity. }
  destruct (has_scr_departures _); exact Hreq.
Qed.

(** And when the primary source gave no payload with departures and the
    scraper service gives none either, the snapshot is empty with source
    None. *)
Lemma fall_back_nothing (stop : string) (s : state) :
  has_scr_departures (fst (_fetch_scraper w cfg stop s)) = false ->
  fst (fall_back w cfg stop (mk_snapshot [] SOURCE_NONE) s)
  = mk_snapshot [] SOURCE_NONE.
Proof.
  intros H. unfold fall_back. cbn [departures]. rewrite bind_eq, H. reflexivity.
Qed.

End OrchestratorFacts.

(* ===================================================================== *)
(** * The ledger and the orchestrator on the sample worlds *)
(* ===================================================================== *)

Section OnSamples.
Import DateTime Coordinator Sample.

(** An admitted automatic call that is answered with departures. *)
Lemma recorded_calls_sample :
  fst (can_call world_X4 config_stop Automatic init) = true
  /\ _calls_today (snd (primary world_X4 config_stop Automatic "6200206420" init)) = 1
  /\ _auto_calls_today
       (snd (primary world_X4 config_stop Automatic "6200206420" init)) = 1.
Proof.
  split; [reflexivity|].
  destruct (recorded_calls world_X4 config_stop Automatic "6200206420" init eq_refl)
    as [H _].
  exact (H eq_refl).
Defined.

(** C3 as stated fails on the code.  An admitted automatic call that is
    answered with status 500 is sent and leaves [callsToday] where it was;
    one that is answered with status 200 and no departures raises
    [callsToday] and leaves [autoCallsToday] where it was. *)
Lemma admitted_call_not_recorded :
  (fst (can_call_api_auto world_500 config_stop init) = true
   /\ api_requests (snd (primary_auto world_500 config_stop "6200206420" init)) = 1%nat
   /\ _calls_today (snd (_check_daily_reset world_500 init)) = 0
   /\ _calls_today (snd (primary_auto world_500 config_stop "6200206420" init)) = 0)
  /\ (fst (can_call_api_auto world_no_departures config_stop init) = true
      /\ api_requests
           (snd (primary_auto world_no_departures config_stop "6200206420" init)) = 1%nat
      /\ _calls_today
           (snd (primary_auto world_no_departures config_stop "6200206420" init)) = 1
      /\ _auto_calls_today (snd (_check_daily_reset world_no_departures init)) = 0
      /\ _auto_calls_today
           (snd (primary_auto world_no_departures config_stop "6200206420" init)) = 0).
Proof. vm_compute. repeat split; reflexivity. Qed.

(** C4.  There is a state, reached from the fresh coordinator by one
    periodic refresh, in which both admissions hold and the primary source
    answers every request with departures, and from which one manual refresh
    sends two requests to the primary source: the first in its own fetch,
    under the manual admission, the second in the refresh it then awaits,
    under the automatic admission.  [callsToday] ends two higher. *)
Theorem manual_refresh_fetches_twice :
  exists (w : world) (cfg : Config) (s : state),
    reachable w cfg s
    /\ fst (can_call_api_auto w cfg s) = true
    /\ fst (can_call_api_manual w cfg s) = true
    /\ (forall n stop, exists body,
          transportapi w n stop = Response 200 body
          /\ has_api_departures (Some body) = true)
    /\ let s1 := snd (manual_fetch w cfg s) in
       let s2 := snd (async_refresh w cfg s1) in
       let s3 := snd (async_manual_refresh w cfg s) in
       s3 = snd (async_send_notification w cfg s2)
       /\ (api_requests s1 = S (api_requests s)
           /\ _calls_today s1 = _calls_today s + 1
           /\ _auto_calls_today s1 = _auto_calls_today s)
       /\ (fst (can_call_api_auto w cfg s1) = true
           /\ api_requests s2 = S (api_requests s1)
           /\ _calls_today s2 = _calls_today s1 + 1
           /\ _auto_calls_today s2 = _auto_calls_today s1 + 1)
       /\ api_requests s3 = (api_requests s + 2)%nat
       /\ _calls_today s3 = _calls_today s + 2.
Proof.
  exists world_X4, config_stop, (exec world_X4 config_stop [Refresh] init).
  split; [exists [Refresh]; reflexivity|].
  split; [reflexivity|]. split; [reflexivity|].
  split; [intros n stop; exists payload_X4; split; reflexivity|].
  vm_compute. repeat split; reflexivity.
Qed.

(** C5 at the failing input.  The allow-list is ["12"], the primary source
    answers with departures of route X4 only, and the scraper service cannot
    be reached.  The fall-back is invoked and gives nothing; the snapshot has
    no departure and names TransportAPI as its source. *)
Theorem filtered_primary_keeps_source :
  let r := _async_update_data world_X4 config_route_12 init in
  fst (can_call_api_auto world_X4 config_route_12 init) = true
  /\ api_requests (snd r) = 1%nat
  /\ scraper_requests (snd r) = 1%nat
  /\ ud_snapshot (fst r) = mk_snapshot [] SOURCE_TRANSPORTAPI
  /\ _data_source (snd r) = SOURCE_TRANSPORTAPI.
Proof. vm_compute. repeat split; reflexivity. Qed.

End OnSamples.

(* ===================================================================== *)
(** * Properties of the fall-back cache *)
(* ===================================================================== *)

Section CacheFacts.
Import Scraper Scraper.SimpleCache.

Lemma model_copy_fresh (l : positive) (o : StopDepartures)
    (h : gmap positive StopDepartures) :
  h !! l = Some o ->
  exists l', model_copy l h = Some (l', <[l' := o]> h)
             /\ h !! l' = None /\ l' <> l.
Proof.
  intros Hl. unfold model_copy. rewrite Hl.
  exists (fresh (dom h)). split; [reflexivity|].
  assert (Hf : h !! fresh (dom h) = None) by (apply not_elem_of_dom, is_fresh).
  split; [exact Hf|]. intros Heq. rewrite Heq in Hf. congruence.
Qed.

(** The assignment of line 89 sets the flag and no other field. *)
Lemma set_cached_fields (b : bool) (o : StopDepartures) :
  cached (set_cached b o) = b
  /\ stop_code (set_cached b o) = stop_code o
  /\ stop_name (set_cached b o) = stop_name o
  /\ generated_at (set_cached b o) = generated_at o
  /\ departures (set_cached b o) = departures o
  /\ error (set_cached b o) = error o.
Proof. repeat split. Qed.

(** C7.  Store the payload object at [payload] under [key] at time [t_set]
    and then look [key] up at time [t_get].  Within the TTL window the
    lookup returns a new object, at a location no object had: its [cached]
    is [True], whatever that of the payload is, and its other fields are
    those of the payload.  The payload object, its own [cached] included,
    and every other object are left as they were, and so is the cache.  From
    the end of the window on the lookup returns nothing and drops the
    entry. *)
Theorem cache_set_then_get (key : string) (payload : positive)
    (obj : StopDepartures) (h : gmap positive StopDepartures)
    (c : SimpleCache.t) (t_set t_get : Z) :
  h !! payload = Some obj ->
  let c1 := set key payload t_set c in
  let r := get key t_get h c1 in
  (t_get < t_set + _ttl c ->
     exists result copy,
       r.1.1 = Some result
       /\ result <> payload
       /\ h !! result = None
       /\ r.1.2 !! result = Some copy
       /\ cached copy = true
       /\ stop_code copy = stop_code obj
       /\ stop_name copy = stop_name obj
       /\ generated_at copy = generated_at obj
       /\ departures copy = departures obj
       /\ error copy = error obj
       /\ r.1.2 !! payload = Some obj
       /\ (forall l, l <> result -> r.1.2 !! l = h !! l)
       /\ r.2 = c1)
  /\ (t_set + _ttl c <= t_get ->
      r.1.1 = None /\ r.1.2 = h /\ _cache r.2 !! key = None).
Proof.
  intros Hobj c1 r. subst r c1. unfold get, set. cbn [_cache _ttl].
  rewrite lookup_insert_eq. cbn [expires_at data].
  split; intros Ht.
  - apply Z.ltb_lt in Ht. rewrite Ht.
    destruct (model_copy_fresh payload obj h Hobj) as (l' & Hcopy & Hnew & Hne).
    rewrite Hcopy. cbn [fst snd]. rewrite alter_insert_eq.
    destruct (set_cached_fields true obj) as (F1 & F2 & F3 & F4 & F5 & F6).
    exists l', (set_cached true obj).
    split; [reflexivity|]. split; [exact Hne|]. split; [exact Hnew|].
    split; [apply lookup_insert_eq|].
    split; [exact F1|]. split; [exact F2|]. split; [exact F3|].
    split; [exact F4|]. split; [exact F5|]. split; [exact F6|].
    split; [rewrite lookup_insert_ne by exact Hne; exact Hobj|].
    split; [|reflexivity].
    intros l Hl. apply lookup_insert_ne. congruence.
  - apply Z.ltb_ge in Ht. rewrite Ht. cbn.
    split; [reflexivity|]. split; [reflexivity|].
    apply lookup_delete_eq.
Qed.

End CacheFacts.

Section CacheSample.
Import DateTime Scraper Scraper.SimpleCache.

(** A scrape result with one departure, not flagged, is cached at second 0
    under a TTL of 90 seconds.  Read at second 89, it comes back as another
    object that is flagged and has the same departures, and the stored
    object is still not flagged; read at second 90, it is gone. *)
Lemma cache_set_then_get_sample :
  let obj :=
    mk_stop "6200206420" (Some "Princes Street") (mk_datetime 739000 8 10 0 0)
      [mk_bus "26" 5 (Some "5 min") (Some "5 min") (Some "Clerwood") "Late"]
      None false in
  let h : gmap positive StopDepartures := {[ 1%positive := obj ]} in
  let c1 := set "6200206420" 1%positive 0 (new 90) in
  h !! 1%positive = Some obj
  /\ cached obj = false
  /\ (exists result copy,
        (get "6200206420" 89000000 h c1).1.1 = Some result
        /\ result <> 1%positive
        /\ (get "6200206420" 89000000 h c1).1.2 !! result = Some copy
        /\ cached copy = true
        /\ departures copy = departures obj
        /\ (get "6200206420" 89000000 h c1).1.2 !! 1%positive = Some obj)
  /\ (get "6200206420" 90000000 h c1).1.1 = None.
Proof.
  intros obj h c1.
  assert (Hobj : h !! 1%positive = Some obj) by reflexivity.
  split; [exact Hobj|]. split; [reflexivity|]. split.
  - destruct (cache_set_then_get "6200206420" 1%positive obj h (new 90) 0 89000000 Hobj)
      as [Hin _].
    destruct (Hin eq_refl)
      as (result & copy & Hr & Hne & _ & Hcopy & Hflag & _ & _ & _ & Hdeps & _ & Hlive & _).
    exists result, copy. auto 10.
  - destruct (cache_set_then_get "6200206420" 1%positive obj h (new 90) 0 90000000 Hobj)
      as [_ Hout].
    apply Hout. vm_compute. discriminate.
Defined.

End CacheSample.

(* ===================================================================== *)
(** * Properties of the commute-day evaluation *)
(* ===================================================================== *)

Section TextFacts.

Lemma append_cons (c : ascii) (a b : string) :
  String c a +:+ b = String c (a +:+ b).
Proof. reflexivity. Qed.

Lemma append_nil (b : string) : EmptyString +:+ b = b.
Proof. reflexivity. Qed.

Lemma prefix_spec (a b : string) :
  String.prefix a b = true <-> exists post, b = a +:+ post.
Proof.
  revert b. induction a as [|c a IH]; intros [|d b]; cbn.
  - split; [intros _; exists EmptyString; reflexivity | reflexivity].
  - split; [intros _; exists (String d b); reflexivity | reflexivity].
  - split; [discriminate | intros [post H]; discriminate].
  - destruct (Ascii.ascii_dec c d) as [->|Hne].
    + rewrite IH. split; intros [post H]; exists post.
      * rewrite append_cons. congruence.
      * rewrite append_cons in H. congruence.
    + split; [discriminate|].
      intros [post H]. rewrite append_cons in H. congruence.
Qed.

Lemma contains_spec (a b : string) :
  Py.contains a b = true <-> Py.substring_of a b.
Proof.
  unfold Py.substring_of. induction b as [|d b IH]; cbn [Py.contains].
  - rewrite orb_false_r, prefix_spec. split.
    + intros [post H]. exists EmptyString, post. exact H.
    + intros (pre & post & H). destruct pre; [exists post; exact H|discriminate].
  - rewrite orb_true_iff, prefix_spec, IH. split.
    + intros [[post H]|(pre & post & H)].
      * exists EmptyString, post. exact H.
      * exists (String d pre), post. rewrite append_cons. congruence.
    + intros (pre & post & H). destruct pre as [|e pre].
      * left. exists post. exact H.
      * right. exists pre, post. rewrite append_cons in H. congruence.
Qed.

Lemma lower_char_idem (c : ascii) : Py.lower_char (Py.lower_char c) = Py.lower_char c.
Proof.
  destruct c as [[] [] [] [] [] [] [] []]; reflexivity.
Qed.

Lemma lower_idem (s : string) : Py.lower (Py.lower s) = Py.lower s.
Proof.
  induction s as [|c s IH]; cbn; [reflexivity|].
  rewrite lower_char_idem, IH. reflexivity.
Qed.

(** A property of two characters that holds of the 256 times 256 pairs
    holds of every pair. *)
Lemma every_two_chars (P : ascii -> ascii -> bool) :
  forallb
    (fun i => forallb (fun j => P (ascii_of_nat i) (ascii_of_nat j)) (seq 0 256))
    (seq 0 256) = true ->
  forall x y, P x y = true.
Proof.
  intros H x y. rewrite forallb_forall in H.
  specialize (H (nat_of_ascii x)). rewrite in_seq in H.
  pose proof (nat_ascii_bounded x). specialize (H ltac:(lia)).
  rewrite forallb_forall in H.
  specialize (H (nat_of_ascii y)). rewrite in_seq in H.
  pose proof (nat_ascii_bounded y). specialize (H ltac:(lia)).
  rewrite !ascii_nat_embedding in H. exact H.
Qed.

(** Two characters are the same letter exactly when [lower] sends them to
    one character; [upper] then does so too, and they are white space
    together. *)
Lemma same_letter_folds (x y : ascii) :
  Py.same_letter x y = Ascii.eqb (Py.lower_char x) (Py.lower_char y)
  /\ (Py.same_letter x y = true ->
      Py.upper_char x = Py.upper_char y /\ Py.is_space x = Py.is_space y).
Proof.
  pose proof
    (every_two_chars
       (fun a b =>
          Bool.eqb (Py.same_letter a b)
            (Ascii.eqb (Py.lower_char a) (Py.lower_char b))
          && implb (Py.same_letter a b)
               (Ascii.eqb (Py.upper_char a) (Py.upper_char b)
                && Bool.eqb (Py.is_space a) (Py.is_space b)))
       ltac:(vm_compute; reflexivity) x y) as H.
  cbv beta in H. apply andb_true_iff in H as [H1 H2].
  apply Bool.eqb_prop in H1. split; [exact H1|].
  intros Hs. rewrite Hs in H2. cbn [implb] in H2.
  apply andb_true_iff in H2 as [Hu Hw].
  apply Ascii.eqb_eq in Hu. apply Bool.eqb_prop in Hw. auto.
Qed.

Lemma same_text_lower (a b : string) :
  Py.same_text a b = true <-> Py.lower a = Py.lower b.
Proof.
  revert b. induction a as [|x a IH]; intros [|y b]; cbn [Py.same_text Py.lower];
    try (split; [reflexivity + discriminate | reflexivity + discriminate]).
  rewrite andb_true_iff, IH.
  destruct (same_letter_folds x y) as [-> _]. rewrite Ascii.eqb_eq.
  split; [intros [-> ->]; reflexivity | intros [= -> ->]; auto].
Qed.

Lemma same_text_upper (a b : string) :
  Py.same_text a b = true -> Py.upper a = Py.upper b.
Proof.
  revert b. induction a as [|x a IH]; intros [|y b]; cbn [Py.same_text Py.upper];
    try discriminate; [reflexivity|].
  intros H. apply andb_true_iff in H as [Hxy Hab].
  destruct (same_letter_folds x y) as [_ Hf]. destruct (Hf Hxy) as [-> _].
  rewrite (IH b Hab). reflexivity.
Qed.

Lemma lower_app (a b : string) : Py.lower (a +:+ b) = Py.lower a +:+ Py.lower b.
Proof.
  induction a as [|c a IH]; [reflexivity|].
  rewrite append_cons. cbn [Py.lower]. rewrite IH. reflexivity.
Qed.

Lemma lower_app_inv (s u v : string) :
  Py.lower s = u +:+ v ->
  exists s1 s2, s = s1 +:+ s2 /\ Py.lower s1 = u /\ Py.lower s2 = v.
Proof.
  revert s. induction u as [|c u IH]; intros s H.
  - exists EmptyString, s. auto.
  - destruct s as [|d s]; [discriminate|].
    rewrite append_cons in H. cbn [Py.lower] in H. injection H as Hc Hr.
    destruct (IH s Hr) as (s1 & s2 & -> & H1 & H2).
    exists (String d s1), s2. cbn [Py.lower]. rewrite Hc, H1. auto.
Qed.

(** The test the sources make, [a.lower() in b.lower()], decides whether
    [a] occurs in [b] with the case of the letters disregarded. *)
Lemma occurs_ignoring_case_spec (a b : string) :
  Py.contains (Py.lower a) (Py.lower b) = true <-> Py.occurs_ignoring_case a b.
Proof.
  rewrite contains_spec. unfold Py.substring_of, Py.occurs_ignoring_case. split.
  - intros (pre & post & H).
    apply lower_app_inv in H as (b1 & b23 & -> & <- & H).
    apply lower_app_inv in H as (b2 & b3 & -> & H2 & <-).
    exists b1, b2, b3. split; [reflexivity|]. apply same_text_lower. congruence.
  - intros (pre & mid & post & -> & H). apply same_text_lower in H.
    exists (Py.lower pre), (Py.lower post). rewrite !lower_app. congruence.
Qed.

End TextFacts.

Section CommuteDayFacts.
Import DateTime Coordinator.

Variable w : world.
Variable cfg : Config.

Lemma any_keyword (kws : list string) (title : string) :
  existsb (fun kw => Py.contains kw (Py.lower title)) (map Py.lower kws) = true
  <-> exists kw, In kw kws /\ Py.occurs_ignoring_case kw title.
Proof.
  rewrite existsb_exists. split.
  - intros (x & Hin & Hx). apply in_map_iff in Hin as (kw & <- & Hkw).
    exists kw. split; [exact Hkw|]. apply occurs_ignoring_case_spec, Hx.
  - intros (kw & Hkw & Hx). exists (Py.lower kw).
    split; [apply in_map, Hkw|]. apply occurs_ignoring_case_spec, Hx.
Qed.

(** C10.  Without a calendar entity the day is a commute day.  With one,
    the day is not a commute day when the entity has no state or a state
    other than "on"; and when the state is "on", it is a commute day exactly
    when some office keyword occurs in the text of the event, case
    disregarded, and no work-from-home keyword does.  A keyword occurs, case
    disregarded, when the text holds a stretch of the keyword's length that
    is the keyword but for capital letters standing for their small letters
    or the reverse ([Py.occurs_ignoring_case], which is stated on the
    alphabet).  The keywords are the trimmed, non-empty items of the two
    comma-separated settings, and the text of an event without message is
    empty.  The evaluation changes nothing. *)
Theorem commute_day_rule (s : state) :
  let r := _check_commute_day w cfg s in
  let office := Py.comma_list (default EmptyString (office_keywords cfg)) in
  let wfh := Py.comma_list (default EmptyString (wfh_keywords cfg)) in
  (Py.truthy_opt (calendar_entity cfg) = false -> r.1 = true)
  /\ (forall entity, calendar_entity cfg = Some entity -> Py.truthy entity = true ->
      match hass_states w (ticks s) entity with
      | None => r.1 = false
      | Some st =>
          (state_text st <> "on" -> r.1 = false)
          /\ (state_text st = "on" ->
              let title := default EmptyString (py_or (message st) (Some EmptyString)) in
              (r.1 = true <->
                 (exists kw, In kw office /\ Py.occurs_ignoring_case kw title)
                 /\ ~ (exists kw, In kw wfh /\ Py.occurs_ignoring_case kw title)))
      end)
  /\ r.2 = s.
Proof.
  intros r office wfh. subst r. unfold _check_commute_day.
  split; [|split].
  - intros ->. reflexivity.
  - intros entity He Ht. rewrite He. cbn [Py.truthy_opt]. rewrite Ht.
    cbn [negb default from_option id]. rewrite bind_eq. cbn [gets fst snd].
    destruct (hass_states w (ticks s) entity) as [st|]; [|reflexivity].
    cbv beta iota. split.
    + intros Hne. apply String.eqb_neq in Hne. rewrite Hne. reflexivity.
    + intros Hon. cbv zeta. apply String.eqb_eq in Hon. rewrite Hon.
      cbn [negb ret fst]. fold office wfh.
      rewrite andb_true_iff, negb_true_iff, <- not_true_iff_false, !any_keyword.
      reflexivity.
  - destruct (negb (Py.truthy_opt (calendar_entity cfg))); [reflexivity|].
    rewrite bind_eq. cbn [gets fst snd].
    destruct (hass_states w (ticks s) _) as [st|]; [|reflexivity].
    destruct (negb _); reflexivity.
Qed.

End CommuteDayFacts.

Section CommuteDaySamples.
Import DateTime Coordinator Sample.

(** By the theorem, with the case of the letters differing between the
    keywords and the text: "Office" occurs in "Team day at the OFFICE", in
    which "WFH" does not; and "WFH" occurs in "wfh - office catchup", which
    takes precedence over "Office" occurring there too. *)
Lemma commute_day_rule_sample :
  fst (_check_commute_day (world_event "Team day at the OFFICE") config_calendar init)
  = true
  /\ fst (_check_commute_day (world_event "wfh - office catchup") config_calendar init)
     = false.
Proof.
  split.
  - destruct (commute_day_rule (world_event "Team day at the OFFICE")
                config_calendar init) as (_ & Hon & _).
    specialize (Hon "calendar.work" eq_refl eq_refl).
    cbv beta iota zeta in Hon.
    change (hass_states (world_event "Team day at the OFFICE") (ticks init)
              "calendar.work")
      with (Some (mk_entity "on" (Some "Team day at the OFFICE"))) in Hon.
    destruct Hon as [_ Hon]. apply (Hon eq_refl). split.
    + exists "Office". split; [left; reflexivity|].
      exists "Team day at the ", "OFFICE", EmptyString. split; reflexivity.
    + intros (kw & [<-|[]] & Hocc).
      apply occurs_ignoring_case_spec in Hocc. discriminate Hocc.
  - destruct (commute_day_rule (world_event "wfh - office catchup")
                config_calendar init) as (_ & Hon & _).
    specialize (Hon "calendar.work" eq_refl eq_refl).
    cbv beta iota zeta in Hon.
    change (hass_states (world_event "wfh - office catchup") (ticks init)
              "calendar.work")
      with (Some (mk_entity "on" (Some "wfh - office catchup"))) in Hon.
    destruct Hon as [_ Hon]. specialize (Hon eq_refl).
    apply not_true_is_false. intros Ht. apply Hon in Ht as [_ Hno]. apply Hno.
    exists "WFH". split; [left; reflexivity|].
    exists EmptyString, "wfh", " - office catchup". split; reflexivity.
Defined.

(** The two scenarios of the specification. *)
Example office_day :
  fst (_check_commute_day (world_event "Office day") config_calendar init) = true.
Proof. reflexivity. Qed.

Example wfh_takes_precedence :
  fst (_check_commute_day (world_event "WFH - Office catchup") config_calendar init)
  = false.
Proof. reflexivity. Qed.

Example no_calendar_is_commute_day :
  fst (_check_commute_day (world_event "WFH") config_stop init) = true.
Proof. reflexivity. Qed.

(** A text in which neither keyword occurs, in any case of the letters. *)
Example no_keyword_is_no_commute_day :
  fst (_check_commute_day (world_event "Dentist") config_calendar init) = false.
Proof. reflexivity. Qed.

End CommuteDaySamples.

(* ===================================================================== *)
(** * Properties of the sort and of the two normalizers *)
(* ===================================================================== *)

Section SortFacts.
Context {A : Type} (key : A -> Z).

Local Abbreviation le_key := (fun a b : A => key a <= key b).

Lemma insert_perm (x : A) (l : list A) : Permutation (Py.insert key x l) (x :: l).
Proof.
  induction l as [|y t IH]; cbn; [reflexivity|].
  destruct (key x <=? key y); [reflexivity|].
  rewrite IH. apply perm_swap.
Qed.

Lemma sort_perm (l : list A) : Permutation (Py.sort key l) l.
Proof.
  induction l as [|x t IH]; cbn; [reflexivity|].
  rewrite insert_perm, IH. reflexivity.
Qed.

Lemma insert_sorted (x : A) (l : list A) :
  StronglySorted le_key l -> StronglySorted le_key (Py.insert key x l).
Proof.
  induction 1 as [|y t Ht IH Hy]; cbn.
  - repeat constructor.
  - destruct (Z.leb_spec (key x) (key y)) as [Hle|Hlt].
    + constructor; [constructor; assumption|].
      constructor; [exact Hle|].
      eapply List.Forall_impl; [|exact Hy]. cbn; intros; lia.
    + constructor; [exact IH|].
      eapply Permutation.Permutation_Forall; [symmetry; apply insert_perm|].
      constructor; [lia | exact Hy].
Qed.

Lemma sort_sorted (l : list A) : StronglySorted le_key (Py.sort key l).
Proof.
  induction l as [|x t IH]; cbn; [constructor | apply insert_sorted, IH].
Qed.

(** A list that is in order already comes back as it is. *)
Lemma sort_fixed (l : list A) : StronglySorted le_key l -> Py.sort key l = l.
Proof.
  induction 1 as [|x t Ht IH Hx]; cbn; [reflexivity|].
  rewrite IH. destruct t as [|y t']; cbn; [reflexivity|].
  apply List.Forall_inv in Hx. apply Z.leb_le in Hx. rewrite Hx. reflexivity.
Qed.

(** The sort is stable: the records of one key keep their order. *)
Lemma insert_stable (x : A) (l : list A) (v : Z) :
  List.filter (fun a => key a =? v) (Py.insert key x l)
  = List.filter (fun a => key a =? v) (x :: l).
Proof.
  induction l as [|y t IH]; cbn [Py.insert]; [reflexivity|].
  destruct (Z.leb_spec (key x) (key y)) as [Hle|Hlt]; [reflexivity|].
  cbn [List.filter] in *. rewrite IH.
  destruct (Z.eqb_spec (key x) v), (Z.eqb_spec (key y) v); try reflexivity; lia.
Qed.

Lemma sort_stable (l : list A) (v : Z) :
  List.filter (fun a => key a =? v) (Py.sort key l)
  = List.filter (fun a => key a =? v) l.
Proof.
  induction l as [|x t IH]; cbn [Py.sort]; [reflexivity|].
  rewrite insert_stable. cbn [List.filter]. rewrite IH. reflexivity.
Qed.

Lemma sorted_by_other_key (key' : A -> Z) (l : list A) :
  (forall a, In a l -> key' a = key a) ->
  StronglySorted le_key l ->
  StronglySorted (fun a b => key' a <= key' b) l.
Proof.
  intros Hk Hs. induction Hs as [|x t Ht IH Hx]; constructor.
  - apply IH. intros a Ha. apply Hk. right; exact Ha.
  - rewrite List.Forall_forall in *. intros a Ha.
    rewrite (Hk x), (Hk a) by (cbn; auto). apply Hx, Ha.
Qed.

Lemma sorted_suffix (R : A -> A -> Prop) (l1 l2 : list A) :
  StronglySorted R (l1 ++ l2)%list -> StronglySorted R l2.
Proof.
  induction l1 as [|x t IH]; cbn; [auto|].
  intros H. apply StronglySorted_inv in H as [H _]. apply IH, H.
Qed.

End SortFacts.

Section NormalizerFacts.
Import DateTime Coordinator.

Variable w : world.
Variable cfg : Config.

Lemma parse_transportapi_is_sort (d : api_payload) (s : state) :
  (_parse_transportapi_departures w cfg d s).1
  = Py.sort sort_key (transportapi_records w cfg d s).1.
Proof.
  unfold _parse_transportapi_departures. rewrite bind_eq. reflexivity.
Qed.

Lemma sort_key_due_key (r : departure) :
  due_mins r <> Some 0 -> sort_key r = due_key r.
Proof.
  unfold sort_key, due_key. destruct (due_mins r) as [n|]; [|reflexivity].
  intros Hn. destruct (Z.eqb_spec n 0) as [->|_]; [contradiction|reflexivity].
Qed.

(** C6, as the code has it.  Let [recs] be the records of either
    normalizer before its sort, and [out] what the normalizer returns, and
    let no record have a [dueMinutes] of 0.  Then [out] is [recs] rearranged
    in ascending order of [dueMinutes], an absent one counting as 999; so no
    record with a present value below 999 comes after a record without one;
    and if [recs] is in that order already, [out] is [recs]. *)
Theorem normalizers_sort (api : api_payload) (scr : scraper_payload)
    (s : state) (recs out : list departure) :
  (recs = (transportapi_records w cfg api s).1
   /\ out = (_parse_transportapi_departures w cfg api s).1)
  \/ (recs = scraper_records cfg scr /\ out = _parse_scraper_departures cfg scr) ->
  (forall r, In r recs -> due_mins r <> Some 0) ->
  Permutation recs out
  /\ StronglySorted (fun a b => due_key a <= due_key b) out
  /\ (forall before x after y n,
        out = (before ++ x :: after)%list -> due_mins x = None ->
        In y after -> due_mins y = Some n -> 999 <= n)
  /\ (StronglySorted (fun a b => due_key a <= due_key b) recs -> out = recs).
Proof.
  intros Hwhich Hnz.
  assert (Hout : out = Py.sort sort_key recs).
  { destruct Hwhich as [[-> ->]|[-> ->]];
      [apply parse_transportapi_is_sort | reflexivity]. }
  assert (Hperm : Permutation recs out)
    by (rewrite Hout; symmetry; apply sort_perm).
  assert (Hkey : forall r, In r out -> due_key r = sort_key r).
  { intros r Hr. symmetry. apply sort_key_due_key, Hnz.
    eapply Permutation_in; [symmetry; exact Hperm | exact Hr]. }
  assert (Hsorted : StronglySorted (fun a b => due_key a <= due_key b) out).
  { apply (sorted_by_other_key sort_key due_key); [exact Hkey|].
    rewrite Hout. apply sort_sorted. }
  split; [exact Hperm|]. split; [exact Hsorted|]. split.
  - intros before x after y n Hsplit Hx Hy Hn.
    rewrite Hsplit in Hsorted.
    apply sorted_suffix, StronglySorted_inv in Hsorted as [_ Hall].
    rewrite List.Forall_forall in Hall. specialize (Hall y Hy).
    unfold due_key in Hall. rewrite Hx, Hn in Hall. exact Hall.
  - intros Hrecs. rewrite Hout. apply sort_fixed.
    apply (sorted_by_other_key due_key sort_key); [|exact Hrecs].
    intros r Hr. apply sort_key_due_key, Hnz, Hr.
Qed.

End NormalizerFacts.

Section NormalizerSamples.
Import DateTime Coordinator Sample.

(** At ten past eight the primary source lists three departures: one at
    08:30, one without any time, one at 08:15.  The normalizer puts them in
    the order 5 minutes, 20 minutes, no minutes; and the scraper normalizer,
    given the records in that order, leaves them in it. *)
Lemma normalizers_sort_sample :
  let recs := (transportapi_records world_X4 config_stop payload_out_of_order init).1 in
  let out :=
    (_parse_transportapi_departures world_X4 config_stop payload_out_of_order init).1 in
  (forall r, In r recs -> due_mins r <> Some 0)
  /\ map due_mins recs = [Some 20; None; Some 5]
  /\ Permutation recs out
  /\ StronglySorted (fun a b => due_key a <= due_key b) out
  /\ map due_mins out = [Some 5; Some 20; None]
  /\ _parse_scraper_departures config_stop (mk_scr (Some out)) = out.
Proof.
  intros recs out.
  assert (Hnz : forall r, In r recs -> due_mins r <> Some 0).
  { intros r [<-|[<-|[<-|[]]]]; discriminate. }
  assert (Hnz' : forall r, In r out -> due_mins r <> Some 0).
  { intros r [<-|[<-|[<-|[]]]]; discriminate. }
  destruct (normalizers_sort world_X4 config_stop payload_out_of_order (mk_scr None)
              init recs out (or_introl (conj eq_refl eq_refl)) Hnz)
    as (Hperm & Hsorted & _ & _).
  destruct (normalizers_sort world_X4 config_stop payload_out_of_order
              (mk_scr (Some out)) init out
              (_parse_scraper_departures config_stop (mk_scr (Some out)))
              (or_intror (conj eq_refl eq_refl)) Hnz')
    as (_ & _ & _ & Hfixed).
  split; [exact Hnz|]. split; [reflexivity|]. split; [exact Hperm|].
  split; [exact Hsorted|]. split; [reflexivity|]. exact (Hfixed Hsorted).
Defined.

(** C6 as stated fails on the code.  At ten past eight the primary source
    lists a departure without any time and then one at 08:05, which is 1435
    minutes away: the normalizer keeps the record without [dueMinutes]
    before the record with a present value.  And of two records of the
    scraper service, one due now and one in five minutes, sent in that
    order, the normalizer puts the one in five minutes first: its output is
    not in ascending order of [dueMinutes], and an input that was in that
    order has lost it. *)
Lemma sentinel_not_last_and_zero_last :
  map due_mins
    (_parse_transportapi_departures world_X4 config_stop payload_untimed_then_0805 init).1
  = [None; Some 1435]
  /\ map due_mins [due_now; due_in_5] = [Some 0; Some 5]
  /\ map due_mins
       (_parse_scraper_departures config_stop (mk_scr (Some [due_now; due_in_5])))
     = [Some 5; Some 0].
Proof. vm_compute. repeat split; reflexivity. Qed.

End NormalizerSamples.

(* ===================================================================== *)
(** * Properties of the time text of the scraper *)
(* ===================================================================== *)

Section DigitFacts.

(** A string [g] is a run of digits exactly when [Py.digit_run g = g]. *)

Lemma digit_run_cons (c : ascii) (r : string) :
  Py.digit_run (String c r) = String c r ->
  Py.is_digit c = true /\ Py.digit_run r = r.
Proof.
  cbn. destruct (Py.is_digit c); [|discriminate].
  intros H. split; [reflexivity | congruence].
Qed.

Lemma digit_chars (c : ascii) :
  Py.is_digit c = true ->
  Py.is_space c = false /\ Py.lower_char c = c /\ c <> "_"%char
  /\ c <> "+"%char /\ c <> "-"%char
  /\ exists d, Py.digit_value c = Some d.
Proof.
  destruct c as [[] [] [] [] [] [] [] []]; cbn; try discriminate; intros _;
    repeat split; try discriminate; eexists; reflexivity.
Qed.

Lemma digit_not_int_space (c : ascii) :
  Py.is_digit c = true -> Py.is_int_space c = false.
Proof.
  destruct c as [[] [] [] [] [] [] [] []]; cbn; try discriminate; reflexivity.
Qed.

Lemma digits_int_lstrip (g : string) : Py.digit_run g = g -> Py.int_lstrip g = g.
Proof.
  destruct g as [|c r]; [reflexivity|]. intros H.
  apply digit_run_cons in H as [Hc _]. apply digit_not_int_space in Hc.
  cbn. rewrite Hc. reflexivity.
Qed.

Lemma digits_int_rstrip (g : string) : Py.digit_run g = g -> Py.int_rstrip g = g.
Proof.
  induction g as [|c r IH]; [reflexivity|]. intros H.
  apply digit_run_cons in H as [Hc Hr]. apply digit_not_int_space in Hc.
  cbn. rewrite (IH Hr). destruct r; [rewrite Hc|]; reflexivity.
Qed.

Lemma count_digits_run (g : string) :
  Py.digit_run g = g -> Py.count_digits g = N.of_nat (String.length g).
Proof.
  induction g as [|c r IH]; [reflexivity|]. intros H.
  apply digit_run_cons in H as [Hc Hr].
  cbn [Py.count_digits String.length]. rewrite Hc, (IH Hr). lia.
Qed.

Lemma digits_acc_total (g : string) :
  Py.digit_run g = g ->
  forall b acc, g <> EmptyString \/ b = true ->
  exists n, Py.digits_acc b acc g = Some n.
Proof.
  induction g as [|c r IH]; intros H b acc Hb.
  - destruct Hb as [Hb | ->]; [contradiction|]. exists acc. reflexivity.
  - apply digit_run_cons in H as [Hc Hr].
    apply digit_chars in Hc as (_ & _ & _ & _ & _ & d & Hd).
    cbn. rewrite Hd. apply IH; auto.
Qed.

(** [int] of a run of digits raises exactly when the run is too long. *)
Lemma int_digits (g : string) :
  Py.digit_run g = g -> g <> EmptyString ->
  exists n,
    Py.digits_acc false 0%N g = Some n
    /\ Py.int g
       = if (Py.MAX_STR_DIGITS <? N.of_nat (String.length g))%N
         then None else Some (Z.of_N n).
Proof.
  intros H Hne.
  destruct (digits_acc_total g H false 0%N (or_introl Hne)) as [n Hn].
  exists n. split; [exact Hn|].
  unfold Py.int. rewrite (digits_int_lstrip g H), (digits_int_rstrip g H).
  assert (Hlit : Py.literal g
                 = if (Py.MAX_STR_DIGITS <? N.of_nat (String.length g))%N
                   then None else Some n).
  { unfold Py.literal. rewrite Hn, (count_digits_run g H). reflexivity. }
  destruct g as [|c r]; [contradiction|].
  apply digit_run_cons in H as [Hc _].
  destruct c as [[] [] [] [] [] [] [] []]; try discriminate Hc;
    cbv beta iota; rewrite Hlit; destruct (_ <? _)%N; reflexivity.
Qed.

Lemma digit_run_idem (s : string) :
  Py.digit_run (Py.digit_run s) = Py.digit_run s.
Proof.
  induction s as [|c r IH]; cbn; [reflexivity|].
  destruct (Py.is_digit c) eqn:Hc; cbn; [rewrite Hc, IH|]; reflexivity.
Qed.

Lemma search_digits_run (s g : string) :
  Py.search_digits s = Some g -> Py.digit_run g = g /\ g <> EmptyString.
Proof.
  revert g. induction s as [|c r IH]; intros g; cbn [Py.search_digits];
    [discriminate|].
  destruct (Py.is_digit c) eqn:Hc; [|apply IH].
  intros [= <-]. rewrite Hc.
  split; [cbn; rewrite Hc, digit_run_idem; reflexivity | discriminate].
Qed.

(** The decimal numerals of the standard library are runs of digits, and
    [int] reads them back. *)
Lemma uint_digit_run (d : Decimal.uint) :
  Py.digit_run (NilEmpty.string_of_uint d) = NilEmpty.string_of_uint d.
Proof.
  induction d; [reflexivity|..];
    cbn [NilEmpty.string_of_uint Py.digit_run]; rewrite IHd; reflexivity.
Qed.

Lemma uint_digits_acc (d : Decimal.uint) (acc : nat) (b : bool) :
  d <> Decimal.Nil \/ b = true ->
  Py.digits_acc b (N.of_nat acc) (NilEmpty.string_of_uint d)
  = Some (N.of_nat (Nat.of_uint_acc d acc)).
Proof.
  revert acc b. induction d; intros acc b Hb;
    [destruct Hb as [Hb| ->]; [contradiction|reflexivity]|..];
    cbn [NilEmpty.string_of_uint Py.digits_acc Nat.of_uint_acc];
    match goal with
    | |- context [Py.digit_value ?c] =>
        let v := eval vm_compute in (Py.digit_value c) in
        change (Py.digit_value c) with v
    end;
    cbv iota; rewrite Nat.tail_mul_spec;
    match goal with
    | |- Py.digits_acc true ?a _ = Some (N.of_nat (Nat.of_uint_acc _ ?n)) =>
        replace a with (N.of_nat n) by lia
    end;
    apply IHd; right; reflexivity.
Qed.

Lemma to_uint_nonnil (n : nat) : Nat.to_uint n <> Decimal.Nil.
Proof.
  intros H. pose proof (Unsigned.of_to n) as Hn. rewrite H in Hn.
  cbn in Hn. subst n. discriminate H.
Qed.

Lemma numeral_run (n : nat) :
  Py.digit_run (Scraper.numeral n) = Scraper.numeral n
  /\ Scraper.numeral n <> EmptyString.
Proof.
  split; [apply uint_digit_run|]. unfold Scraper.numeral.
  pose proof (to_uint_nonnil n).
  destruct (Nat.to_uint n); [contradiction|discriminate..].
Qed.

Lemma int_numeral (n : nat) :
  (N.of_nat (String.length (Scraper.numeral n)) <= Py.MAX_STR_DIGITS)%N ->
  Py.int (Scraper.numeral n) = Some (Z.of_nat n).
Proof.
  intros Hlen. destruct (numeral_run n) as [Hrun Hne].
  destruct (int_digits _ Hrun Hne) as (v & Hacc & Hint).
  rewrite Hint.
  replace (Py.MAX_STR_DIGITS <? _)%N with false
    by (symmetry; apply N.ltb_ge; exact Hlen).
  f_equal. unfold Scraper.numeral in Hacc.
  change 0%N with (N.of_nat 0) in Hacc.
  rewrite uint_digits_acc in Hacc by (left; apply to_uint_nonnil).
  injection Hacc as <-. fold (Nat.of_uint (Nat.to_uint n)).
  rewrite Unsigned.of_to. lia.
Qed.

End DigitFacts.

Section ClockFacts.
Import DateTime.

(** The minutes to the next time the clock shows [h]:[m]. *)
Lemma due_from_clock_spec (now : datetime) (h m : Z) :
  wf now -> 0 <= h <= 23 -> 0 <= m <= 59 ->
  let target := (h * 60 + m) * 60 * 1000000 in
  let tod := ((hour now * 60 + minute now) * 60 + second now) * 1000000
             + microsecond now in
  let wait := if target <? tod then target + 86400000000 - tod else target - tod in
  due_from_clock now h m = Some (wait / 60000000)
  /\ 0 <= wait / 60000000 <= 1439.
Proof.
  intros (Hh & Hm & Hs & Hu) Hh' Hm'. cbv zeta.
  unfold due_from_clock, replace_hm.
  replace ((0 <=? h) && (h <=? 23) && (0 <=? m) && (m <=? 59)) with true
    by (symmetry; rewrite !andb_true_iff, !Z.leb_le; lia).
  unfold ltb, minutes_between.
  repeat match goal with
         | |- context [Z.ltb ?a ?b] => destruct (Z.ltb_spec a b)
         end;
    unfold add_day, to_micros in *;
    cbn [ordinal hour minute second microsecond] in *;
    try (exfalso; lia).
  all: split;
    [ f_equal; rewrite Z.quot_div_nonneg by lia; f_equal; lia
    | split; [apply Z.div_pos; lia|];
      match goal with
      | |- ?x / _ <= _ =>
          assert (x / 60000000 < 1440) by (apply Z.div_lt_upper_bound; lia); lia
      end ].
Qed.

Lemma due_from_clock_nonneg (now : datetime) (h m due : Z) :
  wf now -> due_from_clock now h m = Some due -> 0 <= due.
Proof.
  intros Hwf Hdue.
  destruct ((0 <=? h) && (h <=? 23) && (0 <=? m) && (m <=? 59)) eqn:Hr.
  - rewrite !andb_true_iff, !Z.leb_le in Hr.
    destruct (due_from_clock_spec now h m Hwf) as [Heq Hb]; [lia..|].
    rewrite Heq in Hdue. injection Hdue as <-. lia.
  - unfold due_from_clock, replace_hm in Hdue. rewrite Hr in Hdue. discriminate.
Qed.

End ClockFacts.

Section TimeTextFacts.
Import DateTime Scraper.

Lemma lower_digits_app (g s : string) :
  Py.digit_run g = g -> Py.lower (g +:+ s) = g +:+ Py.lower s.
Proof.
  induction g as [|c r IH]; intros H; [reflexivity|].
  apply digit_run_cons in H as [Hc Hr]. apply digit_chars in Hc as (_ & Hl & _).
  rewrite !append_cons. cbn [Py.lower]. rewrite Hl, (IH Hr). reflexivity.
Qed.

Lemma contains_skip_digits (c0 : ascii) (sub g s : string) :
  Py.is_digit c0 = false -> Py.digit_run g = g ->
  Py.contains (String c0 sub) (g +:+ s) = Py.contains (String c0 sub) s.
Proof.
  intros H0. induction g as [|c r IH]; intros H; [reflexivity|].
  apply digit_run_cons in H as [Hc Hr].
  rewrite append_cons. cbn [Py.contains String.prefix].
  destruct (Ascii.ascii_dec c0 c) as [->|_]; [congruence|].
  cbn [orb]. apply IH, Hr.
Qed.

Lemma digit_run_app (g r : string) :
  Py.digit_run g = g -> Py.digit_run (g +:+ String " " r) = g.
Proof.
  induction g as [|c g IH]; intros H; [reflexivity|].
  apply digit_run_cons in H as [Hc Hr].
  rewrite append_cons. cbn [Py.digit_run]. rewrite Hc, (IH Hr). reflexivity.
Qed.

Lemma search_digits_app (g r : string) :
  Py.digit_run g = g -> g <> EmptyString ->
  Py.search_digits (g +:+ String " " r) = Some g.
Proof.
  intros H Hne. destruct g as [|c g]; [contradiction|].
  pose proof (digit_run_app _ r H) as Hrun.
  apply digit_run_cons in H as [Hc _].
  rewrite append_cons in *. cbn [Py.search_digits]. rewrite Hc, Hrun. reflexivity.
Qed.

(** The branches of [due_mins_of_text] on a text that is not empty. *)
Lemma due_mins_of_text_truthy (now : datetime) (tx : string) :
  Py.truthy tx = true ->
  due_mins_of_text now (Some tx)
  = if Py.contains "due" (Py.lower tx) || Py.contains "now" (Py.lower tx)
    then Some 0
    else if Py.contains "min" (Py.lower tx) then minutes_branch tx
    else if Py.contains ":" tx then Some (clock_branch now tx)
    else Some 0.
Proof. destruct tx; [discriminate|reflexivity]. Qed.

(** The three tests for a word decide whether it occurs, case
    disregarded. *)
Lemma word_test (word tx : string) :
  Py.lower word = word ->
  (Py.contains word (Py.lower tx) = true <-> Py.occurs_ignoring_case word tx)
  /\ (Py.contains word (Py.lower tx) = false <-> ~ Py.occurs_ignoring_case word tx).
Proof.
  intros Hw. rewrite <- (occurs_ignoring_case_spec word tx), Hw.
  split; [reflexivity|]. symmetry. apply not_true_iff_false.
Qed.

(** The branches by what occurs in the text. *)
Lemma due_mins_of_text_cases (now : datetime) (tx : string) :
  (Py.occurs_ignoring_case "due" tx \/ Py.occurs_ignoring_case "now" tx ->
   Py.truthy tx = true -> due_mins_of_text now (Some tx) = Some 0)
  /\ (~ Py.occurs_ignoring_case "due" tx -> ~ Py.occurs_ignoring_case "now" tx ->
      (Py.occurs_ignoring_case "min" tx ->
       due_mins_of_text now (Some tx) = minutes_branch tx)
      /\ (~ Py.occurs_ignoring_case "min" tx ->
          due_mins_of_text now (Some tx)
          = Some (if Py.contains ":" tx then clock_branch now tx else 0))).
Proof.
  destruct (word_test "due" tx eq_refl) as [Hd1 Hd0].
  destruct (word_test "now" tx eq_refl) as [Hn1 Hn0].
  destruct (word_test "min" tx eq_refl) as [Hm1 Hm0].
  split.
  - intros Hocc Ht. rewrite (due_mins_of_text_truthy now tx Ht).
    replace (Py.contains "due" (Py.lower tx) || Py.contains "now" (Py.lower tx))
      with true; [reflexivity|].
    symmetry. apply orb_true_iff. rewrite Hd1, Hn1. exact Hocc.
  - intros Hdue Hnow. apply Hd0 in Hdue. apply Hn0 in Hnow.
    destruct tx as [|c r].
    + split; [intros Hmin; apply Hm1 in Hmin; discriminate Hmin | reflexivity].
    + rewrite (due_mins_of_text_truthy now (String c r) eq_refl), Hdue, Hnow.
      cbn [orb]. split; intros Hmin.
      * apply Hm1 in Hmin. rewrite Hmin. reflexivity.
      * apply Hm0 in Hmin. rewrite Hmin.
        destruct (Py.contains ":" (String c r)); reflexivity.
Qed.

(** The minutes of a text in which "min" occurs. *)
Lemma minutes_branch_cases (tx : string) :
  match Py.search_digits tx with
  | None => minutes_branch tx = Some 0
  | Some g =>
      exists n,
        minutes_branch tx
        = if (Py.MAX_STR_DIGITS <? N.of_nat (String.length g))%N
          then None else Some (Z.of_N n)
  end.
Proof.
  unfold minutes_branch. destruct (Py.search_digits tx) as [g|] eqn:Hg;
    [|reflexivity].
  apply search_digits_run in Hg as [Hrun Hne].
  destruct (int_digits g Hrun Hne) as (n & _ & Hint). exists n. exact Hint.
Qed.

(** The minutes of a text with a colon, by the fields read in it. *)
Lemma clock_branch_fields (now : datetime) (tx : string) :
  clock_branch now tx
  = match clock_fields tx with
    | Some (h, m) => default 0 (due_from_clock now h m)
    | None => 0
    end.
Proof.
  unfold clock_branch, clock_fields.
  destruct (Py.split ":" tx) as [|p0 [|p1 rest]]; try reflexivity.
  destruct (Py.int p0), (Py.int (Py.take 2 p1)); reflexivity.
Qed.

Lemma split_without (sep : ascii) (s : string) :
  Py.contains (String sep EmptyString) s = false -> Py.split sep s = [s].
Proof.
  induction s as [|c r IH]; [reflexivity|].
  cbn [Py.contains String.prefix Py.split].
  destruct (Ascii.ascii_dec sep c) as [->|Hne].
  - destruct r; discriminate.
  - cbn [orb]. intros H. rewrite (IH H).
    destruct (Ascii.eqb_spec c sep) as [->|_]; [contradiction|reflexivity].
Qed.

Lemma no_colon_no_fields (tx : string) :
  Py.contains ":" tx = false -> clock_fields tx = None.
Proof.
  intros H. unfold clock_fields. rewrite (split_without ":" tx H). reflexivity.
Qed.

Lemma minutes_text_parsed (now : datetime) (n : nat) (plural : bool) :
  (N.of_nat (String.length (numeral n)) <= Py.MAX_STR_DIGITS)%N ->
  due_mins_of_text now (Some (minutes_text n plural)) = Some (Z.of_nat n).
Proof.
  intros Hlen. unfold minutes_text. fold (numeral n).
  destruct (numeral_run n) as [Hg Hne].
  pose proof (int_numeral n Hlen) as Hint. revert Hint.
  generalize dependent (numeral n). intros g _ Hg Hne Hint.
  rewrite due_mins_of_text_truthy
    by (destruct g; [contradiction|reflexivity]).
  rewrite (lower_digits_app g _ Hg).
  rewrite (contains_skip_digits "d" "ue" g _ eq_refl Hg),
    (contains_skip_digits "n" "ow" g _ eq_refl Hg),
    (contains_skip_digits "m" "in" g _ eq_refl Hg).
  unfold minutes_branch.
  destruct plural;
    (replace (Py.contains "due" _ || Py.contains "now" _) with false
       by reflexivity);
    (replace (Py.contains "min" _) with true by reflexivity);
    cbv iota;
    [change " mins" with (String " " "mins") | change " min" with (String " " "min")];
    rewrite (search_digits_app g _ Hg Hne); exact Hint.
Qed.

(** What the code reads in each of the 1440 clock texts, by running it. *)
Lemma clock_texts_read :
  forallb
    (fun h =>
       forallb
         (fun m =>
            let tx := clock_text h m in
            Py.truthy tx
            && negb (Py.contains "due" (Py.lower tx) || Py.contains "now" (Py.lower tx))
            && negb (Py.contains "min" (Py.lower tx))
            && Py.contains ":" tx
            && match Py.split ":" tx with
               | p0 :: p1 :: _ =>
                   match Py.int p0, Py.int (Py.take 2 p1) with
                   | Some a, Some b => (a =? Z.of_nat h) && (b =? Z.of_nat m)
                   | _, _ => false
                   end
               | _ => false
               end)
         (seq 0 60))
    (seq 0 24) = true.
Proof. vm_compute. reflexivity. Qed.

Lemma clock_text_parsed (now : datetime) (h m : nat) :
  (h < 24)%nat -> (m < 60)%nat ->
  due_mins_of_text now (Some (clock_text h m))
  = Some (default 0 (due_from_clock now (Z.of_nat h) (Z.of_nat m))).
Proof.
  intros Hh Hm. pose proof clock_texts_read as H.
  rewrite forallb_forall in H. specialize (H h). rewrite in_seq in H.
  specialize (H ltac:(lia)). rewrite forallb_forall in H. specialize (H m).
  rewrite in_seq in H. specialize (H ltac:(lia)). cbv zeta in H.
  rewrite !andb_true_iff, !negb_true_iff in H.
  destruct H as ((((Ht & Hdn) & Hmin) & Hcolon) & Hparts).
  rewrite (due_mins_of_text_truthy now _ Ht), Hdn, Hmin, Hcolon.
  unfold clock_branch.
  destruct (Py.split ":" (clock_text h m)) as [|p0 [|p1 rest]]; try discriminate.
  destruct (Py.int p0) as [a|]; [|discriminate].
  destruct (Py.int (Py.take 2 p1)) as [b|]; [|discriminate].
  apply andb_true_iff in Hparts as [Ha Hb].
  apply Z.eqb_eq in Ha, Hb. subst a b. reflexivity.
Qed.

Lemma clock_branch_nonneg (now : datetime) (tx : string) :
  wf now -> 0 <= clock_branch now tx.
Proof.
  intros Hwf. rewrite clock_branch_fields.
  destruct (clock_fields tx) as [[h m]|]; [|lia].
  destruct (due_from_clock now h m) as [due|] eqn:Hdue; cbn; [|lia].
  eapply due_from_clock_nonneg; eauto.
Qed.

Lemma occurs_or_not (word tx : string) :
  Py.occurs_ignoring_case word tx \/ ~ Py.occurs_ignoring_case word tx.
Proof.
  rewrite <- occurs_ignoring_case_spec.
  destruct (Py.contains _ _); [left; reflexivity | right; discriminate].
Qed.

(** The text on which the row fails. *)
Lemma due_mins_of_text_raises (now : datetime) (time_text : option string) :
  due_mins_of_text now time_text = None <-> overlong_minutes time_text.
Proof.
  unfold overlong_minutes. destruct time_text as [tx|]; cycle 1.
  { split; [discriminate | intros (tx & g & H & _); discriminate]. }
  destruct (due_mins_of_text_cases now tx) as [Hyes Hno].
  pose proof (minutes_branch_cases tx) as Hmb.
  destruct (Py.truthy tx) eqn:Ht; cycle 1.
  { destruct tx; [|discriminate]. split; [discriminate|].
    intros (tx & g & Heq & _ & _ & _ & Hg & _).
    injection Heq as <-. discriminate Hg. }
  destruct (occurs_or_not "due" tx) as [Hdue|Hdue].
  { rewrite (Hyes (or_introl Hdue) eq_refl). split; [discriminate|].
    intros (tx' & g & Heq & Hnd & _). injection Heq as <-. contradiction. }
  destruct (occurs_or_not "now" tx) as [Hnow|Hnow].
  { rewrite (Hyes (or_intror Hnow) eq_refl). split; [discriminate|].
    intros (tx' & g & Heq & _ & Hnn & _). injection Heq as <-. contradiction. }
  destruct (Hno Hdue Hnow) as [Hmin Hclock].
  destruct (occurs_or_not "min" tx) as [Hm|Hm].
  - rewrite (Hmin Hm).
    destruct (Py.search_digits tx) as [g|] eqn:Hg.
    + destruct Hmb as [n Hmb]. rewrite Hmb.
      destruct (N.ltb_spec Py.MAX_STR_DIGITS (N.of_nat (String.length g)))
        as [Hlong|Hok].
      * split; [|reflexivity]. intros _. exists tx, g. auto 10.
      * split; [discriminate|].
        intros (tx' & g' & Heq & _ & _ & _ & Hg' & Hlong).
        injection Heq as <-. rewrite Hg in Hg'. injection Hg' as <-. lia.
    + rewrite Hmb. split; [discriminate|].
      intros (tx' & g' & Heq & _ & _ & _ & Hg' & _).
      injection Heq as <-. congruence.
  - rewrite (Hclock Hm). split; [discriminate|].
    intros (tx' & g' & Heq & _ & _ & Hocc & _). injection Heq as <-. contradiction.
Qed.

(** The minutes a text gives are never negative. *)
Lemma due_mins_of_text_nonneg (now : datetime) (time_text : option string)
    (due : Z) :
  wf now -> due_mins_of_text now time_text = Some due -> 0 <= due.
Proof.
  intros Hwf. destruct time_text as [tx|]; [|intros [= <-]; lia].
  destruct (Py.truthy tx) eqn:Ht;
    [|destruct tx; [intros [= <-]; lia | discriminate]].
  rewrite (due_mins_of_text_truthy now tx Ht).
  destruct (_ || _); [intros [= <-]; lia|].
  destruct (Py.contains "min" _).
  - pose proof (minutes_branch_cases tx) as Hmb.
    destruct (Py.search_digits tx) as [g|].
    + destruct Hmb as [n ->]. destruct (_ <? _)%N; [discriminate|].
      intros [= <-]. lia.
    + rewrite Hmb. intros [= <-]. lia.
  - destruct (Py.contains ":" tx); intros [= <-]; [|lia].
    apply clock_branch_nonneg, Hwf.
Qed.

End TimeTextFacts.

Section TimeTextClaims.
Import DateTime Scraper.

(** C8, as the code has it.  For the text found for the time of a
    departure, at a reading [now] of the clock.  A text in which "due" or
    "now" occurs, case disregarded, gives 0 minutes.  The text "<N> min" or
    "<N> mins" gives N, when the numeral of N has no more than 4300 digits;
    in general a text in which "min" occurs gives what [int] makes of its
    first run of digits.  A clock text [HH:MM] gives the whole minutes
    until the clock next shows that time, today if it is not yet past and
    tomorrow if it is, which is between 0 and 1439; and so does every text
    without those three words in which an hour from 0 to 23 is read before
    the first colon and a minute from 0 to 59 in the two characters after
    it.  Every other text without
    "due" and "now" gives 0: one in which "min" occurs and no digit does;
    and one in which "min" does not occur and that has no colon, or no
    number on one side of it, or an hour or a minute out of range.  A
    missing text gives 0 as well.  The minutes are never negative; and the
    one text that makes the row fail is one in which "min" occurs, "due" and
    "now" do not, and the first run of digits has more than 4300 of
    them. *)
Theorem time_text_minutes (now : datetime) :
  wf now ->
  let tod := ((hour now * 60 + minute now) * 60 + second now) * 1000000
             + microsecond now in
  let wait h m :=
    let target := (h * 60 + m) * 60 * 1000000 in
    if target <? tod then target + 86400000000 - tod else target - tod in
  (forall tx, Py.truthy tx = true ->
     Py.occurs_ignoring_case "due" tx \/ Py.occurs_ignoring_case "now" tx ->
     due_mins_of_text now (Some tx) = Some 0)
  /\ (forall n plural,
        (N.of_nat (String.length (numeral n)) <= Py.MAX_STR_DIGITS)%N ->
        due_mins_of_text now (Some (minutes_text n plural)) = Some (Z.of_nat n))
  /\ (forall tx g,
        ~ Py.occurs_ignoring_case "due" tx -> ~ Py.occurs_ignoring_case "now" tx ->
        Py.occurs_ignoring_case "min" tx -> Py.search_digits tx = Some g ->
        due_mins_of_text now (Some tx) = Py.int g)
  /\ (forall h m, (h < 24)%nat -> (m < 60)%nat ->
        due_mins_of_text now (Some (clock_text h m))
        = Some (wait (Z.of_nat h) (Z.of_nat m) / 60000000)
        /\ 0 <= wait (Z.of_nat h) (Z.of_nat m) / 60000000 <= 1439)
  /\ (forall tx h m,
        ~ Py.occurs_ignoring_case "due" tx -> ~ Py.occurs_ignoring_case "now" tx ->
        ~ Py.occurs_ignoring_case "min" tx ->
        clock_fields tx = Some (h, m) -> 0 <= h <= 23 -> 0 <= m <= 59 ->
        due_mins_of_text now (Some tx) = Some (wait h m / 60000000)
        /\ 0 <= wait h m / 60000000 <= 1439)
  /\ (forall tx,
        ~ Py.occurs_ignoring_case "due" tx -> ~ Py.occurs_ignoring_case "now" tx ->
        (Py.occurs_ignoring_case "min" tx /\ Py.search_digits tx = None)
        \/ (~ Py.occurs_ignoring_case "min" tx
            /\ forall h m, clock_fields tx = Some (h, m) ->
                 ~ (0 <= h <= 23 /\ 0 <= m <= 59)) ->
        due_mins_of_text now (Some tx) = Some 0)
  /\ due_mins_of_text now None = Some 0
  /\ (forall time_text,
        (due_mins_of_text now time_text = None <-> overlong_minutes time_text)
        /\ (forall due, due_mins_of_text now time_text = Some due -> 0 <= due)).
Proof.
  intros Hwf tod wait.
  assert (Hspec : forall h m, 0 <= h <= 23 -> 0 <= m <= 59 ->
            due_from_clock now h m = Some (wait h m / 60000000)
            /\ 0 <= wait h m / 60000000 <= 1439).
  { intros h m Hh Hm. exact (due_from_clock_spec now h m Hwf Hh Hm). }
  split; [|split; [|split; [|split; [|split; [|split; [|split; [reflexivity|]]]]]]].
  - intros tx Ht Hocc.
    destruct (due_mins_of_text_cases now tx) as [Hyes _]. auto.
  - intros n plural Hlen. apply minutes_text_parsed, Hlen.
  - intros tx g Hdue Hnow Hmin Hg.
    destruct (due_mins_of_text_cases now tx) as [_ Hno].
    destruct (Hno Hdue Hnow) as [Hmins _]. rewrite (Hmins Hmin).
    unfold minutes_branch. rewrite Hg. reflexivity.
  - intros h m Hh Hm. rewrite (clock_text_parsed now h m) by assumption.
    destruct (Hspec (Z.of_nat h) (Z.of_nat m)) as [Heq Hb]; [lia..|].
    rewrite Heq. split; [reflexivity | exact Hb].
  - intros tx h m Hdue Hnow Hmin Hf Hh Hm.
    destruct (due_mins_of_text_cases now tx) as [_ Hno].
    destruct (Hno Hdue Hnow) as [_ Hclock]. rewrite (Hclock Hmin).
    destruct (Hspec h m Hh Hm) as [Heq Hb]. split; [|exact Hb].
    destruct (Py.contains ":" tx) eqn:Hc;
      [|rewrite (no_colon_no_fields tx Hc) in Hf; discriminate].
    rewrite clock_branch_fields, Hf, Heq. reflexivity.
  - intros tx Hdue Hnow Hother.
    destruct (due_mins_of_text_cases now tx) as [_ Hno].
    destruct (Hno Hdue Hnow) as [Hmins Hclock].
    destruct Hother as [[Hmin Hnone]|[Hmin Hout]].
    + rewrite (Hmins Hmin). pose proof (minutes_branch_cases tx) as Hmb.
      rewrite Hnone in Hmb. exact Hmb.
    + rewrite (Hclock Hmin). destruct (Py.contains ":" tx); [|reflexivity].
      rewrite clock_branch_fields.
      destruct (clock_fields tx) as [[h m]|]; [|reflexivity].
      specialize (Hout h m eq_refl).
      unfold due_from_clock, replace_hm.
      destruct ((0 <=? h) && (h <=? 23) && (0 <=? m) && (m <=? 59)) eqn:Hr;
        [|reflexivity].
      rewrite !andb_true_iff, !Z.leb_le in Hr. exfalso. apply Hout. lia.
  - intros time_text. split; [apply due_mins_of_text_raises|].
    intros due. apply due_mins_of_text_nonneg, Hwf.
Qed.

End TimeTextClaims.

Section TimeTextSamples.
Import DateTime Scraper ScraperSample.

Lemma no_word (word tx : string) :
  Py.contains (Py.lower word) (Py.lower tx) = false ->
  ~ Py.occurs_ignoring_case word tx.
Proof. intros H Hocc. apply occurs_ignoring_case_spec in Hocc. congruence. Qed.

(** The scenario of the specification, "08:05" read at 08:10:00; a bus
    that is due, in capital letters; five minutes; twelve minutes in a
    longer text; a quarter to nine written with one digit for the hour and
    "pm" after it; and four texts that are none of the shapes. *)
Lemma time_text_minutes_sample :
  wf morning
  /\ due_mins_of_text morning (Some "08:05") = Some 1435
  /\ due_mins_of_text morning (Some "Due NOW") = Some 0
  /\ due_mins_of_text morning (Some "5 min") = Some 5
  /\ due_mins_of_text morning (Some "in 12 Minutes") = Some 12
  /\ due_mins_of_text morning (Some "8:45pm") = Some 35
  /\ due_mins_of_text morning (Some "mins") = Some 0
  /\ due_mins_of_text morning (Some "25:00") = Some 0
  /\ due_mins_of_text morning (Some "ab:cd") = Some 0
  /\ due_mins_of_text morning (Some "soon") = Some 0.
Proof.
  assert (Hwf : wf morning) by (unfold wf; cbn; lia).
  split; [exact Hwf|].
  destruct (time_text_minutes morning Hwf)
    as (Hdue & Hmins & Hrun & Hclock & Hfields & Hother & _).
  split; [exact (proj1 (Hclock 8%nat 5%nat ltac:(lia) ltac:(lia)))|].
  split.
  { apply Hdue; [reflexivity|]. left.
    exists EmptyString, "Due", " NOW". split; reflexivity. }
  split; [apply (Hmins 5%nat false); vm_compute; discriminate|].
  split.
  { refine (eq_trans (Hrun "in 12 Minutes" "12" _ _ _ eq_refl) eq_refl);
      try (apply no_word; reflexivity).
    exists "in 12 ", "Min", "utes". split; reflexivity. }
  split.
  { refine (proj1 (Hfields "8:45pm" 8 45 _ _ _ eq_refl _ _));
      try (apply no_word; reflexivity); lia. }
  split.
  { apply Hother; try (apply no_word; reflexivity). left.
    split; [|reflexivity]. exists EmptyString, "min", "s". split; reflexivity. }
  split.
  { apply Hother; try (apply no_word; reflexivity). right.
    split; [apply no_word; reflexivity|]. intros h m [= <- <-]. lia. }
  split.
  { apply Hother; try (apply no_word; reflexivity). right.
    split; [apply no_word; reflexivity|]. intros h m [=]. }
  apply Hother; try (apply no_word; reflexivity). right.
  split; [apply no_word; reflexivity|]. intros h m [=].
Defined.

(** Half a minute later the same text gives 1434. *)
Example clock_text_half_a_minute_later :
  due_mins_of_text morning_later (Some "08:05") = Some 1434.
Proof. reflexivity. Qed.

(** C8 as stated fails on the code.  A time text that is none of the three
    shapes, and a clock text whose hour is out of range, both give 0
    minutes, a present value; the row is kept with [due_mins] 0.  And a text
    of the shape "<N> min" whose number has 4301 digits gives no minutes at
    all: [int] raises, and the row is not kept. *)
Lemma unrecognized_text_gives_zero :
  due_mins_of_text morning (Some "soon") = Some 0
  /\ due_mins_of_text morning (Some "25:00") = Some 0
  /\ parse_row morning row_soon
     = Some (mk_bus "12" 0 (Some "soon") (Some "soon") None "Scheduled")
  /\ String.length nines = 4301%nat
  /\ Py.digit_run nines = nines
  /\ due_mins_of_text morning (Some (nines +:+ " min")) = None
  /\ parse_row morning row_overlong = None.
Proof. vm_compute. repeat split; reflexivity. Qed.

End TimeTextSamples.

(* ===================================================================== *)
(** * Properties of the scrape *)
(* ===================================================================== *)

Section ScrapeFacts.
Import DateTime Scraper.

Lemma describe_nonempty (stop : string) (e : exn) : describe stop e <> EmptyString.
Proof. destruct e; cbn [describe]; rewrite append_cons; discriminate. Qed.

(** When the [finally] clause is reached with no departure, [error] is
    set to a text that is not empty; with departures, it is not set. *)
Lemma scrape_body_error (ss : session) (stop : string) :
  match scrape_body ss stop with
  | ([], _, err) => exists msg, err = Some msg /\ msg <> EmptyString
  | (_ :: _, _, err) => err = None
  end.
Proof.
  unfold scrape_body.
  destruct (open_page ss) as [e|];
    [eexists; split; [reflexivity|apply describe_nonempty]|].
  destruct (if find_search _ _ then _ else _) as [e|];
    [eexists; split; [reflexivity|apply describe_nonempty]|].
  destruct (parse_rows _ _ _) as [|d ds]; [|reflexivity].
  destruct (page_content ss) as [e|]; eexists; split;
    [reflexivity|apply describe_nonempty|reflexivity|discriminate].
Qed.

(** C9, as the code has it.  When the browser and the page are obtained
    and the page closes, the scrape returns a result, whatever is raised in
    between; and a result without departure carries an error text that is
    not empty. *)
Theorem scrape_returns (ss : session) (stop : string) :
  get_browser ss = None -> new_page ss = None -> close_page ss = None ->
  exists r,
    scrape_lothian_stop ss stop = inr r
    /\ stop_code r = stop
    /\ cached r = false
    /\ (departures r = [] -> exists msg, error r = Some msg /\ msg <> EmptyString).
Proof.
  intros Hb Hp Hc. unfold scrape_lothian_stop. rewrite Hb, Hp, Hc.
  pose proof (scrape_body_error ss stop) as Herr.
  destruct (scrape_body ss stop) as [[deps name] err].
  eexists. split; [reflexivity|]. cbn. repeat split.
  intros ->. exact Herr.
Qed.

End ScrapeFacts.

Section ScrapeSamples.
Import DateTime Scraper ScraperSample.

(** A page without any departure row. *)
Lemma scrape_returns_sample :
  get_browser session_blank = None
  /\ new_page session_blank = None
  /\ close_page session_blank = None
  /\ exists r, scrape_lothian_stop session_blank "6200206420" = inr r
              /\ departures r = []
              /\ exists msg, error r = Some msg /\ msg <> EmptyString.
Proof.
  repeat split.
  destruct (scrape_returns session_blank "6200206420" eq_refl eq_refl eq_refl)
    as (r & Hr & _ & _ & Herr).
  exists r. split; [exact Hr|].
  assert (Hd : departures r = [])
    by (injection Hr as <-; reflexivity).
  split; [exact Hd | exact (Herr Hd)].
Defined.

(** C9 as stated fails on the code.  When the browser cannot be started
    the exception of line 167 leaves the function, and so does the exception
    of [page.close()] in the [finally] clause: there is no result. *)
Lemma scrape_raises :
  scrape_lothian_stop session_no_browser "6200206420"
  = inl (OtherError "Executable doesn't exist")
  /\ scrape_lothian_stop session_close_fails "6200206420"
     = inl (OtherError "Target page, context or browser has been closed").
Proof. split; reflexivity. Qed.

End ScrapeSamples.

(* ===================================================================== *)
(** * What the entry points do to the ledger *)
(* ===================================================================== *)

Section FrameFacts.
Import DateTime Coordinator Entry.

Variable w : world.
Context {B : Type} (f : state -> B).

Lemma keeps_ret {A} (a : A) : keeps f (ret a).
Proof. intros s. reflexivity. Qed.

Lemma keeps_gets {A} (g : state -> A) : keeps f (gets g).
Proof. intros s. reflexivity. Qed.

Lemma keeps_bind {A C} (m : M A) (k : A -> M C) :
  keeps f m -> (forall a, keeps f (k a)) -> keeps f (bind m k).
Proof. intros Hm Hk s. rewrite bind_eq, Hk, Hm. reflexivity. Qed.

Lemma keeps_modify (g : state -> state) :
  (forall s, f (g s) = f s) -> keeps f (modify g).
Proof. intros H s. apply H. Qed.

Lemma keeps_now : (forall n s, f (set_ticks n s) = f s) -> keeps f (now w).
Proof. intros H s. apply H. Qed.

Lemma keeps_mapM {A C} (g : A -> M C) (l : list A) :
  (forall x, keeps f (g x)) -> keeps f (mapM g l).
Proof.
  intros Hg. induction l as [|x t IH]; cbn [mapM]; [apply keeps_ret|].
  apply keeps_bind; [apply Hg|]. intros y.
  apply keeps_bind; [apply IH|]. intros ys. apply keeps_ret.
Qed.

End FrameFacts.

(** Symbolic execution of a monadic body that leaves a reading alone. *)
Ltac keeps_go :=
  repeat
    match goal with
    | |- Entry.keeps _ (Coordinator.bind _ _) => apply keeps_bind; [|intros ?]
    | |- Entry.keeps _ (Coordinator.ret _) => apply keeps_ret
    | |- Entry.keeps _ (Coordinator.gets _) => apply keeps_gets
    | |- Entry.keeps _ (Coordinator.modify _) =>
        apply keeps_modify; intros; reflexivity
    | |- Entry.keeps _ (Coordinator.now _) => apply keeps_now; intros; reflexivity
    | |- Entry.keeps _ (Coordinator.logger _ _) => unfold Coordinator.logger
    | |- Entry.keeps _ (Coordinator.mapM _ _) => apply keeps_mapM; intros ?
    | |- Entry.keeps _ (if ?b then _ else _) => destruct b
    | |- Entry.keeps _ (match ?x with _ => _ end) => destruct x
    | |- Entry.keeps _ (let _ := _ in _) => cbv zeta
    | |- Entry.keeps _ _ =>
        progress unfold Coordinator._check_daily_reset,
          Coordinator.can_call_api_auto, Coordinator.can_call_api_manual,
          Coordinator.calls_today, Coordinator.auto_calls_today,
          Coordinator._fetch_transportapi, Coordinator._fetch_scraper,
          Coordinator._parse_transportapi_departures,
          Coordinator.transportapi_records, Coordinator.parse_route,
          Coordinator.parse_departure, Coordinator.due_mins_of,
          Coordinator._check_commute_day, Coordinator.fall_back,
          Coordinator.primary_auto, Coordinator.primary_manual,
          Coordinator.async_send_notification, Coordinator._async_update_data,
          Coordinator.async_refresh, Coordinator.manual_fetch,
          Coordinator.async_manual_refresh,
          Coordinator.async_reset_daily_counters
    end.

Section KeptReadings.
Import DateTime Coordinator Entry.

Variable w : world.
Variable cfg : Config.

(** The reading of the calendar changes nothing. *)
Lemma check_commute_day_pure (s : state) : snd (_check_commute_day w cfg s) = s.
Proof.
  unfold _check_commute_day. destruct (negb _); [reflexivity|].
  rewrite bind_eq. cbn [gets fst snd].
  destruct (hass_states w _ _) as [st|]; [|reflexivity].
  destruct (negb _); reflexivity.
Qed.

Lemma notification_keeps_ledger : keeps ledger_of (async_send_notification w cfg).
Proof. unfold async_send_notification. keeps_go. Qed.

Lemma fetch_keeps_scraper (stop : string) :
  keeps scraper_requests (_fetch_transportapi w stop).
Proof. unfold _fetch_transportapi. keeps_go. Qed.

End KeptReadings.

Section LedgerMoves.
Import DateTime Coordinator Entry.

Variable w : world.
Variable cfg : Config.

(** What the reset check does to the ledger. *)
Lemma check_ledger (s : state) :
  let s0 := snd (_check_daily_reset w s) in
  ledger_of s0 = ledger_of s
  \/ ledger_of s0 = mk_ledger 0 0 (api_requests s) (scraper_requests s).
Proof.
  unfold _check_daily_reset. rewrite !bind_eq. cbn [now gets fst snd].
  destruct (needs_reset _ _); [right|left]; reflexivity.
Qed.

Lemma can_call_admits (k : kind) (s : state) :
  let s0 := snd (_check_daily_reset w s) in
  fst (can_call w cfg k s) = admits cfg k (_calls_today s0) (_auto_calls_today s0).
Proof.
  destruct k; cbn [can_call]; unfold can_call_api_auto, can_call_api_manual;
    rewrite !bind_eq; reflexivity.
Qed.

(** The primary source, under either admission: what is sent, what is
    counted and what is returned. *)
Lemma primary_effect (k : kind) (stop : string) (s : state) :
  let s0 := snd (_check_daily_reset w s) in
  let d := fst (_fetch_transportapi w stop s0) in
  let sf := snd (_fetch_transportapi w stop s0) in
  let r := primary w cfg k stop s in
  (fst (can_call w cfg k s) = false ->
     snd r = s0 /\ fst r = mk_snapshot [] SOURCE_NONE)
  /\ (fst (can_call w cfg k s) = true ->
      ledger_of (snd r)
      = mk_ledger
          (_calls_today s0 + match d with Some _ => 1 | None => 0 end)
          (_auto_calls_today s0
           + if has_api_departures d
             then match k with Automatic => 1 | Manual => 0 end else 0)
          (S (api_requests s0)) (scraper_requests s0)
      /\ fst r
         = if has_api_departures d
           then mk_snapshot
                  (fst (_parse_transportapi_departures w cfg (default (mk_api None) d) sf))
                  SOURCE_TRANSPORTAPI
           else mk_snapshot [] SOURCE_NONE).
Proof.
  intros s0 d sf r.
  pose proof (can_call_snd w cfg k s) as Hs0. fold s0 in Hs0.
  assert (Hr : r = (if fst (can_call w cfg k s) then
     (d <- _fetch_transportapi w stop ;;
      if has_api_departures d then
        deps <- _parse_transportapi_departures w cfg (default (mk_api None) d) ;;
        match k with
        | Automatic =>
            auto <- gets _auto_calls_today ;;
            modify (set_auto_calls_today (auto + 1)) ;;
            ret (mk_snapshot deps SOURCE_TRANSPORTAPI)
        | Manual => ret (mk_snapshot deps SOURCE_TRANSPORTAPI)
        end
      else ret (mk_snapshot [] SOURCE_NONE))
     else ret (mk_snapshot [] SOURCE_NONE)) s0).
  { subst r. destruct k; cbn [primary can_call] in *;
      unfold primary_auto, primary_manual; rewrite bind_eq, Hs0;
      destruct (fst _); reflexivity. }
  split; intros Hadm; rewrite Hadm in Hr; [rewrite Hr; split; reflexivity|].
  rewrite bind_eq in Hr. fold d sf in Hr.
  pose proof (fetch_transportapi_counters w stop s0) as (Hp & Ha & Hc & Hd).
  fold sf d in Hp, Ha, Hc, Hd.
  assert (Hq : scraper_requests sf = scraper_requests s0).
  { apply (fetch_keeps_scraper w stop). }
  assert (Hc' : _calls_today sf
                = _calls_today s0 + match d with Some _ => 1 | None => 0 end).
  { rewrite Hc, Hd. destruct (transportapi w _ _) as [st body|e];
      [destruct (st =? 200)|]; lia. }
  destruct (has_api_departures d) eqn:Hh.
  - rewrite bind_eq in Hr.
    destruct (parse_only_ticks w cfg (default (mk_api None) d) sf) as [n Hn].
    split.
    + rewrite Hr. destruct k; cbn [snd]; rewrite ?bind_eq; cbn [gets modify ret fst snd];
        rewrite Hn; unfold ledger_of; cbn; rewrite Hc', Ha, Hp, Hq; f_equal; lia.
    + rewrite Hr. destruct k; rewrite ?bind_eq; reflexivity.
  - rewrite Hr. split; [|reflexivity]. cbn [ret snd].
    unfold ledger_of. rewrite Hc', Ha, Hp, Hq. f_equal; lia.
Qed.

End LedgerMoves.

(** Any relation on ledgers that is reflexive and transitive and holds
    along the events of the admissions [K] holds along every entry point
    that asks for those admissions only. *)
Section LedgerRelation.
Import DateTime Coordinator Entry.

Variable w : world.
Variable cfg : Config.
Variable K : kind -> Prop.
Variable L : ledger -> ledger -> Prop.
Hypothesis L_refl : forall l, L l l.
Hypothesis L_trans : forall a b c, L a b -> L b c -> L a c.
Hypothesis L_zeroed : forall c a p q, L (mk_ledger c a p q) (mk_ledger 0 0 p q).
Hypothesis L_scraped : forall c a p q, L (mk_ledger c a p q) (mk_ledger c a p (S q)).
Hypothesis L_requested : forall k c a p q,
  K k -> admits cfg k c a = true ->
  L (mk_ledger c a p q) (mk_ledger c a (S p) q)
  /\ L (mk_ledger c a p q) (mk_ledger (c + 1) a (S p) q)
  /\ (k = Automatic -> L (mk_ledger c a p q) (mk_ledger (c + 1) (a + 1) (S p) q)).

Local Abbreviation respects := (Entry.respects L).

Lemma respects_keeps {A} (m : M A) : keeps ledger_of m -> respects m.
Proof. intros H s. rewrite H. apply L_refl. Qed.

Lemma respects_bind {A C} (m : M A) (k : A -> M C) :
  respects m -> (forall a, respects (k a)) -> respects (bind m k).
Proof.
  intros Hm Hk s. rewrite bind_eq. eapply L_trans; [apply Hm | apply Hk].
Qed.

Lemma respects_check : respects (_check_daily_reset w).
Proof.
  intros s. destruct (check_ledger w s) as [-> | ->]; [apply L_refl|].
  apply L_zeroed.
Qed.

Lemma respects_can_call (k : kind) : respects (can_call w cfg k).
Proof. intros s. rewrite can_call_snd. apply respects_check. Qed.

Lemma respects_primary (k : kind) (stop : string) :
  K k -> respects (primary w cfg k stop).
Proof.
  intros Hk s. destruct (primary_effect w cfg k stop s) as [Hno Hyes].
  eapply L_trans; [apply respects_check|].
  destruct (fst (can_call w cfg k s)) eqn:Hadm.
  - destruct (Hyes eq_refl) as [-> _].
    rewrite can_call_admits in Hadm.
    set (s0 := snd (_check_daily_reset w s)) in *.
    destruct (L_requested k (_calls_today s0) (_auto_calls_today s0)
                (api_requests s0) (scraper_requests s0) Hk Hadm)
      as (Hnot & Hcounted & Hauto).
    unfold ledger_of in *.
    destruct (fst (_fetch_transportapi w stop s0)) as [body|] eqn:Hd.
    + destruct (has_api_departures (Some body)), k;
        rewrite ?Z.add_0_r; auto.
    + cbn [has_api_departures]. rewrite !Z.add_0_r. exact Hnot.
  - destruct (Hno eq_refl) as [-> _]. apply L_refl.
Qed.

Lemma respects_fetch_scraper (stop : string) : respects (_fetch_scraper w cfg stop).
Proof.
  intros s. unfold _fetch_scraper. destruct (negb _); [apply L_refl|].
  rewrite !bind_eq. cbn [gets modify fst snd].
  assert (H : forall (m : M (option scraper_payload)),
            keeps ledger_of m ->
            L (ledger_of s)
              (ledger_of
                 (snd (m (set_scraper_requests (S (scraper_requests s)) s))))).
  { intros m Hm. rewrite Hm. apply L_scraped. }
  apply H. keeps_go.
Qed.

Lemma respects_fall_back (stop : string) (cur : snapshot) :
  respects (fall_back w cfg stop cur).
Proof.
  unfold fall_back. destruct (departures cur); [|apply respects_keeps; keeps_go].
  apply respects_bind; [apply respects_fetch_scraper|].
  intros d. apply respects_keeps. keeps_go.
Qed.

Lemma respects_check_commute : respects (_check_commute_day w cfg).
Proof. intros s. rewrite check_commute_day_pure. apply L_refl. Qed.

Lemma respects_notification : respects (async_send_notification w cfg).
Proof. apply respects_keeps, notification_keeps_ledger. Qed.

(** Symbolic execution of a fetch cycle. *)
Ltac respects_go :=
  repeat
    match goal with
    | |- Entry.respects _ (bind _ _) => apply respects_bind; [|intros ?]
    | |- Entry.respects _ (if ?b then _ else _) => destruct b
    | |- Entry.respects _ (let _ := _ in _) => cbv zeta
    | |- Entry.respects _ (_check_daily_reset _) => apply respects_check
    | |- Entry.respects _ (primary_auto _ _ ?stop) =>
        apply (respects_primary Automatic stop); assumption
    | |- Entry.respects _ (primary_manual _ _ ?stop) =>
        apply (respects_primary Manual stop); assumption
    | |- Entry.respects _ (fall_back _ _ _ _) => apply respects_fall_back
    | |- Entry.respects _ (_check_commute_day _ _) => apply respects_check_commute
    | |- Entry.respects _ (async_send_notification _ _) => apply respects_notification
    | |- Entry.respects _ (can_call_api_auto _ _) => apply (respects_can_call Automatic)
    | |- Entry.respects _ (can_call_api_manual _ _) => apply (respects_can_call Manual)
    | |- Entry.respects _ _ => apply respects_keeps; solve [keeps_go]
    end.

Lemma respects_update : K Automatic -> respects (_async_update_data w cfg).
Proof. intros Hk. unfold _async_update_data. respects_go. Qed.

Lemma respects_refresh : K Automatic -> respects (async_refresh w cfg).
Proof.
  intros Hk. unfold async_refresh. apply respects_bind; [apply respects_update, Hk|].
  intros r. apply respects_keeps. keeps_go.
Qed.

Lemma respects_manual_fetch : K Manual -> respects (manual_fetch w cfg).
Proof. intros Hk. unfold manual_fetch. respects_go. Qed.

Lemma respects_manual_refresh :
  K Manual -> K Automatic -> respects (async_manual_refresh w cfg).
Proof.
  intros Hm Ha. unfold async_manual_refresh.
  apply respects_bind; [apply respects_manual_fetch, Hm|].
  intros [|]; [|apply respects_keeps; keeps_go].
  apply respects_bind; [apply respects_refresh, Ha | intros; apply respects_notification].
Qed.

Lemma respects_reset_service :
  K Automatic -> respects (async_reset_daily_counters w cfg).
Proof.
  intros Hk s. unfold async_reset_daily_counters.
  rewrite bind_eq. cbn [modify fst snd]. rewrite bind_eq. cbn [modify fst snd].
  eapply L_trans;
    [|apply (respects_bind (now w)
               (fun t => modify (set_last_reset_date (Some t)) ;;
                         logger INFO "Daily API counters manually reset" ;;
                         async_refresh w cfg))].
  - apply L_zeroed.
  - apply respects_keeps. keeps_go.
  - intros t. respects_go. apply respects_refresh, Hk.
Qed.

Lemma respects_perform (a : action) :
  Forall K (kinds_of a) -> respects (perform w cfg a).
Proof.
  intros Hk. destruct a; cbn [perform kinds_of] in *;
    repeat match goal with
           | H : Forall K (_ :: _) |- _ => apply List.Forall_cons_iff in H as [? H]
           end;
    first [ apply respects_refresh; assumption
          | apply respects_manual_refresh; assumption
          | apply respects_notification
          | apply respects_reset_service; assumption
          | unfold calls_today, auto_calls_today; respects_go ].
Qed.

Lemma respects_perform_some (l : list action) :
  Forall (fun a => Forall K (kinds_of a)) l -> respects (perform_all w cfg l).
Proof.
  induction 1 as [|a l Ha Hl IH]; cbn [perform_all].
  - apply respects_keeps, keeps_ret.
  - apply respects_bind; [apply respects_perform, Ha | intros; apply IH].
Qed.

End LedgerRelation.

(** The same for every entry point, along the five events. *)
Section EveryEvent.
Import DateTime Coordinator Entry.

Variable w : world.
Variable cfg : Config.
Variable L : ledger -> ledger -> Prop.
Hypothesis L_refl : forall l, L l l.
Hypothesis L_trans : forall a b c, L a b -> L b c -> L a c.
Hypothesis L_event : forall a b, event cfg a b -> L a b.

Lemma respects_perform_all (l : list action) :
  Entry.respects L (perform_all w cfg l).
Proof.
  apply (respects_perform_some w cfg (fun _ => True) L L_refl L_trans).
  - intros. apply L_event. constructor.
  - intros. apply L_event. constructor.
  - intros k c a p q _ Hadm. repeat split.
    + apply L_event. eapply NotCounted. exact Hadm.
    + apply L_event. eapply Counted. exact Hadm.
    + intros ->. apply L_event. apply CountedAutomatic. exact Hadm.
  - apply List.Forall_forall. intros a _. apply List.Forall_forall. auto.
Qed.

End EveryEvent.

(* ===================================================================== *)
(** * The ledger over every sequence of entry points *)
(* ===================================================================== *)

Section LedgerTheorems.
Import DateTime Coordinator Entry.

Variable w : world.
Variable cfg : Config.

(** X1.  Whatever sequence of timer refreshes, service calls, button
    presses and sensor or property reads is run, from whatever state, the
    ledger changes only by a sequence of the five events: both counters are
    zeroed; an admitted request to the primary source is sent and left
    uncounted, or counted as a call, or counted as a call and as an
    automatic call, the latter under the automatic admission; a request is
    sent to the scraper service.  So no call is counted without a request
    sent, no request is sent to the primary source without an admission
    that held on the counters of that moment, and a counter goes down only
    when both go to zero. *)
Theorem ledger_changes_by_events (l : list action) (s : state) :
  rtc (event cfg) (ledger_of s) (ledger_of (after w cfg l s)).
Proof.
  apply (respects_perform_all w cfg (rtc (event cfg))).
  - intros x. apply rtc_refl.
  - intros a b c. apply rtc_trans.
  - intros a b. apply rtc_once.
Qed.

Lemma event_within_budget (a b : ledger) :
  0 <= reserved_of cfg -> event cfg a b ->
  within_budget cfg a -> within_budget cfg b.
Proof.
  intros Hres Hev. unfold within_budget.
  destruct Hev as [c a p q|k c a p q Hadm|k c a p q Hadm|c a p q Hadm|c a p q];
    cbn [l_calls l_auto]; try tauto; try lia.
  - destruct k; cbn [admits] in Hadm;
      rewrite ?andb_true_iff, ?Z.ltb_lt in Hadm; lia.
  - cbn [admits] in Hadm. rewrite andb_true_iff, !Z.ltb_lt in Hadm. lia.
Qed.

(** X2.  When the number of calls reserved for manual use is not
    negative, the budget is kept by every sequence of entry points: if the
    automatic calls are among the calls, the calls are within the daily
    quota, and the automatic calls are within their cap and within the part
    of the quota that is not reserved, then the same holds afterwards. *)
Theorem budget_kept (l : list action) (s : state) :
  0 <= reserved_of cfg ->
  within_budget cfg (ledger_of s) ->
  within_budget cfg (ledger_of (after w cfg l s)).
Proof.
  intros Hres.
  apply (respects_perform_all w cfg
           (fun a b => within_budget cfg a -> within_budget cfg b)).
  - auto.
  - auto.
  - intros a b. apply event_within_budget, Hres.
Qed.

(** The counters, once not negative and with the automatic calls among the
    calls, stay so; the two request counts never go down; and the calls
    counted grow by no more than the requests sent. *)
Lemma event_counts_requests (a b : ledger) :
  event cfg a b ->
  0 <= l_auto a <= l_calls a ->
  0 <= l_auto b <= l_calls b
  /\ (l_api a <= l_api b)%nat /\ (l_scraper a <= l_scraper b)%nat
  /\ l_calls b - l_calls a <= Z.of_nat (l_api b) - Z.of_nat (l_api a).
Proof. intros [ | | | | ]; cbn [l_calls l_auto l_api l_scraper]; lia. Qed.

(** X3.  Over every sequence of entry points, started with counters that
    are not negative and with the automatic calls among the calls: the
    counters stay so, the numbers of requests sent to the two sources never
    go down, and the counter of calls grows by no more than the number of
    requests sent to the primary source meanwhile.  From the fresh
    coordinator, the calls counted today never exceed the requests sent. *)
Theorem calls_counted_were_sent (l : list action) (s : state) :
  0 <= _auto_calls_today s <= _calls_today s ->
  let s' := after w cfg l s in
  0 <= _auto_calls_today s' <= _calls_today s'
  /\ (api_requests s <= api_requests s')%nat
  /\ (scraper_requests s <= scraper_requests s')%nat
  /\ _calls_today s' - _calls_today s
     <= Z.of_nat (api_requests s') - Z.of_nat (api_requests s).
Proof.
  intros H0 s'.
  apply (respects_perform_all w cfg
           (fun a b =>
              0 <= l_auto a <= l_calls a ->
              0 <= l_auto b <= l_calls b
              /\ (l_api a <= l_api b)%nat /\ (l_scraper a <= l_scraper b)%nat
              /\ l_calls b - l_calls a <= Z.of_nat (l_api b) - Z.of_nat (l_api a)));
    [| | |exact H0].
  - intros x. lia.
  - intros a b c Hab Hbc Ha. specialize (Hab Ha). destruct Hab as [Hb Hab].
    specialize (Hbc Hb). lia.
  - intros a b. apply event_counts_requests.
Qed.

End LedgerTheorems.

Section LedgerSamples.
Import DateTime Coordinator Entry Sample.

(** The default settings, and a morning of presses and refreshes from the
    fresh coordinator. *)
Lemma budget_kept_sample :
  0 <= reserved_of config_stop
  /\ within_budget config_stop (ledger_of init)
  /\ within_budget config_stop
       (ledger_of
          (after world_X4 config_stop
             [Tick; RefreshCommute; CanAutoSensor; ResetCounters; Tick] init)).
Proof.
  assert (Hres : 0 <= reserved_of config_stop) by (vm_compute; discriminate).
  assert (Hinit : within_budget config_stop (ledger_of init))
    by (unfold within_budget; cbn; lia).
  split; [exact Hres|]. split; [exact Hinit|].
  apply (budget_kept world_X4 config_stop _ init Hres Hinit).
Defined.

Lemma calls_counted_were_sent_sample :
  0 <= _auto_calls_today init <= _calls_today init
  /\ _calls_today (after world_500 config_stop [Tick; RefreshCommute] init)
     <= Z.of_nat (api_requests (after world_500 config_stop [Tick; RefreshCommute] init)).
Proof.
  assert (H0 : 0 <= _auto_calls_today init <= _calls_today init) by (cbn; lia).
  split; [exact H0|].
  destruct (calls_counted_were_sent world_500 config_stop [Tick; RefreshCommute] init H0)
    as (_ & _ & _ & H).
  cbn [init _calls_today api_requests] in H. lia.
Defined.

End LedgerSamples.

(* ===================================================================== *)
(** * What one entry point costs *)
(* ===================================================================== *)

Section CostFacts.
Import DateTime Coordinator Entry.

Context (f : state -> nat).

Lemma costs_keeps {A} (n : nat) (m : M A) : keeps f m -> costs f n m.
Proof. intros H s. rewrite H. lia. Qed.

Lemma costs_bind {A C} (n1 n2 : nat) (m : M A) (k : A -> M C) :
  costs f n1 m -> (forall a, costs f n2 (k a)) -> costs f (n1 + n2) (bind m k).
Proof.
  intros Hm Hk s. rewrite bind_eq.
  specialize (Hm s). specialize (Hk (fst (m s)) (snd (m s))). lia.
Qed.

End CostFacts.

(** A body in which one step costs and the others are free. *)
Ltac costs_go :=
  repeat
    match goal with
    | |- Entry.costs _ _ (if ?b then _ else _) => destruct b
    | |- Entry.costs _ _ (let _ := _ in _) => cbv zeta
    | |- Entry.costs _ ?n (Coordinator.bind _ _) =>
        first
          [ apply (costs_bind _ 0 n);
            [solve [apply costs_keeps; keeps_go] | intros ?]
          | apply (costs_bind _ n 0);
            [|intros ?; solve [apply costs_keeps; keeps_go]] ]
    | |- Entry.costs _ _ _ => solve [apply costs_keeps; keeps_go]
    end.

Section ActionCosts.
Import DateTime Coordinator Entry.

Variable w : world.
Variable cfg : Config.

Lemma fetch_transportapi_costs (stop : string) :
  costs api_requests 1 (_fetch_transportapi w stop).
Proof.
  intros s. destruct (fetch_transportapi_counters w stop s) as [-> _]. lia.
Qed.

Lemma primary_auto_costs (stop : string) :
  costs api_requests 1 (primary_auto w cfg stop).
Proof.
  unfold primary_auto. costs_go. apply fetch_transportapi_costs.
Qed.

Lemma primary_manual_costs (stop : string) :
  costs api_requests 1 (primary_manual w cfg stop).
Proof.
  unfold primary_manual. costs_go. apply fetch_transportapi_costs.
Qed.

Lemma fetch_scraper_costs (stop : string) :
  costs scraper_requests 1 (_fetch_scraper w cfg stop).
Proof.
  unfold _fetch_scraper. destruct (negb _); [apply costs_keeps, keeps_ret|].
  intros s. rewrite !bind_eq. cbn [gets modify fst snd].
  assert (H : forall (m : M (option scraper_payload)) s1,
            keeps scraper_requests m ->
            scraper_requests (snd (m s1)) = scraper_requests s1)
    by (intros m s1 Hm; apply Hm).
  rewrite H by keeps_go. cbn. lia.
Qed.

Lemma fall_back_costs (stop : string) (cur : snapshot) :
  costs scraper_requests 1 (fall_back w cfg stop cur).
Proof.
  unfold fall_back. destruct (departures cur); costs_go.
  apply fetch_scraper_costs.
Qed.

Lemma update_costs_api : costs api_requests 1 (_async_update_data w cfg).
Proof. unfold _async_update_data. costs_go. apply primary_auto_costs. Qed.

Lemma update_costs_scraper : costs scraper_requests 1 (_async_update_data w cfg).
Proof. unfold _async_update_data. costs_go. apply fall_back_costs. Qed.

Lemma manual_fetch_costs_api : costs api_requests 1 (manual_fetch w cfg).
Proof. unfold manual_fetch. costs_go. apply primary_manual_costs. Qed.

Lemma manual_fetch_costs_scraper : costs scraper_requests 1 (manual_fetch w cfg).
Proof. unfold manual_fetch. costs_go. apply fall_back_costs. Qed.

Lemma refresh_costs_api : costs api_requests 1 (async_refresh w cfg).
Proof. unfold async_refresh. costs_go. apply update_costs_api. Qed.

Lemma refresh_costs_scraper : costs scraper_requests 1 (async_refresh w cfg).
Proof. unfold async_refresh. costs_go. apply update_costs_scraper. Qed.

Lemma notification_costs : costs service_calls 1 (async_send_notification w cfg).
Proof.
  unfold async_send_notification.
  destruct (negb _); [costs_go|]. destruct (Py.contains _ _); [|costs_go].
  intros s. rewrite !bind_eq. cbn [gets modify fst snd].
  destruct (service_call w _); cbn; lia.
Qed.

(** X4.  What one entry point can cost.  A timer refresh and a press of
    the reset button send at most one request to the primary source and at
    most one to the scraper service; a manual refresh at most two of each,
    and at most one notification; the notification service and button send
    at most one notification and no request; reading a sensor or a counter
    sends nothing.  None of the three counts ever goes down. *)
Theorem action_costs (a : action) :
  costs api_requests (requests_of a) (perform w cfg a)
  /\ costs scraper_requests (requests_of a) (perform w cfg a)
  /\ costs service_calls (notifications_of a) (perform w cfg a).
Proof.
  destruct a; cbn [perform requests_of notifications_of]; (split; [|split]);
    try solve [costs_go];
    try solve [apply costs_keeps; keeps_go];
    try apply refresh_costs_api; try apply refresh_costs_scraper;
    try apply notification_costs.
  - unfold async_manual_refresh. apply (costs_bind _ 1 1).
    + apply manual_fetch_costs_api.
    + intros [|]; costs_go. apply refresh_costs_api.
  - unfold async_manual_refresh. apply (costs_bind _ 1 1).
    + apply manual_fetch_costs_scraper.
    + intros [|]; costs_go. apply refresh_costs_scraper.
  - unfold async_manual_refresh. costs_go. apply notification_costs.
  - unfold async_reset_daily_counters. costs_go. apply refresh_costs_api.
  - unfold async_reset_daily_counters. costs_go. apply refresh_costs_scraper.
Qed.

End ActionCosts.

(* ===================================================================== *)
(** * The counters within one calendar day *)
(* ===================================================================== *)

Section DailyCounters.
Import DateTime Coordinator Entry.

Variable w : world.
Variable cfg : Config.
Variable D : Z.

Lemma exec_cons (o : op) (ops : list op) (s : state) :
  exec w cfg (o :: ops) s = exec w cfg ops (snd (step w cfg o s)).
Proof. unfold exec. cbn [run]. rewrite bind_eq. reflexivity. Qed.

(** The reset check fires exactly when the stored date is absent or is not
    the date of the reading. *)
Lemma needs_reset_dates (last : option datetime) (t : datetime) :
  (last = None \/ (exists d, last = Some d /\ date d <> date t) ->
   needs_reset last t = true)
  /\ ((exists d, last = Some d /\ date d = date t) -> needs_reset last t = false).
Proof.
  split.
  - intros [->|(d & -> & Hne)]; [reflexivity|]. cbn [needs_reset].
    apply negb_true_iff, Z.eqb_neq, Hne.
  - intros (d & -> & He). cbn [needs_reset]. rewrite He, Z.eqb_refl. reflexivity.
Qed.

(** No sequence of entry points makes a counter negative. *)
Lemma counters_not_negative (l : list action) (x : state) :
  0 <= _calls_today x -> 0 <= _auto_calls_today x ->
  0 <= _calls_today (after w cfg l x) /\ 0 <= _auto_calls_today (after w cfg l x).
Proof.
  intros Hc Ha.
  apply (respects_perform_all w cfg
           (fun a b => 0 <= l_calls a /\ 0 <= l_auto a ->
                       0 <= l_calls b /\ 0 <= l_auto b)); auto.
  intros a b Hev.
  destruct Hev as [c a p q|k c a p q Hadm|k c a p q Hadm|c a p q Hadm|c a p q];
    cbn [l_calls l_auto]; lia.
Qed.

(** The reset service leaves the counters at what its closing refresh has
    counted from zero. *)
Lemma reset_service_counts (x : state) :
  let x' := snd (async_reset_daily_counters w cfg x) in
  0 <= _auto_calls_today x' <= _calls_today x' /\ _calls_today x' <= 1.
Proof.
  cbv zeta. unfold async_reset_daily_counters.
  rewrite !bind_eq. cbn [modify now fst snd].
  match goal with
  | |- context [async_refresh w cfg ?y] => set (x0 := y)
  end.
  assert (H0 : ledger_of x0 = mk_ledger 0 0 (api_requests x) (scraper_requests x))
    by reflexivity.
  set (L := fun a b : ledger =>
              0 <= l_auto a <= l_calls a ->
              0 <= l_auto b <= l_calls b
              /\ l_calls b - l_calls a <= Z.of_nat (l_api b) - Z.of_nat (l_api a)).
  assert (L_refl : forall l, L l l) by (unfold L; intros; lia).
  assert (L_trans : forall a b c, L a b -> L b c -> L a c).
  { unfold L. intros a b c Hab Hbc Ha. destruct (Hab Ha) as [Hb ?].
    destruct (Hbc Hb). lia. }
  assert (L_zeroed : forall c a p q, L (mk_ledger c a p q) (mk_ledger 0 0 p q))
    by (unfold L; intros; cbn in *; lia).
  assert (L_scraped : forall c a p q, L (mk_ledger c a p q) (mk_ledger c a p (S q)))
    by (unfold L; intros; cbn in *; lia).
  assert (L_requested : forall k c a p q,
            True -> admits cfg k c a = true ->
            L (mk_ledger c a p q) (mk_ledger c a (S p) q)
            /\ L (mk_ledger c a p q) (mk_ledger (c + 1) a (S p) q)
            /\ (k = Automatic ->
                L (mk_ledger c a p q) (mk_ledger (c + 1) (a + 1) (S p) q)))
    by (unfold L; intros; cbn; repeat split; intros; lia).
  pose proof (respects_refresh w cfg (fun _ => True) L L_refl L_trans L_zeroed
                L_scraped L_requested I x0) as Hr.
  unfold L in Hr. rewrite H0 in Hr. cbn [l_auto l_calls l_api ledger_of] in Hr.
  specialize (Hr ltac:(lia)).
  pose proof (refresh_costs_api w cfg x0) as Hc.
  change (api_requests x0) with (api_requests x) in Hc.
  destruct Hr as [Hshape Hcount]. repeat split; lia.
Qed.

(** C2, as the code has it.  Take any run of the ledger operations the
    claim lists (admission checks, counter reads, periodic and manual fetch
    cycles), started with counters that are not negative, during which
    every reading of the clock falls on one calendar day [D].  The counters
    stay non-negative, and from the reset check that opens the first
    operation onwards they never decrease.  When the stored last-reset date
    is absent or is a date other than [D], the daily reset fires exactly
    once, inside that opening check: it zeroes both counters together and
    stores a date that is [D].  When the stored date is [D] already it does
    not fire at all.  The reset service is another matter: no sequence of
    entry points, that service among them, makes a counter negative, but the
    service puts both counters back to zero whenever it is called, whatever
    the date is, and leaves them at the one call at most that its closing
    refresh counts. *)
Theorem daily_counters (s : state) (o : op) (ops1 ops2 : list op) :
  let s0 := snd (_check_daily_reset w s) in
  let s1 := exec w cfg (o :: ops1) s in
  let s2 := exec w cfg ops2 s1 in
  (forall n, (ticks s <= n < ticks s2)%nat -> date (clock w n) = D) ->
  0 <= _calls_today s ->
  0 <= _auto_calls_today s ->
  (0 <= _calls_today s1 /\ 0 <= _auto_calls_today s1
   /\ 0 <= _calls_today s2 /\ 0 <= _auto_calls_today s2)
  /\ (_calls_today s0 <= _calls_today s1 <= _calls_today s2
      /\ _auto_calls_today s0 <= _auto_calls_today s1 <= _auto_calls_today s2)
  /\ (exists k : M unit,
        forall x, step w cfg o x = k (snd (_check_daily_reset w x)))
  /\ (exists d0 d1 d2,
        _last_reset_date s0 = Some d0 /\ date d0 = D
        /\ _last_reset_date s1 = Some d1 /\ date d1 = D
        /\ _last_reset_date s2 = Some d2 /\ date d2 = D)
  /\ (_last_reset_date s = None
      \/ (exists d, _last_reset_date s = Some d /\ date d <> D) ->
      _calls_today s0 = 0 /\ _auto_calls_today s0 = 0
      /\ resets s0 = S (resets s)
      /\ resets s1 = S (resets s) /\ resets s2 = S (resets s))
  /\ ((exists d, _last_reset_date s = Some d /\ date d = D) ->
      _calls_today s0 = _calls_today s /\ _auto_calls_today s0 = _auto_calls_today s
      /\ resets s0 = resets s
      /\ resets s1 = resets s /\ resets s2 = resets s)
  /\ (forall (l : list action) (x : state),
        0 <= _calls_today x -> 0 <= _auto_calls_today x ->
        0 <= _calls_today (after w cfg l x)
        /\ 0 <= _auto_calls_today (after w cfg l x))
  /\ (forall x : state,
        let x' := snd (async_reset_daily_counters w cfg x) in
        0 <= _auto_calls_today x' <= _calls_today x' /\ _calls_today x' <= 1).
Proof.
  intros s0 s1 s2 Hd Hc Ha.
  destruct (step_opens_with_check w cfg D (ticks s2) o) as (k & Hk & Hst).
  destruct (check_cases w s) as (Ht0 & Hold & Hnew). fold s0 in Ht0, Hold, Hnew.
  assert (Hs1 : s1 = snd (run w cfg ops1 (snd (k s0)))).
  { subst s1. rewrite exec_cons, Hk. reflexivity. }
  destruct (Hst s0) as [Hk1 Hk2].
  destruct (steady_run w cfg D (ticks s2) ops1 (snd (k s0))) as [Hr1 Hr2].
  rewrite <- Hs1 in Hr1, Hr2.
  destruct (steady_run w cfg D (ticks s2) ops2 s1) as [Hr3 Hr4].
  fold (exec w cfg ops2 s1) in Hr3, Hr4. fold s2 in Hr3, Hr4.
  assert (Hs : Coordinator.same_day w D (ticks s2) s) by (repeat split; assumption).
  destruct (check_same_day w D (ticks s2) s Hs) as [H0 Hg0]; [lia|].
  fold s0 in H0, Hg0.
  assert (Hg1 : grows s0 s1).
  { eapply grows_trans; [apply Hk2; [exact H0|lia]|].
    apply Hr2; [|lia]. eapply today_grows; [exact H0|]. apply Hk2; [exact H0|lia]. }
  assert (H1 : Coordinator.today w D (ticks s2) s1) by (eapply today_grows; eauto).
  assert (Hg2 : grows s1 s2) by (apply Hr4; [exact H1|lia]).
  assert (H2 : Coordinator.today w D (ticks s2) s2) by (eapply today_grows; eauto).
  assert (Hnow : date (clock w (ticks s)) = D) by (apply Hd; lia).
  destruct (needs_reset_dates (_last_reset_date s) (clock w (ticks s)))
    as [Hstale Hsame].
  rewrite Hnow in Hstale, Hsame.
  destruct Hg1 as (_ & Hc1 & Ha1 & Hres1 & _).
  destruct Hg2 as (_ & Hc2 & Ha2 & Hres2 & _).
  destruct H0 as [_ (d0 & Hl0 & Hd0)].
  destruct H1 as [(_ & ? & ?) (d1 & Hl1 & Hd1)].
  destruct H2 as [(_ & ? & ?) (d2 & Hl2 & Hd2)].
  split; [tauto|]. split; [lia|]. split; [exists k; exact Hk|].
  split; [exists d0, d1, d2; auto 10|].
  split; [|split; [|split; [apply counters_not_negative | apply reset_service_counts]]].
  - intros Hf. destruct (Hnew (Hstale Hf)) as (? & ? & _ & ?).
    repeat split; congruence.
  - intros Hf. pose proof (Hold (Hsame Hf)) as E.
    assert (_calls_today s0 = _calls_today s) by (rewrite E; reflexivity).
    assert (_auto_calls_today s0 = _auto_calls_today s) by (rewrite E; reflexivity).
    assert (resets s0 = resets s) by (rewrite E; reflexivity).
    repeat split; congruence.
Qed.

End DailyCounters.

Section DailyCounterSamples.
Import DateTime Coordinator Entry Sample.

(** Two days of [world_two_days].  The four operations of the first day
    take its fourteen readings of the clock, starting from the fresh
    coordinator, which has no stored date: one reset, made by the first of
    them, and three calls counted at the end.  The two operations of the
    second day start from what the first day left, a stored date of the day
    before and counters that are not zero: the first of them zeroes both
    counters, and that is the second reset. *)
Lemma daily_counters_sample :
  let ops1 := [Refresh; ReadCalls] in
  let ops2 := [ManualRefresh; CanCallAuto] in
  let s2 := exec world_two_days config_stop ops2
              (exec world_two_days config_stop ops1 init) in
  let s4 := exec world_two_days config_stop [Refresh]
              (exec world_two_days config_stop [ReadCalls] s2) in
  ((forall n, (ticks init <= n < ticks s2)%nat ->
              date (clock world_two_days n) = 739000)
   /\ _last_reset_date init = None
   /\ resets s2 = 1%nat)
  /\ ((forall n, (ticks s2 <= n < ticks s4)%nat ->
                 date (clock world_two_days n) = 739001)
      /\ _calls_today s2 = 3 /\ _auto_calls_today s2 = 2
      /\ (exists d, _last_reset_date s2 = Some d /\ date d <> 739001)
      /\ _calls_today (snd (_check_daily_reset world_two_days s2)) = 0
      /\ _auto_calls_today (snd (_check_daily_reset world_two_days s2)) = 0
      /\ resets s4 = 2%nat
      /\ exists d, _last_reset_date s4 = Some d /\ date d = 739001).
Proof.
  intros ops1 ops2 s2 s4.
  assert (Hd : forall n, (ticks init <= n < ticks s2)%nat ->
                         date (clock world_two_days n) = 739000).
  { intros n Hn. change (ticks s2) with 14%nat in Hn.
    cbn [world_two_days clock].
    destruct (Nat.ltb_spec n 14); [reflexivity | lia]. }
  assert (Hd' : forall n, (ticks s2 <= n < ticks s4)%nat ->
                          date (clock world_two_days n) = 739001).
  { intros n Hn. change (ticks s2) with 14%nat in Hn.
    cbn [world_two_days clock].
    destruct (Nat.ltb_spec n 14); [lia | reflexivity]. }
  assert (Hc2 : _calls_today s2 = 3) by reflexivity.
  assert (Ha2 : _auto_calls_today s2 = 2) by reflexivity.
  assert (Hstale : exists d, _last_reset_date s2 = Some d /\ date d <> 739001).
  { exists morning. split; [reflexivity | discriminate]. }
  split.
  - split; [exact Hd|]. split; [reflexivity|].
    destruct (daily_counters world_two_days config_stop 739000 init Refresh
                [ReadCalls] ops2 Hd (Z.le_refl 0) (Z.le_refl 0))
      as (_ & _ & _ & _ & Hfresh & _).
    destruct (Hfresh (or_introl eq_refl)) as (_ & _ & _ & _ & H). exact H.
  - split; [exact Hd'|]. split; [exact Hc2|]. split; [exact Ha2|].
    split; [exact Hstale|].
    destruct (daily_counters world_two_days config_stop 739001 s2 ReadCalls
                [] [Refresh] Hd')
      as (_ & _ & _ & (_ & _ & d & _ & _ & _ & _ & Hl & Hdate) & Hfresh & _).
    { rewrite Hc2. discriminate. }
    { rewrite Ha2. discriminate. }
    destruct (Hfresh (or_intror Hstale)) as (Hc0 & Ha0 & _ & _ & H).
    split; [exact Hc0|]. split; [exact Ha0|].
    split; [exact H|]. exists d. split; [exact Hl | exact Hdate].
Defined.

(** C2 as stated fails on the code.  On one day, from the fresh
    coordinator, a periodic and a manual refresh count three calls, two of
    them automatic; the reset service then brings both counters down to the
    one call of its own refresh.  The counters have decreased within the
    day, and they have been put to zero twice on it, once by the daily reset
    and once by the service. *)
Lemma counters_fall_on_reset_service :
  let s1 := exec world_X4 config_stop [Refresh; ManualRefresh] init in
  let s2 := snd (async_reset_daily_counters world_X4 config_stop s1) in
  (forall n, date (clock world_X4 n) = 739000)
  /\ _calls_today s1 = 3 /\ _auto_calls_today s1 = 2
  /\ _calls_today s2 = 1 /\ _auto_calls_today s2 = 1
  /\ resets s1 = 1%nat /\ resets s2 = 1%nat
  /\ s2 = after world_X4 config_stop [Tick; RefreshCommute; ResetCounters] init.
Proof. vm_compute. repeat split; reflexivity. Qed.

End DailyCounterSamples.

(* ===================================================================== *)
(** * The fetch cycles *)
(* ===================================================================== *)

Section CycleFacts.
Import DateTime Coordinator Entry.

Variable w : world.
Variable cfg : Config.

Local Abbreviation stop := (default EmptyString (bus_stop_primary cfg)).
Local Abbreviation url := (default DEFAULT_SCRAPER_URL (scraper_url cfg)).

(** The two steps of a cycle, from the state in which it reaches its
    admission. *)
Local Abbreviation found k s := (primary w cfg k stop (entering w s)).
Local Abbreviation kept k s :=
  (fall_back w cfg stop (fst (found k s)) (snd (found k s))).

Lemma update_unfold (s : state) :
  Py.truthy_opt (bus_stop_primary cfg) = true ->
  let cur := fst (kept Automatic s) in
  let s3 := set_bus_data cur (snd (kept Automatic s)) in
  _async_update_data w cfg s
  = (mk_update cur
       (Some (mk_details (hd_error (departures cur))
                (fst (_check_commute_day w cfg s3))
                (_calls_today s3) (_auto_calls_today s3) (_last_check_time s3))),
     s3).
Proof.
  intros Hstop. cbv zeta. unfold _async_update_data, entering.
  rewrite !bind_eq. cbn [modify snd fst]. rewrite Hstop. cbn [negb].
  rewrite !bind_eq. cbn [modify gets ret snd fst primary].
  rewrite check_commute_day_pure. reflexivity.
Qed.

Lemma manual_fetch_unfold (s : state) :
  Py.truthy_opt (bus_stop_primary cfg) = true ->
  manual_fetch w cfg s
  = (true, set_bus_data (fst (kept Manual s)) (snd (kept Manual s))).
Proof.
  intros Hstop. unfold manual_fetch, entering.
  rewrite !bind_eq. cbn [modify snd fst]. rewrite Hstop. cbn [negb].
  rewrite !bind_eq. reflexivity.
Qed.

Lemma cycle_unfold (k : kind) (s : state) :
  Py.truthy_opt (bus_stop_primary cfg) = true ->
  snd (cycle w cfg k s) = set_bus_data (fst (kept k s)) (snd (kept k s)).
Proof.
  intros Hstop. destruct k; cbn [cycle]; rewrite bind_eq; cbn [ret snd].
  - rewrite (update_unfold s Hstop). reflexivity.
  - rewrite (manual_fetch_unfold s Hstop). reflexivity.
Qed.

Lemma entering_keeps_requests :
  keeps (fun s => (api_requests s, scraper_requests s))
    (_check_daily_reset w ;; t <- now w ;; modify (set_last_check_time (Some t))).
Proof. keeps_go. Qed.

Lemma primary_requests (k : kind) (s : state) :
  let r := primary w cfg k stop s in
  api_requests (snd r)
  = (api_requests s + if fst (can_call w cfg k s) then 1 else 0)%nat
  /\ scraper_requests (snd r) = scraper_requests s
  /\ (fst (can_call w cfg k s) = false -> fst r = mk_snapshot [] SOURCE_NONE).
Proof.
  intros r. destruct (primary_effect w cfg k stop s) as [Hno Hyes]. fold r in Hno, Hyes.
  destruct (check_ledger w s) as [Hc|Hc];
    apply (f_equal l_api) in Hc as Hp; apply (f_equal l_scraper) in Hc as Hq;
    cbn [ledger_of l_api l_scraper] in Hp, Hq;
    (destruct (fst (can_call w cfg k s));
     [ destruct (Hyes eq_refl) as [Hl _];
       apply (f_equal l_api) in Hl as Hp'; apply (f_equal l_scraper) in Hl as Hq';
       cbn [ledger_of l_api l_scraper] in Hp', Hq';
       repeat split; [lia | congruence | discriminate]
     | destruct (Hno eq_refl) as [Hs Hr]; rewrite Hs;
       repeat split; [lia | congruence | intros _; exact Hr] ]).
Qed.

Lemma fall_back_requests (st : string) (cur : snapshot) (s : state) :
  let r := fall_back w cfg st cur s in
  api_requests (snd r) = api_requests s
  /\ scraper_requests (snd r)
     = (scraper_requests s
        + match departures cur with [] => if Py.truthy url then 1 else 0 | _ => 0 end)%nat.
Proof.
  cbv zeta. split.
  - assert (H : keeps api_requests (fall_back w cfg st cur)) by keeps_go.
    apply H.
  - unfold fall_back. destruct (departures cur); [|cbn; lia].
    rewrite bind_eq.
    assert (H : scraper_requests (snd (_fetch_scraper w cfg st s))
                = (scraper_requests s + if Py.truthy url then 1 else 0)%nat).
    { unfold _fetch_scraper. destruct (Py.truthy url); cbn [negb]; [|cbn; lia].
      rewrite !bind_eq. cbn [gets modify fst snd].
      assert (H : forall (m : M (option scraper_payload)) s1,
                keeps scraper_requests m ->
                scraper_requests (snd (m s1)) = scraper_requests s1)
        by (intros m s1 Hm; apply Hm).
      rewrite H by keeps_go. cbn. lia. }
    destruct (has_scr_departures _); exact H.
Qed.

Lemma cycle_primary_requests (k : kind) (s : state) :
  Py.truthy_opt (bus_stop_primary cfg) = true ->
  api_requests (snd (cycle w cfg k s))
  = (api_requests s + if fst (can_call w cfg k (entering w s)) then 1 else 0)%nat.
Proof.
  intros Hstop. rewrite (cycle_unfold k s Hstop).
  pose proof (entering_keeps_requests s) as He. fold (entering w s) in He.
  injection He as Hea _.
  destruct (primary_requests k (entering w s)) as (Hpa & _ & _).
  destruct (fall_back_requests stop (fst (found k s)) (snd (found k s))) as (Hfa & _).
  cbn [set_bus_data api_requests]. rewrite Hfa, Hpa, Hea. reflexivity.
Qed.

(** X5.  A fetch cycle, periodic or manual, with a stop configured.  It
    sends exactly one request to the primary source when its admission
    holds as the cycle reaches it, and none when it does not.  It sends
    exactly one request to the scraper service when the primary source left
    no departure and the address of the service is not empty, and none
    otherwise; a cycle that is not admitted has no departure from the
    primary source. *)
Theorem cycle_requests (k : kind) (s : state) :
  Py.truthy_opt (bus_stop_primary cfg) = true ->
  let admitted := fst (can_call w cfg k (entering w s)) in
  let primary_departures := departures (fst (found k s)) in
  let s' := snd (cycle w cfg k s) in
  api_requests s' = (api_requests s + if admitted then 1 else 0)%nat
  /\ scraper_requests s'
     = (scraper_requests s
        + match primary_departures with
          | [] => if Py.truthy url then 1 else 0
          | _ => 0
          end)%nat
  /\ (admitted = false -> primary_departures = []).
Proof.
  intros Hstop admitted primary_departures s'.
  split; [apply cycle_primary_requests, Hstop|].
  subst s'. rewrite (cycle_unfold k s Hstop).
  pose proof (entering_keeps_requests s) as He. fold (entering w s) in He.
  injection He as _ Hes.
  destruct (primary_requests k (entering w s)) as (_ & Hps & Hpd).
  destruct (fall_back_requests stop (fst (found k s)) (snd (found k s)))
    as (_ & Hfs).
  cbn [set_bus_data scraper_requests].
  split.
  - rewrite Hfs, Hps, Hes. reflexivity.
  - intros Hd. subst primary_departures. rewrite (Hpd Hd). reflexivity.
Qed.

End CycleFacts.

Section CycleSamples.
Import DateTime Coordinator Entry Sample.

(** The first periodic cycle of a day on which the primary source
    answers: one request to it, none to the scraper service. *)
Lemma cycle_requests_sample :
  Py.truthy_opt (bus_stop_primary config_stop) = true
  /\ api_requests (snd (cycle world_X4 config_stop Automatic init)) = 1%nat
  /\ scraper_requests (snd (cycle world_X4 config_stop Automatic init)) = 0%nat.
Proof.
  split; [reflexivity|].
  destruct (cycle_requests world_X4 config_stop Automatic init eq_refl)
    as (Ha & Hs & _).
  split; [exact Ha | exact Hs].
Defined.

End CycleSamples.

Section PublishedFacts.
Import DateTime Coordinator Entry.

Variable w : world.
Variable cfg : Config.

Local Abbreviation stop := (default EmptyString (bus_stop_primary cfg)).

Lemma primary_result (k : kind) (st : string) (s : state) :
  let r := fst (primary w cfg k st s) in
  r = mk_snapshot [] SOURCE_NONE \/ source r = SOURCE_TRANSPORTAPI.
Proof.
  cbv zeta. destruct (primary_effect w cfg k st s) as [Hno Hyes].
  destruct (fst (can_call w cfg k s)).
  - destruct (Hyes eq_refl) as [_ ->].
    destruct (has_api_departures _); [right|left]; reflexivity.
  - destruct (Hno eq_refl) as [_ ->]. left; reflexivity.
Qed.

Lemma fall_back_result (st : string) (cur : snapshot) (s : state) :
  let r := fst (fall_back w cfg st cur s) in
  r = cur \/ (departures cur = [] /\ source r = SOURCE_SCRAPER).
Proof.
  cbv zeta. unfold fall_back. destruct (departures cur); [|left; reflexivity].
  rewrite bind_eq. destruct (has_scr_departures _); [right|left]; split; reflexivity.
Qed.

Lemma published_shown (s1 s2 : state) :
  shown s1 = shown s2 -> published s1 -> published s2.
Proof.
  unfold shown. intros H. injection H as Hd Hb Hs Hc Ha.
  unfold published. rewrite Hd, Hb, Hs, Hc, Ha. auto.
Qed.

Lemma refresh_published (s : state) :
  Py.truthy_opt (bus_stop_primary cfg) = true ->
  published (snd (async_refresh w cfg s)).
Proof.
  intros Hstop. unfold async_refresh. rewrite bind_eq.
  rewrite (update_unfold w cfg s Hstop). cbn [fst snd modify].
  set (r1 := primary w cfg Automatic stop (entering w s)).
  set (r2 := fall_back w cfg stop (fst r1) (snd r1)).
  exists (fst r2). cbn. repeat split.
  - intros Hnone.
    destruct (fall_back_result stop (fst r1) (snd r1)) as [Hsame|[_ Hscr]];
      fold r2 in Hsame || fold r2 in Hscr.
    + rewrite Hsame in *.
      destruct (primary_result Automatic stop (entering w s)) as [Hp|Hp];
        fold r1 in Hp; [rewrite Hp; reflexivity|].
      rewrite Hp in Hnone. discriminate.
    + rewrite Hscr in Hnone. discriminate.
  - destruct (fall_back_result stop (fst r1) (snd r1)) as [Hsame|[_ Hscr]];
      fold r2 in Hsame || fold r2 in Hscr.
    + rewrite Hsame.
      destruct (primary_result Automatic stop (entering w s)) as [Hp|Hp];
        fold r1 in Hp; rewrite Hp; cbn; auto.
    + rewrite Hscr. cbn; auto.
Qed.

(** An entry point that refreshes ends with [async_refresh], from some
    state, and with nothing afterwards that changes what is shown. *)
Lemma ends_with_refresh (a : action) (s : state) :
  Py.truthy_opt (bus_stop_primary cfg) = true ->
  refreshes a = true ->
  exists s0, shown (snd (perform w cfg a s)) = shown (snd (async_refresh w cfg s0)).
Proof.
  intros Hstop Ha. destruct a; try discriminate; cbn [perform].
  - exists s. reflexivity.
  - unfold async_manual_refresh. rewrite bind_eq.
    rewrite (manual_fetch_unfold w cfg s Hstop). cbn [fst snd].
    rewrite bind_eq. eexists.
    assert (H : keeps shown (async_send_notification w cfg)) by keeps_go.
    apply H.
  - unfold async_reset_daily_counters. rewrite !bind_eq. eexists. reflexivity.
Qed.

(** X6.  With a stop configured, after a timer refresh, a manual refresh
    or a reset of the counters, what the entities show is what the
    coordinator holds: the published snapshot is the one kept in
    [_bus_data], the source sensor shows [_data_source], the next bus is the
    first departure of the snapshot, the two counter sensors show the two
    counters of the ledger as they stand, and a snapshot whose source is
    None has no departure. *)
Theorem refresh_publishes (a : action) (s : state) :
  Py.truthy_opt (bus_stop_primary cfg) = true ->
  refreshes a = true ->
  published (snd (perform w cfg a s)).
Proof.
  intros Hstop Ha. destruct (ends_with_refresh a s Hstop Ha) as [s0 Hs0].
  eapply published_shown; [symmetry; exact Hs0|].
  apply refresh_published, Hstop.
Qed.

(** X7.  Without a stop configured, no sequence of entry points sends a
    request to either source or replaces the snapshot the coordinator
    keeps, and a manual refresh sends no notification. *)
Theorem no_stop_no_request (l : list action) (s : state) :
  Py.truthy_opt (bus_stop_primary cfg) = false ->
  let s' := after w cfg l s in
  api_requests s' = api_requests s
  /\ scraper_requests s' = scraper_requests s
  /\ _bus_data s' = _bus_data s
  /\ _data_source s' = _data_source s
  /\ service_calls (snd (perform w cfg RefreshCommute s)) = service_calls s.
Proof.
  intros Hstop.
  assert (Hu : keeps (fun s => (api_requests s, scraper_requests s, _bus_data s,
                                _data_source s, service_calls s))
                 (_async_update_data w cfg)).
  { unfold _async_update_data. rewrite Hstop. cbn [negb]. keeps_go. }
  assert (Hm : keeps (fun s => (api_requests s, scraper_requests s, _bus_data s,
                                _data_source s, service_calls s))
                 (manual_fetch w cfg)).
  { unfold manual_fetch. rewrite Hstop. cbn [negb]. keeps_go. }
  assert (Hgo : forall s, fst (manual_fetch w cfg s) = false).
  { intros s1. unfold manual_fetch. rewrite !bind_eq. cbn [modify fst snd].
    rewrite Hstop. reflexivity. }
  assert (Hr : keeps (fun s => (api_requests s, scraper_requests s, _bus_data s,
                                _data_source s))
                 (async_refresh w cfg)).
  { unfold async_refresh. apply keeps_bind; [|intros; keeps_go].
    intros s1. pose proof (Hu s1) as H. cbv beta in H. congruence. }
  assert (Ha : forall a, keeps (fun s => (api_requests s, scraper_requests s,
                                          _bus_data s, _data_source s))
                           (perform w cfg a)).
  { intros [ | | | | | | | ]; cbn [perform]; try solve [keeps_go]; try exact Hr.
    - intros s1. unfold async_manual_refresh. rewrite bind_eq, Hgo.
      pose proof (Hm s1) as H. cbn [ret snd]. cbv beta in H. congruence.
    - unfold async_reset_daily_counters.
      repeat (apply keeps_bind; [solve [keeps_go]|intros ?]). exact Hr. }
  assert (Hall : keeps (fun s => (api_requests s, scraper_requests s,
                                  _bus_data s, _data_source s))
                   (perform_all w cfg l)).
  { induction l as [|a l IH]; cbn [perform_all]; [apply keeps_ret|].
    apply keeps_bind; [apply Ha | intros; apply IH]. }
  intros s'. specialize (Hall s). fold (after w cfg l s) in Hall. fold s' in Hall.
  cbv beta in Hall. injection Hall as H1 H2 H3 H4.
  repeat split; try assumption.
  cbn [perform]. unfold async_manual_refresh. rewrite bind_eq, Hgo.
  pose proof (Hm s) as H. cbn [ret snd]. cbv beta in H. congruence.
Qed.

End PublishedFacts.

Section PublishedSamples.
Import DateTime Coordinator Entry Sample.

Lemma refresh_publishes_sample :
  Py.truthy_opt (bus_stop_primary config_stop) = true
  /\ refreshes RefreshCommute = true
  /\ published (snd (perform world_X4 config_stop RefreshCommute init)).
Proof.
  split; [reflexivity|]. split; [reflexivity|].
  apply (refresh_publishes world_X4 config_stop RefreshCommute init);
    reflexivity.
Defined.

(** No stop is configured. *)
Lemma no_stop_no_request_sample :
  let cfg := mk_config None None None None None (Some "notify.phone")
               None None None None in
  Py.truthy_opt (bus_stop_primary cfg) = false
  /\ api_requests (after world_X4 cfg [Tick; RefreshCommute; ResetCounters] init)
     = 0%nat.
Proof.
  intros cfg. split; [reflexivity|].
  destruct (no_stop_no_request world_X4 cfg [Tick; RefreshCommute; ResetCounters]
              init eq_refl) as [H _].
  exact H.
Defined.

End PublishedSamples.

(* ===================================================================== *)
(** * What the normalizers keep and what they drop *)
(* ===================================================================== *)

Section MapFacts.
Import DateTime Coordinator.

Lemma mapM_Forall {A B} (f : A -> M B) (P : B -> Prop) (l : list A) :
  (forall x s, P (fst (f x s))) ->
  forall s, Forall P (fst (mapM f l s)).
Proof.
  intros Hf. induction l as [|x t IH]; intros s; cbn [mapM].
  - constructor.
  - rewrite !bind_eq. cbn [ret fst]. constructor; [apply Hf | apply IH].
Qed.

Lemma mapM_map {A B C} (f : A -> M B) (g : B -> C) (h : A -> C) (l : list A) :
  (forall x s, g (fst (f x s)) = h x) ->
  forall s, map g (fst (mapM f l s)) = map h l.
Proof.
  intros Hf. induction l as [|x t IH]; intros s; cbn [mapM]; [reflexivity|].
  rewrite !bind_eq. cbn [ret fst map]. rewrite Hf, IH. reflexivity.
Qed.

Lemma mem_In (x : string) (l : list string) : Py.mem x l = true <-> In x l.
Proof.
  unfold Py.mem. rewrite existsb_exists. split.
  - intros (y & Hy & Heq). apply String.eqb_eq in Heq. subst. exact Hy.
  - intros H. exists x. split; [exact H | apply String.eqb_refl].
Qed.

End MapFacts.

Section FilterFacts.
Import DateTime Coordinator Entry.

Variable w : world.
Variable cfg : Config.

Lemma allowed_spec (rt : string) :
  allowed cfg rt = true <-> allowlist cfg = [] \/ In rt (allowlist cfg).
Proof.
  unfold allowed. rewrite orb_true_iff, mem_In, Nat.eqb_eq.
  destruct (allowlist cfg); cbn; split; intros [H|H]; auto; discriminate.
Qed.

Lemma parse_route_allowed (e : string * list raw_departure) :
  parse_route w cfg e
  = if allowed cfg (fst e) then mapM (parse_departure w (fst e)) (snd e) else ret [].
Proof.
  unfold parse_route, allowed.
  destruct (Nat.eqb _ 0), (Py.mem _ _); reflexivity.
Qed.

Lemma parse_departure_route (rt : string) (dep : raw_departure) (s : state) :
  route (fst (parse_departure w rt dep s)) = rt.
Proof. unfold parse_departure. rewrite bind_eq. reflexivity. Qed.

Lemma parse_route_routes (e : string * list raw_departure) (s : state) :
  map route (fst (parse_route w cfg e s))
  = if allowed cfg (fst e) then repeat (fst e) (length (snd e)) else [].
Proof.
  rewrite parse_route_allowed. destruct (allowed cfg (fst e)); [|reflexivity].
  rewrite (mapM_map _ route (fun _ => fst e)) by (intros; apply parse_departure_route).
  induction (snd e) as [|x t IH]; cbn; [reflexivity|]. rewrite IH. reflexivity.
Qed.

Lemma records_routes (entries : list (string * list raw_departure)) (s : state) :
  map route (concat (fst (mapM (parse_route w cfg) entries s)))
  = flat_map
      (fun e => if allowed cfg (fst e) then repeat (fst e) (length (snd e)) else [])
      entries.
Proof.
  revert s. induction entries as [|e t IH]; intros s; cbn [mapM]; [reflexivity|].
  rewrite !bind_eq. cbn [ret fst concat flat_map].
  rewrite List.map_app, parse_route_routes, IH. reflexivity.
Qed.

Lemma scraper_records_filter (scr : scraper_payload) :
  scraper_records cfg scr
  = List.filter (fun x => allowed cfg (route x)) (default [] (scr_departures scr)).
Proof.
  unfold scraper_records, allowed.
  destruct (Nat.eqb _ 0); cbn [negb orb]; [|reflexivity].
  induction (default [] (scr_departures scr)) as [|x t IH]; cbn; congruence.
Qed.

Lemma primary_routes_allowed (api : api_payload) (s : state) :
  Forall (fun x => allowed cfg (route x) = true)
    (fst (_parse_transportapi_departures w cfg api s)).
Proof.
  rewrite parse_transportapi_is_sort.
  eapply Permutation.Permutation_Forall; [symmetry; apply sort_perm|].
  unfold transportapi_records. rewrite bind_eq. cbn [ret fst].
  apply List.Forall_forall. intros x Hx.
  apply (in_map route) in Hx. rewrite records_routes in Hx.
  apply in_flat_map in Hx as (e & _ & He).
  destruct (allowed cfg (fst e)) eqn:Hal; [|contradiction].
  apply repeat_spec in He. rewrite He. exact Hal.
Qed.

Lemma scraper_routes_allowed (scr : scraper_payload) :
  Forall (fun x => allowed cfg (route x) = true) (_parse_scraper_departures cfg scr).
Proof.
  unfold _parse_scraper_departures.
  eapply Permutation.Permutation_Forall; [symmetry; apply sort_perm|].
  rewrite scraper_records_filter. apply List.Forall_forall. intros x Hx.
  apply List.filter_In in Hx. apply Hx.
Qed.

(** X8.  The route filter.  A route passes when the allow-list is empty or
    names it.  The primary normalizer makes one record for each entry of
    each route that passes, under the name of that route and in the order of
    the document, and none for a route that does not pass; the records of
    the scraper service that are kept are those whose route passes, in the
    order they came in.  What either normalizer returns has passing routes
    only, and with an empty allow-list the scraper normalizer returns every
    record it was given. *)
Theorem normalizers_filter (api : api_payload) (scr : scraper_payload) (s : state) :
  (forall rt, allowed cfg rt = true <-> allowlist cfg = [] \/ In rt (allowlist cfg))
  /\ map route (fst (transportapi_records w cfg api s))
     = flat_map
         (fun e => if allowed cfg (fst e) then repeat (fst e) (length (snd e)) else [])
         (default [] (api_departures api))
  /\ scraper_records cfg scr
     = List.filter (fun x => allowed cfg (route x)) (default [] (scr_departures scr))
  /\ Forall (fun x => allowed cfg (route x) = true)
       (fst (_parse_transportapi_departures w cfg api s))
  /\ Forall (fun x => allowed cfg (route x) = true) (_parse_scraper_departures cfg scr)
  /\ (allowlist cfg = [] ->
      Permutation (default [] (scr_departures scr)) (_parse_scraper_departures cfg scr)).
Proof.
  split; [apply allowed_spec|]. split.
  { unfold transportapi_records. rewrite bind_eq. cbn [ret fst]. apply records_routes. }
  split; [apply scraper_records_filter|].
  split; [apply primary_routes_allowed|].
  split; [apply scraper_routes_allowed|].
  intros Hempty. unfold _parse_scraper_departures, scraper_records.
  rewrite Hempty. cbn [length Nat.eqb negb]. symmetry. apply sort_perm.
Qed.

End FilterFacts.

Section StrptimeFacts.
Import DateTime.

Lemma digit_value_range (c : ascii) (x : N) :
  Py.digit_value c = Some x -> (x <= 9)%N.
Proof.
  unfold Py.digit_value, Py.is_digit.
  destruct (_ && _) eqn:H; [|discriminate]. intros [= <-].
  apply andb_true_iff in H as [H1 H2]. apply N.leb_le in H1, H2. lia.
Qed.

Lemma two_digits_range (lo hi : N) (s r : string) (v : Z) :
  two_digits lo hi s = Some (v, r) -> Z.of_N lo <= v <= Z.of_N hi.
Proof.
  unfold two_digits. destruct s as [|a [|b t]]; try discriminate.
  destruct (Py.digit_value a) as [x|]; [|discriminate].
  destruct (Py.digit_value b) as [y|]; [|discriminate].
  destruct (_ && _) eqn:H; [|discriminate]. intros [= <- _].
  apply andb_true_iff in H as [H1 H2]. apply N.leb_le in H1, H2. lia.
Qed.

Lemma one_digit_range (s r : string) (v : Z) :
  one_digit s = Some (v, r) -> 0 <= v <= 9.
Proof.
  unfold one_digit. destruct s as [|a t]; [discriminate|].
  destruct (Py.digit_value a) as [x|] eqn:Hx; [|discriminate].
  intros [= <- _]. apply digit_value_range in Hx. lia.
Qed.

Lemma after_hour_range (h h' m : Z) (s : string) :
  after_hour h s = Some (Some (h', m)) -> h' = h /\ 0 <= m <= 59.
Proof.
  unfold after_hour, minute_field. destruct s as [|c t]; [discriminate|].
  destruct (Ascii.ascii_dec c ":") as [->|Hc];
    [|destruct c as [[|] [|] [|] [|] [|] [|] [|] [|]]; try discriminate;
      contradiction Hc; reflexivity].
  destruct (two_digits 0 59 t) as [[v r]|] eqn:H2.
  - destruct r; [|discriminate]. intros [= <- <-].
    apply two_digits_range in H2. lia.
  - destruct (one_digit t) as [[v r]|] eqn:H1; [|discriminate].
    destruct r; [|discriminate]. intros [= <- <-].
    apply one_digit_range in H1. lia.
Qed.

(** [strptime] gives an hour and a minute of the clock. *)
Lemma strptime_range (s : string) (h m : Z) :
  strptime_HM s = Some (h, m) -> 0 <= h <= 23 /\ 0 <= m <= 59.
Proof.
  unfold strptime_HM, try_hour.
  destruct (two_digits 20 23 s) as [[v r]|] eqn:Ha.
  - destruct (after_hour v r) as [res|] eqn:Hr.
    + intros ->. apply after_hour_range in Hr as [-> Hm].
      apply two_digits_range in Ha. lia.
    + apply two_digits_range in Ha.
      destruct (two_digits 0 19 s) as [[v' r']|] eqn:Hb.
      * apply two_digits_range in Hb.
        destruct (after_hour v' r') as [res|] eqn:Hr'.
        -- intros ->. apply after_hour_range in Hr' as [-> Hm]. lia.
        -- destruct (one_digit s) as [[v'' r'']|] eqn:Hc; [|discriminate].
           apply one_digit_range in Hc.
           destruct (after_hour v'' r'') as [res|] eqn:Hr''; [|discriminate].
           intros ->. apply after_hour_range in Hr'' as [-> Hm]. lia.
      * destruct (one_digit s) as [[v'' r'']|] eqn:Hc; [|discriminate].
        apply one_digit_range in Hc.
        destruct (after_hour v'' r'') as [res|] eqn:Hr''; [|discriminate].
        intros ->. apply after_hour_range in Hr'' as [-> Hm]. lia.
  - destruct (two_digits 0 19 s) as [[v' r']|] eqn:Hb.
    + apply two_digits_range in Hb.
      destruct (after_hour v' r') as [res|] eqn:Hr'.
      * intros ->. apply after_hour_range in Hr' as [-> Hm]. lia.
      * destruct (one_digit s) as [[v'' r'']|] eqn:Hc; [|discriminate].
        apply one_digit_range in Hc.
        destruct (after_hour v'' r'') as [res|] eqn:Hr''; [|discriminate].
        intros ->. apply after_hour_range in Hr'' as [-> Hm]. lia.
    + destruct (one_digit s) as [[v'' r'']|] eqn:Hc; [|discriminate].
      apply one_digit_range in Hc.
      destruct (after_hour v'' r'') as [res|] eqn:Hr''; [|discriminate].
      intros ->. apply after_hour_range in Hr'' as [-> Hm]. lia.
Qed.

(** What [strptime] reads in each of the 1440 clock texts, by running it. *)
Lemma strptime_clock_texts :
  forallb
    (fun h =>
       forallb
         (fun m =>
            match strptime_HM (Scraper.clock_text h m) with
            | Some (a, b) => (a =? Z.of_nat h) && (b =? Z.of_nat m)
            | None => false
            end
            && Py.truthy (Scraper.clock_text h m))
         (seq 0 60))
    (seq 0 24) = true.
Proof. vm_compute. reflexivity. Qed.

Lemma strptime_clock_text (h m : nat) :
  (h < 24)%nat -> (m < 60)%nat ->
  strptime_HM (Scraper.clock_text h m) = Some (Z.of_nat h, Z.of_nat m)
  /\ Py.truthy (Scraper.clock_text h m) = true.
Proof.
  intros Hh Hm. pose proof strptime_clock_texts as H.
  rewrite forallb_forall in H. specialize (H h). rewrite in_seq in H.
  specialize (H ltac:(lia)). rewrite forallb_forall in H. specialize (H m).
  rewrite in_seq in H. specialize (H ltac:(lia)).
  apply andb_true_iff in H as [H Ht]. split; [|exact Ht].
  destruct (strptime_HM _) as [[a b]|]; [|discriminate].
  apply andb_true_iff in H as [Ha Hb]. apply Z.eqb_eq in Ha, Hb. congruence.
Qed.

Lemma clock_text_inj (h m h' m' : nat) :
  (h < 24)%nat -> (m < 60)%nat -> (h' < 24)%nat -> (m' < 60)%nat ->
  Scraper.clock_text h m = Scraper.clock_text h' m' -> h = h' /\ m = m'.
Proof.
  intros Hh Hm Hh' Hm' Heq.
  destruct (strptime_clock_text h m Hh Hm) as [H1 _].
  destruct (strptime_clock_text h' m' Hh' Hm') as [H2 _].
  rewrite Heq, H2 in H1. injection H1 as H1 H3. lia.
Qed.

End StrptimeFacts.

Section RecordFacts.
Import DateTime Coordinator Entry.

Variable w : world.
Variable cfg : Config.

Lemma status_of_values (aimed expected : option string) :
  In (status_of aimed expected) ["Late"; "Early"; "On time"; "Scheduled"].
Proof.
  unfold status_of.
  destruct (_ && _); [|destruct (Py.truthy_opt expected); cbn; auto].
  destruct aimed as [a|], expected as [e|]; cbn; auto.
  destruct (strptime_HM a) as [[ah am]|], (strptime_HM e) as [[eh em]|];
    cbn; auto.
  destruct (_ <? _); [cbn; auto|]. destruct (_ <? _); cbn; auto.
Qed.

Lemma due_mins_of_range (best : option string) (s : state) :
  wf (clock w (ticks s)) ->
  match fst (due_mins_of w best s) with
  | Some n => 0 <= n <= 1439
  | None => True
  end.
Proof.
  intros Hwf. unfold due_mins_of.
  destruct (Py.truthy_opt best); [|exact I].
  rewrite bind_eq. cbn [now ret fst].
  destruct (strptime_HM _) as [[h m]|] eqn:Hs; [|exact I].
  apply strptime_range in Hs as [Hh Hm].
  destruct (due_from_clock_spec (clock w (ticks s)) h m Hwf Hh Hm) as [-> Hb].
  exact Hb.
Qed.

(** X9.  The records of the primary source, when every reading of the
    clock is a time of day.  The minutes to a departure are absent or
    between 0 and 1439, never negative and never a day or more; the status
    is one of Late, Early, On time and Scheduled; and the record says
    whether it is a real-time one. *)
Theorem primary_record_fields (api : api_payload) (s : state) :
  (forall n, wf (clock w n)) ->
  Forall
    (fun x =>
       match due_mins x with Some n => 0 <= n <= 1439 | None => True end
       /\ In (status x) ["Late"; "Early"; "On time"; "Scheduled"]
       /\ is_realtime x = Some (realtime_of (aimed x) (expected x)))
    (fst (_parse_transportapi_departures w cfg api s)).
Proof.
  intros Hwf. rewrite parse_transportapi_is_sort.
  eapply Permutation.Permutation_Forall; [symmetry; apply sort_perm|].
  unfold transportapi_records. rewrite bind_eq. cbn [ret fst].
  apply List.Forall_concat. apply mapM_Forall. intros e s1.
  rewrite parse_route_allowed. destruct (allowed cfg (fst e)); [|constructor].
  apply mapM_Forall. intros dep s2.
  unfold parse_departure. rewrite bind_eq. cbn [ret fst due_mins status is_realtime
                                                 aimed expected].
  split; [apply due_mins_of_range, Hwf|].
  split; [apply status_of_values | reflexivity].
Qed.

(** X10.  An entry of the primary source that gives its aimed and its
    expected time as clock texts [HH:MM].  Its minutes are those to the
    expected time, the same number the scraper service reads in the same
    text at the same moment; it is Late when the expected time of day is
    after the aimed one, Early when it is before, On time when the two are
    the same; and it is a real-time record exactly when the two differ. *)
Theorem timed_entry_record (rt : string) (ha ma he me : nat)
    (dir : option (option string)) (s : state) :
  (ha < 24)%nat -> (ma < 60)%nat -> (he < 24)%nat -> (me < 60)%nat ->
  let x := fst (parse_departure w rt (timed_entry ha ma he me dir) s) in
  let a := (ha * 60 + ma)%nat in
  let e := (he * 60 + me)%nat in
  due_mins x
    = Some (default 0 (due_from_clock (clock w (ticks s)) (Z.of_nat he) (Z.of_nat me)))
  /\ Scraper.due_mins_of_text (clock w (ticks s)) (Some (Scraper.clock_text he me))
     = due_mins x
  /\ status x
     = (if (a <? e)%nat then "Late" else if (e <? a)%nat then "Early" else "On time")
  /\ is_realtime x = Some (negb (a =? e)%nat).
Proof.
  intros Hha Hma Hhe Hme x a e.
  destruct (strptime_clock_text ha ma Hha Hma) as [Hsa Hta].
  destruct (strptime_clock_text he me Hhe Hme) as [Hse Hte].
  assert (Hdec : Scraper.clock_text ha ma = Scraper.clock_text he me <-> a = e).
  { split.
    - intros H. apply clock_text_inj in H as [-> ->]; auto.
    - intros H. assert (ha = he /\ ma = me) as [-> ->] by (subst a e; lia).
      reflexivity. }
  subst x. unfold parse_departure, timed_entry.
  cbn [aimed_departure_time expected_departure_time best_departure_estimate
       default from_option id].
  rewrite bind_eq. cbn [ret fst due_mins status is_realtime].
  assert (Hdue : fst (due_mins_of w
                        (py_or (Some (Scraper.clock_text he me))
                           (Some (Scraper.clock_text ha ma))) s)
                 = Some (default 0 (due_from_clock (clock w (ticks s))
                                      (Z.of_nat he) (Z.of_nat me)))).
  { unfold py_or. cbn [Py.truthy_opt]. rewrite Hte.
    unfold due_mins_of. cbn [Py.truthy_opt]. rewrite Hte.
    rewrite bind_eq. cbn [now ret fst default from_option id]. rewrite Hse.
    unfold due_from_clock, replace_hm.
    replace ((0 <=? Z.of_nat he) && (Z.of_nat he <=? 23) && (0 <=? Z.of_nat me)
             && (Z.of_nat me <=? 59)) with true
      by (symmetry; rewrite !andb_true_iff, !Z.leb_le; lia).
    reflexivity. }
  split; [exact Hdue|]. split.
  { rewrite Hdue. apply clock_text_parsed; assumption. }
  split.
  - unfold status_of. cbn [Py.truthy_opt]. rewrite Hta, Hte. cbn [andb].
    destruct (Nat.eq_dec a e) as [Heq|Hne].
    + rewrite (proj2 Hdec Heq). rewrite bool_decide_eq_true_2 by reflexivity.
      cbn [negb]. rewrite Heq.
      rewrite Nat.ltb_irrefl. reflexivity.
    + rewrite bool_decide_eq_false_2
        by (intros H; apply Hne, Hdec;
            exact (f_equal (default EmptyString) H)).
      cbn [negb]. rewrite Hsa, Hse.
      destruct (Nat.ltb_spec a e) as [Hlt|Hge].
      * replace (Z.of_nat ha * 60 + Z.of_nat ma <? Z.of_nat he * 60 + Z.of_nat me)
          with true by (symmetry; apply Z.ltb_lt; subst a e; lia).
        reflexivity.
      * replace (Z.of_nat ha * 60 + Z.of_nat ma <? Z.of_nat he * 60 + Z.of_nat me)
          with false by (symmetry; apply Z.ltb_ge; subst a e; lia).
        destruct (Nat.ltb_spec e a) as [Hlt|Hge'].
        -- replace (Z.of_nat he * 60 + Z.of_nat me <? Z.of_nat ha * 60 + Z.of_nat ma)
             with true by (symmetry; apply Z.ltb_lt; subst a e; lia).
           reflexivity.
        -- lia.
  - unfold realtime_of. f_equal.
    destruct (Nat.eqb_spec a e) as [Heq|Hne].
    + rewrite (proj2 Hdec Heq). rewrite bool_decide_eq_true_2 by reflexivity.
      reflexivity.
    + rewrite bool_decide_eq_false_2
        by (intros H; apply Hne, Hdec; symmetry;
            exact (f_equal (default EmptyString) H)).
      reflexivity.
Qed.

End RecordFacts.

Section RecordSamples.
Import DateTime Coordinator Entry Sample.

Lemma primary_record_fields_sample :
  (forall n, wf (clock world_X4 n))
  /\ Forall (fun x => match due_mins x with Some n => 0 <= n <= 1439 | None => True end)
       (fst (_parse_transportapi_departures world_X4 config_stop
               payload_untimed_then_0805 init)).
Proof.
  assert (Hwf : forall n, wf (clock world_X4 n))
    by (intros n; unfold wf; cbn; lia).
  split; [exact Hwf|].
  eapply List.Forall_impl;
    [|apply (primary_record_fields world_X4 config_stop
               payload_untimed_then_0805 init Hwf)].
  intros x H. apply H.
Defined.

(** Aimed at 08:15 and expected at 08:21, read at ten past eight. *)
Lemma timed_entry_record_sample :
  (8 < 24)%nat /\ (15 < 60)%nat /\ (21 < 60)%nat
  /\ let x := fst (parse_departure world_X4 "X4" (timed_entry 8 15 8 21 None) init) in
     due_mins x = Some 11 /\ status x = "Late" /\ is_realtime x = Some true.
Proof.
  assert (H8 : (8 < 24)%nat) by lia.
  assert (H15 : (15 < 60)%nat) by lia.
  assert (H21 : (21 < 60)%nat) by lia.
  split; [exact H8|]. split; [exact H15|]. split; [exact H21|].
  destruct (timed_entry_record world_X4 "X4" 8 15 8 21 None init H8 H15 H8 H21)
    as (Hd & _ & Hs & Hr).
  split; [exact Hd|]. split; [exact Hs | exact Hr].
Defined.

End RecordSamples.

(* ===================================================================== *)
(** * The snapshot and what the sensors make of it *)
(* ===================================================================== *)

Section SnapshotFacts.
Import DateTime Coordinator Entry.

Variable w : world.
Variable cfg : Config.

Local Abbreviation stop := (default EmptyString (bus_stop_primary cfg)).

(** In order and within the allow-list. *)
Local Abbreviation tidy deps :=
  (StronglySorted by_sort_key deps
   /\ Forall (fun x => allowed cfg (route x) = true) deps).

Lemma primary_tidy (k : kind) (st : string) (s : state) :
  tidy (departures (fst (primary w cfg k st s))).
Proof.
  destruct (primary_effect w cfg k st s) as [Hno Hyes].
  destruct (fst (can_call w cfg k s)).
  - destruct (Hyes eq_refl) as [_ ->].
    destruct (has_api_departures _); cbn [departures];
      [|split; constructor].
    split; [|apply primary_routes_allowed].
    rewrite parse_transportapi_is_sort. apply (sort_sorted sort_key).
  - destruct (Hno eq_refl) as [_ ->]. split; constructor.
Qed.

Lemma fall_back_tidy (st : string) (cur : snapshot) (s : state) :
  tidy (departures cur) -> tidy (departures (fst (fall_back w cfg st cur s))).
Proof.
  intros Hcur. unfold fall_back. destruct (departures cur) eqn:Hd.
  - rewrite bind_eq. destruct (has_scr_departures _); cbn [ret fst departures].
    + split; [apply (sort_sorted sort_key) | apply scraper_routes_allowed].
    + rewrite Hd. exact Hcur.
  - cbn [ret fst]. rewrite Hd. exact Hcur.
Qed.

Lemma sorted_head_least (deps : list departure) (x : departure) :
  StronglySorted by_sort_key deps -> In x deps ->
  exists nb, hd_error deps = Some nb /\ sort_key nb <= sort_key x.
Proof.
  intros Hs Hx. destruct deps as [|nb t]; [contradiction|].
  exists nb. split; [reflexivity|].
  apply StronglySorted_inv in Hs as [_ Hall].
  destruct Hx as [<-|Hx]; [lia|].
  rewrite List.Forall_forall in Hall. apply Hall, Hx.
Qed.

Lemma refresh_snapshot (s : state) :
  Py.truthy_opt (bus_stop_primary cfg) = true ->
  let s' := snd (async_refresh w cfg s) in
  exists snap,
    _bus_data s' = Some snap
    /\ next_bus_of (data s') = hd_error (departures snap)
    /\ tidy (departures snap).
Proof.
  intros Hstop. cbv zeta. unfold async_refresh. rewrite bind_eq.
  rewrite (update_unfold w cfg s Hstop). cbn [fst snd modify].
  eexists. split; [reflexivity|]. split; [reflexivity|].
  apply fall_back_tidy, primary_tidy.
Qed.

(** X11.  With a stop configured, after a timer refresh, a manual refresh
    or a reset of the counters, the departures of the snapshot are in
    ascending order of the sort key (the minutes, with 999 for a departure
    without minutes and for one due now), every one of them is of a route
    that passes the filter, and the next bus shown is a departure whose key
    no other departure of the snapshot is below. *)
Theorem snapshot_in_order (a : action) (s : state) :
  Py.truthy_opt (bus_stop_primary cfg) = true ->
  refreshes a = true ->
  let s' := snd (perform w cfg a s) in
  exists snap,
    _bus_data s' = Some snap
    /\ StronglySorted by_sort_key (departures snap)
    /\ Forall (fun x => allowed cfg (route x) = true) (departures snap)
    /\ (forall x, In x (departures snap) ->
        exists nb, next_bus_of (data s') = Some nb /\ sort_key nb <= sort_key x).
Proof.
  intros Hstop Ha s'.
  destruct (ends_with_refresh w cfg a s Hstop Ha) as [s0 Hs0]. fold s' in Hs0.
  destruct (refresh_snapshot s0 Hstop) as (snap & Hb & Hn & Hsorted & Hall).
  unfold shown in Hs0. injection Hs0 as Hd Hbd _ _ _.
  exists snap. rewrite Hd, Hbd.
  split; [exact Hb|]. split; [exact Hsorted|]. split; [exact Hall|].
  intros x Hx. rewrite Hn. apply sorted_head_least; assumption.
Qed.

(** X12.  The potential-issue sensor after such a refresh, when the
    traffic is within its threshold.  With no departure in the snapshot the
    sensor is on, whatever the threshold of the bus gap.  With a departure
    that is due in 1 to 998 minutes in the snapshot, the next bus has
    minutes [m] that are not above those of that departure, and the sensor
    is on exactly when [m] reaches the threshold.  And when the traffic is
    over its threshold the sensor is on without looking at the buses. *)
Theorem potential_issue_after_refresh (a : action) (s : state)
    (bus_gap_threshold : option Z) :
  Py.truthy_opt (bus_stop_primary cfg) = true ->
  refreshes a = true ->
  let s' := snd (perform w cfg a s) in
  let threshold := default DEFAULT_BUS_GAP_THRESHOLD bus_gap_threshold in
  (forall snap, _bus_data s' = Some snap -> departures snap = [] ->
     potential_issue false bus_gap_threshold (data s') = Some true)
  /\ (forall snap x n,
        _bus_data s' = Some snap -> In x (departures snap) ->
        due_mins x = Some n -> 0 < n < 999 ->
        exists m,
          next_bus_minutes (data s') = Some m /\ m <= n /\ m <> 0
          /\ potential_issue false bus_gap_threshold (data s')
             = Some (threshold <=? m))
  /\ potential_issue true bus_gap_threshold (data s') = Some true.
Proof.
  intros Hstop Ha s' threshold.
  destruct (ends_with_refresh w cfg a s Hstop Ha) as [s0 Hs0]. fold s' in Hs0.
  destruct (refresh_snapshot s0 Hstop) as (snap & Hb & Hn & Hsorted & _).
  unfold shown in Hs0. injection Hs0 as Hd Hbd _ _ _.
  rewrite <- Hd, <- Hbd in *. clear Hd Hbd.
  split; [|split; [|reflexivity]].
  - intros snap' Hb' Hempty. rewrite Hb in Hb'. injection Hb' as <-.
    unfold potential_issue. rewrite Hn, Hempty. cbn [hd_error].
    rewrite orb_true_r. reflexivity.
  - intros snap' x n Hb' Hx Hdue Hrange. rewrite Hb in Hb'. injection Hb' as <-.
    destruct (sorted_head_least _ x Hsorted Hx) as (nb & Hhd & Hle).
    unfold next_bus_minutes, potential_issue. rewrite Hn, Hhd.
    unfold sort_key in Hle. rewrite Hdue in Hle.
    replace (n =? 0) with false in Hle by (symmetry; apply Z.eqb_neq; lia).
    destruct (due_mins nb) as [m|]; [|lia].
    destruct (Z.eqb_spec m 0) as [Hm0|Hm]; [lia|].
    exists m. split; [reflexivity|]. split; [exact Hle|]. split; [exact Hm|].
    replace (m =? 999) with false by (symmetry; apply Z.eqb_neq; lia).
    rewrite orb_false_r. reflexivity.
Qed.

End SnapshotFacts.

Section SnapshotSamples.
Import DateTime Coordinator Entry Sample.

Lemma snapshot_in_order_sample :
  Py.truthy_opt (bus_stop_primary config_stop) = true
  /\ refreshes Tick = true
  /\ exists snap,
       _bus_data (snd (perform world_X4 config_stop Tick init)) = Some snap
       /\ StronglySorted by_sort_key (departures snap).
Proof.
  split; [reflexivity|]. split; [reflexivity|].
  destruct (snapshot_in_order world_X4 config_stop Tick init eq_refl eq_refl)
    as (snap & Hb & Hs & _).
  exists snap. split; [exact Hb | exact Hs].
Defined.

(** The 08:15 of route X4 at ten past eight: five minutes, below the
    default threshold of twenty. *)
Lemma potential_issue_after_refresh_sample :
  Py.truthy_opt (bus_stop_primary config_stop) = true
  /\ refreshes Tick = true
  /\ potential_issue true None (data (snd (perform world_X4 config_stop Tick init)))
     = Some true
  /\ potential_issue false None (data (snd (perform world_X4 config_stop Tick init)))
     = Some false.
Proof.
  split; [reflexivity|]. split; [reflexivity|].
  destruct (potential_issue_after_refresh world_X4 config_stop Tick init None
              eq_refl eq_refl) as (_ & _ & H).
  split; [exact H | reflexivity].
Defined.

End SnapshotSamples.

(* ===================================================================== *)
(** * A new day, and a day on which the quota is used up *)
(* ===================================================================== *)

Section NewDay.
Import DateTime Coordinator Entry.

Variable w : world.
Variable cfg : Config.

(** X13.  The first fetch cycle of a new day.  Let the three readings of
    the clock that open a cycle fall on the day [D], and let the stored
    last-reset date be absent or be a date other than [D].  If the settings
    admit a call on a ledger of zeroes, a cycle with a stop configured sends
    its request to the primary source, whatever the counters were before,
    and ends with at most one call counted. *)
Theorem new_day_is_admitted (k : kind) (s : state) (D : Z) :
  Py.truthy_opt (bus_stop_primary cfg) = true ->
  (forall n, (ticks s <= n <= 2 + ticks s)%nat -> date (clock w n) = D) ->
  _last_reset_date s = None
  \/ (exists d, _last_reset_date s = Some d /\ date d <> D) ->
  admits cfg k 0 0 = true ->
  let s' := snd (cycle w cfg k s) in
  api_requests s' = S (api_requests s)
  /\ 0 <= _calls_today s' <= 1
  /\ 0 <= _auto_calls_today s' <= _calls_today s'.
Proof.
  intros Hstop Hday Hstale Hadm s'.
  assert (Hnew : needs_reset (_last_reset_date s) (clock w (ticks s)) = true).
  { destruct Hstale as [->|(d & -> & Hne)]; [reflexivity|]. cbn [needs_reset].
    rewrite (Hday (ticks s)) by lia. apply negb_true_iff, Z.eqb_neq, Hne. }
  assert (Hsame : date (clock w (2 + ticks s)) = date (clock w (ticks s)))
    by (rewrite !Hday by lia; reflexivity).
  set (s1 := entering w s).
  destruct (check_cases w s) as (Ht & _ & Hfresh).
  destruct (Hfresh Hnew) as (Hc0 & Ha0 & Hl0 & _). clear Hfresh.
  assert (H1 : _calls_today s1 = 0 /\ _auto_calls_today s1 = 0
               /\ _last_reset_date s1 = Some (clock w (ticks s))
               /\ ticks s1 = (2 + ticks s)%nat).
  { subst s1. unfold entering. rewrite !bind_eq.
    cbn [now modify fst snd set_last_check_time set_ticks _calls_today
         _auto_calls_today _last_reset_date ticks].
    rewrite Hc0, Ha0, Hl0, Ht. repeat split. }
  destruct H1 as (Hc1 & Ha1 & Hl1 & Ht1).
  destruct (check_cases w s1) as (_ & Hold & _).
  assert (Hno : needs_reset (_last_reset_date s1) (clock w (ticks s1)) = false).
  { rewrite Hl1, Ht1. cbn [needs_reset]. rewrite Hsame, Z.eqb_refl. reflexivity. }
  specialize (Hold Hno).
  assert (Hyes : fst (can_call w cfg k s1) = true).
  { rewrite can_call_admits, Hold.
    cbn [set_ticks _calls_today _auto_calls_today]. rewrite Hc1, Ha1. exact Hadm. }
  pose proof (cycle_primary_requests w cfg k s Hstop) as Hreq.
  fold s1 in Hreq. rewrite Hyes in Hreq. fold s' in Hreq.
  split; [rewrite Hreq; lia|].
  subst s'. rewrite (cycle_unfold w cfg k s Hstop). fold s1.
  cbn [set_bus_data _calls_today _auto_calls_today].
  assert (Hfb : forall cur s2,
            (fun x => (_calls_today x, _auto_calls_today x, api_requests x))
              (snd (fall_back w cfg (default EmptyString (bus_stop_primary cfg)) cur s2))
            = (_calls_today s2, _auto_calls_today s2, api_requests s2)).
  { intros cur s2.
    assert (H : keeps (fun x => (_calls_today x, _auto_calls_today x, api_requests x))
                  (fall_back w cfg (default EmptyString (bus_stop_primary cfg)) cur))
      by keeps_go.
    apply H. }
  cbv beta in Hfb.
  specialize (Hfb (fst (primary w cfg k (default EmptyString (bus_stop_primary cfg)) s1))
                (snd (primary w cfg k (default EmptyString (bus_stop_primary cfg)) s1))).
  injection Hfb as -> -> _.
  destruct (primary_effect w cfg k (default EmptyString (bus_stop_primary cfg)) s1)
    as [_ Heff].
  destruct (Heff Hyes) as [Hled _].
  apply (f_equal l_calls) in Hled as Hc. apply (f_equal l_auto) in Hled as Ha.
  cbn [ledger_of l_calls l_auto] in Hc, Ha. rewrite Hc, Ha, Hold.
  cbn [set_ticks _calls_today _auto_calls_today]. rewrite Hc1, Ha1.
  match goal with
  | |- context [fst (_fetch_transportapi ?a ?b ?c)] =>
      destruct (fst (_fetch_transportapi a b c)) as [body|]
  end;
    [destruct (has_api_departures (Some body)), k | cbn [has_api_departures]]; lia.
Qed.

End NewDay.

Section UsedUp.
Import DateTime Coordinator Entry.

Variable w : world.
Variable cfg : Config.
Variable D : Z.
Variable N : nat.
Hypothesis reserved_nonneg : 0 <= reserved_of cfg.

Local Abbreviation calm_at := (Entry.calm_at w cfg D N).

Lemma calm_of_steady {A} (m : M A) (s : state) :
  steady_at w D N m s -> keeps api_requests m -> calm_at m s.
Proof.
  intros [Ht Hg] Hk. split; [exact Ht|].
  intros Hs _ HN. split; [apply Hg; assumption | apply Hk].
Qed.

Lemma calm_bind {A B} (m : M A) (k : A -> M B) (s : state) :
  calm_at m s -> (forall a s1, calm_at (k a) s1) -> calm_at (bind m k) s.
Proof.
  intros [Hm1 Hm2] Hk. unfold Entry.calm_at. rewrite bind_eq.
  destruct (Hk (fst (m s)) (snd (m s))) as [Hk1 Hk2].
  split; [lia|]. intros Hs Hq HN.
  destruct (Hm2 Hs Hq) as [Hg Ha]; [lia|].
  assert (Hs1 : today w D N (snd (m s))) by (eapply today_grows; eauto).
  assert (Hq1 : quota_of cfg <= _calls_today (snd (m s)))
    by (destruct Hg as (_ & ? & _); lia).
  destruct (Hk2 Hs1 Hq1 HN) as [Hg' Ha'].
  split; [eapply grows_trans; eauto | congruence].
Qed.

(** With the calls at the quota, neither admission holds. *)
Lemma used_up_denies (k : kind) (calls auto : Z) :
  quota_of cfg <= calls -> admits cfg k calls auto = false.
Proof.
  intros Hq. destruct k; cbn [admits].
  - apply andb_false_iff. left. apply Z.ltb_ge. lia.
  - apply Z.ltb_ge. lia.
Qed.

Lemma steady_admitted (k : kind) (stop : string) :
  steady w D N
    (d <- _fetch_transportapi w stop ;;
     if has_api_departures d then
       deps <- _parse_transportapi_departures w cfg (default (mk_api None) d) ;;
       match k with
       | Automatic =>
           auto <- gets _auto_calls_today ;;
           modify (set_auto_calls_today (auto + 1)) ;;
           ret (mk_snapshot deps SOURCE_TRANSPORTAPI)
       | Manual => ret (mk_snapshot deps SOURCE_TRANSPORTAPI)
       end
     else ret (mk_snapshot [] SOURCE_NONE)).
Proof.
  intros s. apply steady_bind; [apply steady_fetch_transportapi|]. intros d s1 _ _.
  destruct (has_api_departures d); [|apply steady_ret].
  apply steady_bind; [apply steady_parse_transportapi|]. intros deps s2 _ _.
  destruct k; [|apply steady_ret].
  apply steady_bind; [apply steady_gets|]. intros auto s3 -> ->. cbn [gets fst snd].
  apply steady_bind; [apply steady_set_auto; lia|]. intros. apply steady_ret.
Qed.

Lemma primary_ticks (k : kind) (stop : string) (s : state) :
  (S (ticks s) <= ticks (snd (primary w cfg k stop s)))%nat.
Proof.
  destruct (check_cases w s) as (Ht0 & _).
  rewrite <- Ht0, <- (can_call_snd w cfg k s).
  destruct k; cbn [primary can_call]; unfold primary_auto, primary_manual;
    rewrite bind_eq; (destruct (fst _); [|cbn; lia]).
  - destruct (steady_admitted Automatic stop (snd (can_call_api_auto w cfg s)))
      as [H _]. exact H.
  - destruct (steady_admitted Manual stop (snd (can_call_api_manual w cfg s)))
      as [H _]. exact H.
Qed.

Lemma calm_primary (k : kind) (stop : string) (s : state) :
  calm_at (primary w cfg k stop) s.
Proof.
  assert (Hst : steady_at w D N (primary w cfg k stop) s)
    by (destruct k; [apply steady_primary_auto | apply steady_primary_manual]).
  destruct Hst as [Ht Hg]. split; [exact Ht|].
  intros Hs Hq HN. split; [apply Hg; assumption|].
  destruct (primary_effect w cfg k stop s) as [Hno _].
  destruct (check_cases w s) as (Ht0 & Hold & _).
  pose proof (primary_ticks k stop s) as Hlt.
  specialize (Hold (today_needs_no_reset w D N s Hs ltac:(lia))).
  assert (Hden : fst (can_call w cfg k s) = false).
  { rewrite can_call_admits, Hold. apply used_up_denies. exact Hq. }
  destruct (Hno Hden) as [-> _]. apply check_api_requests.
Qed.

(** Symbolic execution of a body in which only the primary source could
    send a request. *)
Ltac calm_go :=
  repeat
    match goal with
    | |- Entry.calm_at _ _ _ _ (bind _ _) _ => apply calm_bind; [|intros ? ?]
    | |- Entry.calm_at _ _ _ _ (if ?b then _ else _) _ => destruct b
    | |- Entry.calm_at _ _ _ _ (let _ := _ in _) _ => cbv zeta
    | |- Entry.calm_at _ _ _ _ (primary_auto _ _ ?stop) _ =>
        apply (calm_primary Automatic stop)
    | |- Entry.calm_at _ _ _ _ (primary_manual _ _ ?stop) _ =>
        apply (calm_primary Manual stop)
    | |- Entry.calm_at _ _ _ _ _ _ =>
        apply calm_of_steady;
        [ first [ apply steady_ret | apply steady_gets | apply steady_now
                | apply steady_check | apply steady_fall_back
                | apply steady_check_commute | apply steady_notification
                | apply steady_can_auto | apply steady_can_manual
                | apply steady_calls_today | apply steady_auto_calls_today
                | apply steady_frame; intros; cbn; repeat split; reflexivity ]
        | solve [keeps_go] ]
    end.

Lemma calm_refresh (s : state) : calm_at (async_refresh w cfg) s.
Proof. unfold async_refresh, _async_update_data. calm_go. Qed.

Lemma calm_manual_refresh (s : state) : calm_at (async_manual_refresh w cfg) s.
Proof.
  unfold async_manual_refresh, manual_fetch. calm_go. apply calm_refresh.
Qed.

Lemma calm_perform (a : action) (s : state) :
  a <> ResetCounters -> calm_at (perform w cfg a) s.
Proof.
  intros Ha. destruct a; try contradiction; cbn [perform];
    first [ apply calm_refresh | apply calm_manual_refresh | calm_go ].
Qed.

Lemma calm_perform_all (l : list action) (s : state) :
  ~ In ResetCounters l -> calm_at (perform_all w cfg l) s.
Proof.
  revert s. induction l as [|a l IH]; intros s Hl; cbn [perform_all].
  - calm_go.
  - apply calm_bind.
    + apply calm_perform. intros ->. apply Hl. left; reflexivity.
    + intros _ s1. apply IH. intros H. apply Hl. right; exact H.
Qed.

End UsedUp.

Section UsedUpTheorem.
Import DateTime Coordinator Entry.

Variable w : world.
Variable cfg : Config.

(** X14.  A day on which the quota is used up.  Let the calls counted
    have reached the daily quota, the last reset be of today, and the number
    of calls reserved for manual use be not negative.  Then no sequence of
    timer refreshes, manual refreshes, notifications and sensor or property
    reads that stays within the day and does not press the reset sends one
    more request to the primary source; the counters stay where they are or
    above. *)
Theorem used_up_quota_sends_nothing (D : Z) (l : list action) (s : state) :
  0 <= reserved_of cfg ->
  quota_of cfg <= _calls_today s ->
  0 <= _calls_today s -> 0 <= _auto_calls_today s ->
  (exists d, _last_reset_date s = Some d /\ date d = D) ->
  (forall n, (ticks s <= n < ticks (after w cfg l s))%nat -> date (clock w n) = D) ->
  ~ In ResetCounters l ->
  api_requests (after w cfg l s) = api_requests s
  /\ _calls_today s <= _calls_today (after w cfg l s).
Proof.
  intros Hres Hq Hc Ha Hlast Hday Hl.
  destruct (calm_perform_all w cfg D (ticks (after w cfg l s)) Hres l s Hl)
    as [_ H].
  destruct H as [Hg Hsame].
  - split; [repeat split; assumption | exact Hlast].
  - exact Hq.
  - unfold after. lia.
  - split; [exact Hsame|]. destruct Hg as (_ & Hcalls & _). exact Hcalls.
Qed.

End UsedUpTheorem.

Section DaySamples.
Import DateTime Coordinator Entry Sample.

(** The coordinator has used up the quota of the day before: thirty calls
    are counted, ten of them automatic, and the last reset was made at ten
    past eight of that day.  At ten past eight of the next day neither
    admission would hold on these counters; the automatic cycle resets them
    and sends its request. *)
Lemma new_day_is_admitted_sample :
  let yesterday := mk_datetime 738999 8 10 0 0 in
  let s := mk_state 30 10 (Some yesterday) (Some yesterday) None SOURCE_NONE None
             0 0 0 0 [] in
  Py.truthy_opt (bus_stop_primary config_stop) = true
  /\ (forall n, (ticks s <= n <= 2 + ticks s)%nat -> date (clock world_X4 n) = 739000)
  /\ (exists d, _last_reset_date s = Some d /\ date d <> 739000)
  /\ admits config_stop Automatic (_calls_today s) (_auto_calls_today s) = false
  /\ admits config_stop Automatic 0 0 = true
  /\ api_requests (snd (cycle world_X4 config_stop Automatic s)) = 1%nat
  /\ 0 <= _calls_today (snd (cycle world_X4 config_stop Automatic s)) <= 1.
Proof.
  intros yesterday s.
  assert (Hday : forall n, (ticks s <= n <= 2 + ticks s)%nat ->
                           date (clock world_X4 n) = 739000)
    by (intros n _; reflexivity).
  assert (Hstale : exists d, _last_reset_date s = Some d /\ date d <> 739000)
    by (exists yesterday; split; [reflexivity | discriminate]).
  split; [reflexivity|]. split; [exact Hday|]. split; [exact Hstale|].
  split; [reflexivity|]. split; [reflexivity|].
  destruct (new_day_is_admitted world_X4 config_stop Automatic s 739000
              eq_refl Hday (or_intror Hstale) eq_refl) as (H & Hc & _).
  split; [exact H | exact Hc].
Defined.

(** Thirty calls are counted, under the default quota of thirty. *)
Lemma used_up_quota_sends_nothing_sample :
  let s := mk_state 30 10 (Some morning) None None SOURCE_NONE None 0 0 0 0 [] in
  let l := [Tick; RefreshCommute; CanAutoSensor; SendNotification] in
  0 <= reserved_of config_stop
  /\ quota_of config_stop <= _calls_today s
  /\ ~ In ResetCounters l
  /\ api_requests (after world_X4 config_stop l s) = 0%nat.
Proof.
  intros s l.
  assert (Hres : 0 <= reserved_of config_stop) by (vm_compute; discriminate).
  assert (Hq : quota_of config_stop <= _calls_today s) by (vm_compute; discriminate).
  assert (Hl : ~ In ResetCounters l)
    by (intros [H|[H|[H|[H|[]]]]]; discriminate).
  split; [exact Hres|]. split; [exact Hq|]. split; [exact Hl|].
  destruct (used_up_quota_sends_nothing world_X4 config_stop 739000 l s Hres Hq)
    as [H _]; try exact H; try exact Hl.
  - vm_compute; discriminate.
  - vm_compute; discriminate.
  - exists morning. split; reflexivity.
  - intros n _. reflexivity.
Defined.

End DaySamples.

(* ===================================================================== *)
(** * Properties of the endpoints of the scraper service *)
(* ===================================================================== *)

Section CacheSteps.
Import Scraper Scraper.SimpleCache.

(** The four ways a lookup goes. *)
Lemma get_cases (key : string) (now : Z) (h : gmap positive StopDepartures)
    (c : SimpleCache.t) :
  (_cache c !! key = None /\ get key now h c = (None, h, c))
  \/ (exists e o,
        _cache c !! key = Some e /\ now < expires_at e /\ h !! data e = Some o
        /\ h !! fresh (dom h) = None
        /\ get key now h c
           = (Some (fresh (dom h)), <[fresh (dom h) := set_cached true o]> h, c))
  \/ (exists e,
        _cache c !! key = Some e /\ now < expires_at e /\ h !! data e = None
        /\ get key now h c = (None, h, c))
  \/ (exists e,
        _cache c !! key = Some e /\ expires_at e <= now
        /\ get key now h c = (None, h, mk_cache (delete key (_cache c)) (_ttl c))).
Proof.
  unfold get. destruct (_cache c !! key) as [e|] eqn:He; [|left; auto].
  right. destruct (Z.ltb_spec now (expires_at e)) as [Hlt|Hge].
  - unfold model_copy. destruct (h !! data e) as [o|] eqn:Ho.
    + left. exists e, o. cbn [fst snd]. rewrite alter_insert_eq.
      assert (Hf : h !! fresh (dom h) = None) by (apply not_elem_of_dom, is_fresh).
      auto.
    + right. left. exists e. auto.
  - right. right. exists e. auto.
Qed.

(** A lookup changes no object that exists, no entry of another key, and
    not the time to live. *)
Lemma get_frame (key : string) (now : Z) (h : gmap positive StopDepartures)
    (c : SimpleCache.t) :
  let r := get key now h c in
  (forall l o, h !! l = Some o -> r.1.2 !! l = Some o)
  /\ (forall k, k <> key -> _cache r.2 !! k = _cache c !! k)
  /\ _ttl r.2 = _ttl c.
Proof.
  cbv zeta.
  destruct (get_cases key now h c)
    as [[_ ->]|[(e & o & _ & _ & _ & Hf & ->)|[(e & _ & _ & _ & ->)|(e & _ & _ & ->)]]];
    cbn [fst snd _cache _ttl]; repeat split; auto.
  - intros l o' Hl. rewrite lookup_insert_ne; [exact Hl|]. congruence.
  - intros k Hk. apply lookup_delete_ne. congruence.
Qed.

(** A lookup that finds nothing is followed by lookups that find nothing,
    as long as nothing is stored in between. *)
Lemma get_none_again (key : string) (now now' : Z)
    (h : gmap positive StopDepartures) (c : SimpleCache.t) :
  (get key now h c).1.1 = None ->
  (get key now' (get key now h c).1.2 (get key now h c).2).1.1 = None
  /\ (get key now h c).1.2 = h.
Proof.
  destruct (get_cases key now h c)
    as [[Hn ->]|[(e & o & _ & _ & _ & _ & ->)|[(e & He & Hlt & Hd & ->)|(e & He & _ & ->)]]];
    cbn [fst snd]; try discriminate; intros _; (split; [|reflexivity]).
  - unfold get. rewrite Hn. reflexivity.
  - unfold get. rewrite He. destruct (now' <? expires_at e); [|reflexivity].
    unfold model_copy. rewrite Hd. reflexivity.
  - unfold get. cbn [_cache]. rewrite lookup_delete_eq. reflexivity.
Qed.

End CacheSteps.

Section UpperFacts.

Lemma upper_truthy (s : string) : Py.truthy (Py.upper s) = Py.truthy s.
Proof. destruct s; reflexivity. Qed.

Lemma upper_lower_char (c : ascii) :
  Py.upper_char (Py.lower_char c) = Py.upper_char c.
Proof.
  destruct c as [[|] [|] [|] [|] [|] [|] [|] [|]]; vm_compute; reflexivity.
Qed.

Lemma upper_lower (s : string) : Py.upper (Py.lower s) = Py.upper s.
Proof.
  induction s as [|c r IH]; cbn; [reflexivity|].
  rewrite upper_lower_char, IH. reflexivity.
Qed.

Lemma upper_char_idem (c : ascii) :
  Py.upper_char (Py.upper_char c) = Py.upper_char c.
Proof.
  destruct c as [[|] [|] [|] [|] [|] [|] [|] [|]]; vm_compute; reflexivity.
Qed.

Lemma upper_idem (s : string) : Py.upper (Py.upper s) = Py.upper s.
Proof.
  induction s as [|c r IH]; cbn; [reflexivity|].
  rewrite upper_char_idem, IH. reflexivity.
Qed.

End UpperFacts.

Section StripFacts.

Lemma blank_cons (c : ascii) (r : string) :
  Py.blank (String c r) = true -> Py.is_space c = true /\ Py.blank r = true.
Proof.
  cbn [Py.blank]. intros H. apply andb_true_iff in H as [Hc Hr].
  split; [|exact Hr]. unfold Py.white in Hc. cbn [existsb] in Hc.
  rewrite !orb_true_iff in Hc.
  repeat (destruct Hc as [Hc|Hc];
          [apply Ascii.eqb_eq in Hc; subst c; reflexivity|]).
  discriminate Hc.
Qed.

Lemma lstrip_blank (p : string) : Py.blank p = true -> Py.lstrip p = EmptyString.
Proof.
  induction p as [|c r IH]; [reflexivity|]. intros H.
  apply blank_cons in H as [Hc Hr]. cbn [Py.lstrip]. rewrite Hc. auto.
Qed.

Lemma rstrip_blank (p : string) : Py.blank p = true -> Py.rstrip p = EmptyString.
Proof.
  induction p as [|c r IH]; [reflexivity|]. intros H.
  apply blank_cons in H as [Hc Hr]. cbn [Py.rstrip]. rewrite (IH Hr), Hc.
  reflexivity.
Qed.

Lemma lstrip_blank_app (p s : string) :
  Py.blank p = true -> Py.lstrip (p +:+ s) = Py.lstrip s.
Proof.
  induction p as [|c r IH]; [reflexivity|]. intros H.
  apply blank_cons in H as [Hc Hr]. rewrite append_cons. cbn [Py.lstrip].
  rewrite Hc. auto.
Qed.

Lemma rstrip_app_blank (s p : string) :
  Py.blank p = true -> Py.rstrip (s +:+ p) = Py.rstrip s.
Proof.
  intros Hp. induction s as [|c r IH]; [apply rstrip_blank, Hp|].
  rewrite append_cons. cbn [Py.rstrip]. rewrite IH. reflexivity.
Qed.

(** With blank text after it, a text is stripped on the left to what it is
    stripped to alone, followed by the blank text; or to nothing, when it is
    white space itself. *)
Lemma lstrip_app_blank (s p : string) :
  Py.blank p = true ->
  Py.lstrip (s +:+ p) = Py.lstrip s +:+ p
  \/ (Py.lstrip s = EmptyString /\ Py.lstrip (s +:+ p) = EmptyString).
Proof.
  intros Hp. induction s as [|c r IH].
  - right. split; [reflexivity | apply lstrip_blank, Hp].
  - rewrite append_cons. cbn [Py.lstrip].
    destruct (Py.is_space c); [exact IH|]. left. reflexivity.
Qed.

(** White space around a text does not count. *)
Lemma strip_padded (pre s post : string) :
  Py.blank pre = true -> Py.blank post = true ->
  Py.strip (pre +:+ s +:+ post) = Py.strip s.
Proof.
  intros Hpre Hpost. unfold Py.strip. rewrite (lstrip_blank_app pre _ Hpre).
  destruct (lstrip_app_blank s post Hpost) as [->|[-> ->]];
    [apply rstrip_app_blank, Hpost | reflexivity].
Qed.

Lemma same_text_empty (a b : string) :
  Py.same_text a b = true -> (a = EmptyString <-> b = EmptyString).
Proof. destruct a, b; cbn; try discriminate; split; auto; discriminate. Qed.

Lemma same_text_lstrip (a b : string) :
  Py.same_text a b = true -> Py.same_text (Py.lstrip a) (Py.lstrip b) = true.
Proof.
  revert b. induction a as [|x a IH]; intros [|y b]; try discriminate;
    [reflexivity|].
  intros H. pose proof H as Hab. cbn [Py.same_text] in H.
  apply andb_true_iff in H as [Hxy Hr].
  destruct (same_letter_folds x y) as [_ Hf]. destruct (Hf Hxy) as [_ Hsp].
  cbn [Py.lstrip]. rewrite <- Hsp. destruct (Py.is_space x); [auto | exact Hab].
Qed.

Lemma same_text_rstrip (a b : string) :
  Py.same_text a b = true -> Py.same_text (Py.rstrip a) (Py.rstrip b) = true.
Proof.
  revert b. induction a as [|x a IH]; intros [|y b]; try discriminate;
    [reflexivity|].
  intros H. cbn [Py.same_text] in H. apply andb_true_iff in H as [Hxy Hr].
  destruct (same_letter_folds x y) as [_ Hf]. destruct (Hf Hxy) as [_ Hsp].
  specialize (IH b Hr). cbn [Py.rstrip]. rewrite <- Hsp.
  destruct (Py.rstrip a) as [|a0 a'], (Py.rstrip b) as [|b0 b']; try discriminate.
  - destruct (Py.is_space x); [reflexivity|].
    cbn [Py.same_text]. rewrite Hxy. reflexivity.
  - cbn [Py.same_text] in *. rewrite Hxy. exact IH.
Qed.

(** Stop codes that are one text but for the case of the letters, with
    white space around them, are normalized to one key. *)
Lemma normalized_alike (pre core post pre' core' post' : string) :
  Py.blank pre = true -> Py.blank post = true ->
  Py.blank pre' = true -> Py.blank post' = true ->
  Py.same_text core core' = true ->
  Py.upper (Py.strip (pre +:+ core +:+ post))
  = Py.upper (Py.strip (pre' +:+ core' +:+ post')).
Proof.
  intros H1 H2 H3 H4 Hsame. rewrite !strip_padded by assumption.
  apply same_text_upper. unfold Py.strip.
  apply same_text_rstrip, same_text_lstrip, Hsame.
Qed.

End StripFacts.

Section EndpointFacts.
Import DateTime Scraper Scraper.SimpleCache Service.

(** How a request goes, by what the lookup gives. *)
Lemma request_cases (rq : request) (sv : service) :
  let K := key_of rq in
  let g := get K (t_get rq) (heap sv) (cache sv) in
  (Py.truthy K = false
   /\ get_stop_departures rq sv = (HTTPException 400 "Stop code is required", sv))
  \/ (Py.truthy K = true /\ exists l,
        g.1.1 = Some l
        /\ get_stop_departures rq sv = (Returned l, mk_service g.1.2 g.2 (scraped sv)))
  \/ (Py.truthy K = true /\ g.1.1 = None /\ exists e,
        scrape_lothian_stop (page rq) K = inl e
        /\ get_stop_departures rq sv
           = (Raised e, mk_service g.1.2 g.2 (K :: scraped sv)))
  \/ (Py.truthy K = true /\ g.1.1 = None /\ exists obj,
        scrape_lothian_stop (page rq) K = inr obj
        /\ get_stop_departures rq sv
           = (Returned (fresh (dom g.1.2)),
              mk_service (<[fresh (dom g.1.2) := obj]> g.1.2)
                (set K (fresh (dom g.1.2)) (t_set rq) g.2)
                (K :: scraped sv))).
Proof.
  cbv zeta. unfold get_stop_departures. fold (key_of rq).
  destruct (Py.truthy (key_of rq)); cbn [negb]; [right|left; auto].
  destruct (get (key_of rq) (t_get rq) (heap sv) (cache sv)) as [[[l|] h] c];
    cbn [fst snd].
  - left. split; [reflexivity|]. exists l. auto.
  - right. destruct (scrape_lothian_stop (page rq) (key_of rq)) as [e|obj].
    + left. split; [reflexivity|]. split; [reflexivity|]. exists e. auto.
    + right. split; [reflexivity|]. split; [reflexivity|]. exists obj. auto.
Qed.

(** What a scrape returns is not flagged as cached. *)
Lemma scrape_not_cached (ss : session) (stop : string) (r : StopDepartures) :
  scrape_lothian_stop ss stop = inr r -> cached r = false.
Proof.
  unfold scrape_lothian_stop.
  destruct (get_browser ss); [discriminate|].
  destruct (new_page ss); [discriminate|].
  destruct (scrape_body ss stop) as [[deps name] err].
  destruct (close_page ss); [discriminate|].
  intros [= <-]. reflexivity.
Qed.

Lemma cons_neq {A} (x : A) (l : list A) : l <> x :: l.
Proof.
  intros H. apply (f_equal (@length A)) in H. cbn in H. lia.
Qed.

(** A request for the key of an entry that has not expired is served from
    the cache. *)
Lemma request_hit (K : string) (l : positive) (obj : StopDepartures)
    (E : Z) (rq : request) (sv : service) :
  holds K l obj E sv -> Py.truthy K = true -> key_of rq = K -> t_get rq < E ->
  let l' := fresh (dom (heap sv)) in
  l' <> l
  /\ get_stop_departures rq sv
     = (Returned l',
        mk_service (<[l' := set_cached true obj]> (heap sv)) (cache sv) (scraped sv)).
Proof.
  intros [Hc Hh] HK Hkey Ht. cbv zeta.
  assert (Hg : get K (t_get rq) (heap sv) (cache sv)
               = (Some (fresh (dom (heap sv))),
                  <[fresh (dom (heap sv)) := set_cached true obj]> (heap sv),
                  cache sv)).
  { unfold get. rewrite Hc. cbn [expires_at data].
    apply Z.ltb_lt in Ht. rewrite Ht. unfold model_copy. rewrite Hh.
    cbn [fst snd]. rewrite alter_insert_eq. reflexivity. }
  assert (Hf : heap sv !! fresh (dom (heap sv)) = None)
    by (apply not_elem_of_dom, is_fresh).
  split; [congruence|].
  unfold get_stop_departures. fold (key_of rq). rewrite Hkey, HK, Hg. reflexivity.
Qed.

(** A request for another key leaves the entry alone. *)
Lemma request_other (K : string) (l : positive) (obj : StopDepartures)
    (E : Z) (rq : request) (sv : service) :
  holds K l obj E sv -> key_of rq <> K ->
  let r := get_stop_departures rq sv in
  holds K l obj E r.2
  /\ (forall l0 o, heap sv !! l0 = Some o -> heap r.2 !! l0 = Some o)
  /\ (scraped r.2 = scraped sv \/ scraped r.2 = key_of rq :: scraped sv).
Proof.
  intros [Hc Hh] Hne. cbv zeta.
  pose proof (get_frame (key_of rq) (t_get rq) (heap sv) (cache sv))
    as (Hmono & Hother & _).
  set (g := get (key_of rq) (t_get rq) (heap sv) (cache sv)) in *.
  assert (Hfresh : forall l0 o, g.1.2 !! l0 = Some o -> l0 <> fresh (dom g.1.2)).
  { intros l0 o Hl0 Heq. rewrite Heq in Hl0.
    assert (g.1.2 !! fresh (dom g.1.2) = None) by (apply not_elem_of_dom, is_fresh).
    congruence. }
  destruct (request_cases rq sv)
    as [[_ ->]|[(_ & l' & _ & ->)|[(_ & _ & e & _ & ->)|(_ & _ & o' & _ & ->)]]];
    fold g; cbn [fst snd heap cache scraped]; unfold holds; cbn [heap cache].
  - repeat split; auto.
  - rewrite Hother by congruence. repeat split; auto.
  - rewrite Hother by congruence. repeat split; auto.
  - unfold set. cbn [_cache].
    rewrite lookup_insert_ne by exact Hne. rewrite Hother by congruence.
    repeat split; auto.
    + rewrite lookup_insert_ne; [auto|]. intros Heq. symmetry in Heq.
      revert Heq. eapply Hfresh. apply Hmono, Hh.
    + intros l0 o Hl0. rewrite lookup_insert_ne; [auto|]. intros Heq.
      symmetry in Heq. revert Heq. eapply Hfresh. apply Hmono, Hl0.
Qed.

(** Requests served while an entry lasts. *)
Lemma serve_within_window (K : string) (l : positive) (obj : StopDepartures)
    (E : Z) (rqs : list request) (sv : service) :
  holds K l obj E sv -> Py.truthy K = true ->
  Forall (fun rq => t_get rq < E) rqs ->
  let r := serve rqs sv in
  holds K l obj E r.2
  /\ (forall l0 o, heap sv !! l0 = Some o -> heap r.2 !! l0 = Some o)
  /\ (exists more, scraped r.2 = (more ++ scraped sv)%list /\ ~ In K more)
  /\ Forall2
       (fun rq rp =>
          key_of rq = K ->
          exists l', rp = Returned l' /\ l' <> l
                     /\ heap r.2 !! l' = Some (set_cached true obj))
       rqs r.1.
Proof.
  intros Hh HK Hall. revert sv Hh.
  induction Hall as [|rq rest Ht Hrest IH]; intros sv Hh; cbn [serve].
  - cbn [fst snd]. split; [exact Hh|]. split; [auto|].
    split; [exists []; split; [reflexivity|intros []]|constructor].
  - destruct (get_stop_departures rq sv) as [rp sv1] eqn:Hrq.
    destruct (serve rest sv1) as [rps sv2] eqn:Hserve. cbn [fst snd].
    assert (Hstep : holds K l obj E sv1
              /\ (forall l0 o, heap sv !! l0 = Some o -> heap sv1 !! l0 = Some o)
              /\ (scraped sv1 = scraped sv
                  \/ (key_of rq <> K /\ scraped sv1 = key_of rq :: scraped sv))
              /\ (key_of rq = K ->
                  exists l', rp = Returned l' /\ l' <> l
                             /\ heap sv1 !! l' = Some (set_cached true obj))).
    { destruct (String.string_dec (key_of rq) K) as [Hkey|Hkey].
      - destruct (request_hit K l obj E rq sv Hh HK Hkey Ht) as [Hne Heq].
        rewrite Heq in Hrq. injection Hrq as <- <-.
        destruct Hh as [Hc Hobj].
        assert (Hf : heap sv !! fresh (dom (heap sv)) = None)
          by (apply not_elem_of_dom, is_fresh).
        unfold holds. cbn [heap cache scraped]. repeat split; auto.
        + rewrite lookup_insert_ne by exact Hne. exact Hobj.
        + intros l0 o Hl0. rewrite lookup_insert_ne; [exact Hl0|]. congruence.
        + intros _. eexists. split; [reflexivity|]. split; [exact Hne|].
          apply lookup_insert_eq.
      - pose proof (request_other K l obj E rq sv Hh Hkey) as (H1 & H2 & H3).
        rewrite Hrq in H1, H2, H3. cbn [snd] in H1, H2, H3.
        split; [exact H1|]. split; [exact H2|]. split; [|contradiction].
        destruct H3; auto. }
    destruct Hstep as (Hh1 & Hmono1 & Hscr1 & Hrp).
    specialize (IH sv1 Hh1). rewrite Hserve in IH. cbn [fst snd] in IH.
    destruct IH as (Hh2 & Hmono2 & (more & Hmore & Hnot) & Hreplies).
    split; [exact Hh2|]. split; [auto|]. split.
    + destruct Hscr1 as [Hs|[Hkey Hs]]; rewrite Hs in Hmore.
      * exists more. auto.
      * exists (more ++ [key_of rq])%list. split.
        -- rewrite Hmore, <- List.app_assoc. reflexivity.
        -- rewrite List.in_app_iff. intros [H|[H|[]]]; [auto|congruence].
    + constructor; [|exact Hreplies].
      intros Hkey. destruct (Hrp Hkey) as (l' & -> & Hne & Hl').
      exists l'. split; [reflexivity|]. split; [exact Hne|]. apply Hmono2, Hl'.
Qed.

End EndpointFacts.

Section EndpointTheorems.
Import DateTime Scraper Scraper.SimpleCache Service.

(** X15.  A stop that has just been scraped is not scraped again while
    its entry lasts.  Let a request be answered by a scrape that returned
    (with departures or with an error text), and let the requests that
    follow read the clock before the time to live has passed since it was
    stored.  Then none of them scrapes that stop again, whatever other stops
    they ask for.  The object that was scraped stays as it is, with [cached]
    [False]; each of the requests that asks for the stop is returned another
    object, whose [cached] is [True] and whose other fields are those of the
    scraped one.  Two stop codes that are one text but for the case of their
    letters, each with any white space before and after it, have the same
    key, so that one is served what was scraped for the other.  And a request
    for the stop that comes right after the scrape and reads the clock at
    the end of the time to live or later scrapes it again. *)
Theorem cached_stop_is_not_scraped_again (rq : request) (rqs : list request)
    (sv sv1 : service) (l : positive) :
  get_stop_departures rq sv = (Returned l, sv1) ->
  scraped sv1 = key_of rq :: scraped sv ->
  Forall (fun rq' => t_get rq' < t_set rq + _ttl (cache sv)) rqs ->
  exists obj,
    scrape_lothian_stop (page rq) (key_of rq) = inr obj
    /\ cached obj = false
    /\ heap sv1 !! l = Some obj
    /\ heap (serve rqs sv1).2 !! l = Some obj
    /\ (exists more,
          scraped (serve rqs sv1).2 = (more ++ scraped sv1)%list
          /\ ~ In (key_of rq) more)
    /\ Forall2
         (fun rq' rp =>
            key_of rq' = key_of rq ->
            exists l' copy,
              rp = Returned l' /\ l' <> l
              /\ heap (serve rqs sv1).2 !! l' = Some copy
              /\ cached copy = true
              /\ stop_code copy = stop_code obj
              /\ stop_name copy = stop_name obj
              /\ generated_at copy = generated_at obj
              /\ departures copy = departures obj
              /\ error copy = error obj)
         rqs (serve rqs sv1).1
    /\ (forall rq' pre core post pre' core' post',
          path_stop rq = pre +:+ core +:+ post ->
          path_stop rq' = pre' +:+ core' +:+ post' ->
          Py.blank pre = true -> Py.blank post = true ->
          Py.blank pre' = true -> Py.blank post' = true ->
          Py.same_text core core' = true ->
          key_of rq' = key_of rq)
    /\ (forall rq',
          key_of rq' = key_of rq -> t_set rq + _ttl (cache sv) <= t_get rq' ->
          scraped (get_stop_departures rq' sv1).2 = key_of rq :: scraped sv1).
Proof.
  intros Hrq Hscr Hall.
  pose proof (get_frame (key_of rq) (t_get rq) (heap sv) (cache sv))
    as (_ & _ & Httl).
  destruct (request_cases rq sv)
    as [[_ Heq]|[(_ & l' & _ & Heq)|[(_ & _ & e & _ & Heq)|(HK & _ & obj & Hobj & Heq)]]];
    rewrite Heq in Hrq; try discriminate.
  { injection Hrq as _ <-. cbn [scraped] in Hscr.
    contradiction (cons_neq _ _ Hscr). }
  injection Hrq as <- <-.
  set (g := get (key_of rq) (t_get rq) (heap sv) (cache sv)) in *.
  set (l := fresh (dom g.1.2)). set (sv1 := mk_service _ _ _).
  assert (Hh : holds (key_of rq) l obj (t_set rq + _ttl (cache sv)) sv1).
  { unfold holds, sv1, set. cbn [cache heap _cache]. rewrite !lookup_insert_eq, Httl.
    auto. }
  exists obj. split; [exact Hobj|].
  split; [exact (scrape_not_cached _ _ _ Hobj)|].
  split; [apply Hh|].
  destruct (serve_within_window _ _ _ _ rqs sv1 Hh HK Hall)
    as (Hkept & _ & Hmore & Hrep).
  split; [apply Hkept|]. split; [exact Hmore|]. split; [|split].
  - eapply Forall2_impl; [exact Hrep|]. cbv beta.
    intros rq' rp H Hkey. destruct (H Hkey) as (l' & Hrp & Hne & Hl').
    destruct (set_cached_fields true obj) as (F1 & F2 & F3 & F4 & F5 & F6).
    exists l', (set_cached true obj). auto 12.
  - intros rq' pre core post pre' core' post' Hp Hp' B1 B2 B3 B4 Hsame.
    unfold key_of. rewrite Hp, Hp'. symmetry.
    apply normalized_alike; assumption.
  - intros rq' Hkey Hlate. destruct Hh as [Hc _].
    assert (Hg : (get (key_of rq') (t_get rq') (heap sv1) (cache sv1)).1.1 = None).
    { unfold get. rewrite Hkey, Hc. cbn [expires_at].
      apply Z.ltb_ge in Hlate. rewrite Hlate. reflexivity. }
    destruct (request_cases rq' sv1)
      as [[Hb _]|[(_ & l' & Hl' & _)|[(_ & _ & e & _ & ->)|(_ & _ & o & _ & ->)]]];
      try congruence; rewrite Hkey; reflexivity.
Qed.

(** X16.  The requests that fail.  A stop code that is blank once
    stripped is answered with status 400, and nothing is looked up, scraped
    or stored.  When the scrape raises, the exception leaves the handler and
    nothing is stored: the next request for the stop scrapes again, at once.
    And after the cache is cleared, the next request for any stop scrapes
    it. *)
Theorem requests_that_fail (rq : request) (sv : service) :
  (Py.strip (path_stop rq) = EmptyString ->
     get_stop_departures rq sv = (HTTPException 400 "Stop code is required", sv))
  /\ (forall e sv1,
        get_stop_departures rq sv = (Raised e, sv1) ->
        scrape_lothian_stop (page rq) (key_of rq) = inl e
        /\ heap sv1 = heap sv
        /\ scraped sv1 = key_of rq :: scraped sv
        /\ forall rq', key_of rq' = key_of rq ->
             scraped (get_stop_departures rq' sv1).2 = key_of rq :: scraped sv1)
  /\ (forall rq', Py.truthy (key_of rq') = true ->
        scraped (get_stop_departures rq' (clear_cache sv)).2
        = key_of rq' :: scraped sv).
Proof.
  split; [|split].
  - intros Hblank. unfold get_stop_departures. rewrite Hblank. reflexivity.
  - intros e sv1 Hrq.
    destruct (request_cases rq sv)
      as [[_ Heq]|[(_ & l' & _ & Heq)|[(HK & Hnone & e' & He & Heq)|(_ & _ & o & _ & Heq)]]];
      rewrite Heq in Hrq; try discriminate.
    injection Hrq as <- <-. cbn [heap scraped cache].
    destruct (get_none_again (key_of rq) (t_get rq) (t_get rq) (heap sv) (cache sv) Hnone)
      as [_ Hheap].
    split; [exact He|]. split; [exact Hheap|]. split; [reflexivity|].
    intros rq' Hkey.
    destruct (get_none_again (key_of rq) (t_get rq) (t_get rq') (heap sv) (cache sv) Hnone)
      as [Hagain _].
    set (sv1 := mk_service _ _ _).
    destruct (request_cases rq' sv1)
      as [[Hb _]|[(_ & l' & Hl' & _)|[(_ & _ & e'' & _ & ->)|(_ & _ & o & _ & ->)]]];
      try (rewrite Hkey; reflexivity).
    + rewrite Hkey, HK in Hb. discriminate.
    + rewrite Hkey in Hl'. unfold sv1 in Hl'. cbn [heap cache] in Hl'. congruence.
  - intros rq' HK.
    assert (Hg : get (key_of rq') (t_get rq') (heap (clear_cache sv))
                   (cache (clear_cache sv))
                 = (None, heap sv, clear (cache sv))).
    { unfold get, clear_cache, clear. cbn [cache heap _cache].
      rewrite lookup_empty. reflexivity. }
    unfold get_stop_departures. fold (key_of rq'). rewrite HK, Hg. cbn [negb].
    destruct (scrape_lothian_stop _ _); reflexivity.
Qed.

End EndpointTheorems.

Section EndpointSamples.
Import DateTime Scraper Scraper.SimpleCache Service ScraperSample.

(** A page without departures is scraped at second 0, under a time to live
    of 90 seconds, for a stop written in small letters between two spaces;
    the same stop is asked for in capital letters at second 50.  It is not
    scraped again: the request is served another object, which is flagged as
    cached and carries the error text of the scraped one, which is not
    flagged. *)
Lemma cached_stop_is_not_scraped_again_sample :
  let rq := mk_request " 62002abc " 0 0 session_blank in
  let rq' := mk_request "62002ABC" 50000000 50000000 session_blank in
  let sv1 := (get_stop_departures rq (start 90)).2 in
  let sv2 := (serve [rq'] sv1).2 in
  get_stop_departures rq (start 90) = (Returned 1%positive, sv1)
  /\ scraped sv1 = key_of rq :: scraped (start 90)
  /\ Forall (fun x => t_get x < t_set rq + _ttl (cache (start 90))) [rq']
  /\ key_of rq' = key_of rq
  /\ scraped sv2 = scraped sv1
  /\ exists obj l' copy,
       heap sv2 !! 1%positive = Some obj
       /\ cached obj = false
       /\ (serve [rq'] sv1).1 = [Returned l']
       /\ l' <> 1%positive
       /\ heap sv2 !! l' = Some copy
       /\ cached copy = true
       /\ error copy = error obj.
Proof.
  intros rq rq' sv1 sv2.
  assert (Hrq : get_stop_departures rq (start 90) = (Returned 1%positive, sv1))
    by (vm_compute; reflexivity).
  assert (Hscr : scraped sv1 = key_of rq :: scraped (start 90))
    by (vm_compute; reflexivity).
  assert (Hall : Forall (fun x => t_get x < t_set rq + _ttl (cache (start 90))) [rq'])
    by (constructor; [reflexivity | constructor]).
  split; [exact Hrq|]. split; [exact Hscr|]. split; [exact Hall|].
  destruct (cached_stop_is_not_scraped_again rq [rq'] (start 90) sv1 1%positive
              Hrq Hscr Hall)
    as (obj & _ & Hflag & _ & Hkept & _ & Hrep & Hkey & _).
  assert (Hsame : key_of rq' = key_of rq).
  { apply (Hkey rq' " " "62002abc" " " EmptyString "62002ABC" EmptyString);
      reflexivity. }
  split; [exact Hsame|]. split; [vm_compute; reflexivity|].
  assert (Hreplies : (serve [rq'] sv1).1 = [Returned 2%positive])
    by (vm_compute; reflexivity).
  rewrite Hreplies in Hrep. apply Forall2_cons_1 in Hrep as [Hrep _].
  destruct (Hrep Hsame) as (l' & copy & Hl' & Hne & Hcopy & Hc & _ & _ & _ & _ & He).
  exists obj, l', copy. rewrite Hreplies, Hl'. auto 10.
Defined.

End EndpointSamples.

(* ===================================================================== *)
(** * The shape of a scrape result *)
(* ===================================================================== *)

Section ShapeFacts.
Import DateTime Scraper.

Lemma status_of_text_values (tx : string) :
  In (status_of_text tx) ["Late"; "Early"; "On time"; "Scheduled"].
Proof.
  unfold status_of_text. cbv zeta.
  destruct (_ || _); [cbn; auto|].
  destruct (Py.contains "early" _); [cbn; auto|].
  destruct (Py.contains "on time" _); cbn; auto.
Qed.

Lemma status_chain_values (e : element) (sels : list string) :
  In (status_chain e sels) ["Late"; "Early"; "On time"; "Scheduled"].
Proof.
  induction sels as [|sel rest IH]; cbn [status_chain]; [cbn; auto|].
  destruct (e sel) as [| |x]; try exact IH.
  destruct (Py.truthy_opt x); [apply status_of_text_values | cbn; auto].
Qed.

(** What a row that is kept looks like. *)
Lemma parse_row_shape (now : datetime) (e : element) (d : BusDeparture) :
  wf now -> parse_row now e = Some d ->
  Py.truthy (route d) = true
  /\ 0 <= due_mins d
  /\ aimed d = expected d
  /\ Some (due_mins d) = due_mins_of_text now (aimed d)
  /\ In (status d) ["Late"; "Early"; "On time"; "Scheduled"].
Proof.
  intros Hwf. unfold parse_row.
  pose proof (status_chain_values e status_selectors) as Hst. revert Hst.
  generalize (status_chain e status_selectors) as st. intros st Hst.
  generalize (first_text e route_selectors None) as rt.
  generalize (first_text e time_selectors None) as tx.
  generalize (first_text e dest_selectors None) as dest.
  intros dest tx rt.
  destruct (Py.truthy_opt rt) eqn:Hr; cbn [negb]; [|discriminate].
  destruct (due_mins_of_text now tx) as [due|] eqn:Hdue; [|discriminate].
  pose proof (due_mins_of_text_nonneg now tx due Hwf Hdue) as Hpos.
  intros H. injection H as <-.
  cbn [route due_mins aimed expected status].
  split; [destruct rt; [exact Hr|discriminate]|].
  split; [exact Hpos|]. split; [reflexivity|]. split; [symmetry; exact Hdue|].
  exact Hst.
Qed.

Lemma parse_rows_shape (clock : nat -> datetime) (P : BusDeparture -> Prop)
    (rows : list element) (i : nat) :
  (forall j e d, parse_row (clock j) e = Some d -> P d) ->
  Forall P (parse_rows clock i rows)
  /\ (length (parse_rows clock i rows) <= length rows)%nat.
Proof.
  intros HP. revert i. induction rows as [|e rest IH]; intros i; cbn [parse_rows].
  - split; [constructor | reflexivity].
  - destruct (IH (S i)) as [Hall Hlen].
    destruct (parse_row (clock i) e) as [d|] eqn:Hd; cbn [length].
    + split; [constructor; [eapply HP; eauto | exact Hall] | lia].
    + split; [exact Hall | lia].
Qed.

(** What the rows of a page give. *)
Lemma scrape_body_shape (ss : session) (stop : string) :
  (forall i, wf (row_clock ss i)) ->
  (length (scrape_body ss stop).1.1 <= 10)%nat
  /\ Forall
       (fun d =>
          Py.truthy (route d) = true
          /\ 0 <= due_mins d
          /\ aimed d = expected d
          /\ (exists i, Some (due_mins d) = due_mins_of_text (row_clock ss i) (aimed d))
          /\ In (status d) ["Late"; "Early"; "On time"; "Scheduled"])
       (scrape_body ss stop).1.1.
Proof.
  intros Hwf. unfold scrape_body.
  destruct (open_page ss); [split; [cbn; lia | constructor]|].
  destruct (if find_search _ _ then _ else _); [split; [cbn; lia | constructor]|].
  set (rows := firstn 10 _).
  destruct (parse_rows_shape (row_clock ss)
              (fun d =>
                 Py.truthy (route d) = true
                 /\ 0 <= due_mins d
                 /\ aimed d = expected d
                 /\ (exists i, Some (due_mins d)
                               = due_mins_of_text (row_clock ss i) (aimed d))
                 /\ In (status d) ["Late"; "Early"; "On time"; "Scheduled"])
              rows 0%nat) as [Hall Hlen].
  { intros j e d Hd.
    destruct (parse_row_shape (row_clock ss j) e d (Hwf j) Hd)
      as (H1 & H2 & H3 & H4 & H5).
    repeat split; auto. exists j. exact H4. }
  assert (Hrows : (length rows <= 10)%nat) by apply List.firstn_le_length.
  destruct (parse_rows (row_clock ss) 0 rows) as [|d ds] eqn:Hp.
  - destruct (page_content ss); split; try (cbn; lia); constructor.
  - cbn [fst]. split; [lia | exact Hall].
Qed.

(** A result is made of what the body left. *)
Lemma scrape_result_fields (ss : session) (stop : string) (r : StopDepartures) :
  scrape_lothian_stop ss stop = inr r ->
  r = mk_stop stop (scrape_body ss stop).1.2 (return_clock ss)
        (scrape_body ss stop).1.1 (scrape_body ss stop).2 false.
Proof.
  unfold scrape_lothian_stop.
  destruct (get_browser ss); [discriminate|].
  destruct (new_page ss); [discriminate|].
  destruct (scrape_body ss stop) as [[deps name] err].
  destruct (close_page ss); [discriminate|].
  intros [= <-]. reflexivity.
Qed.

Lemma scrape_error_iff (ss : session) (stop : string) :
  (scrape_body ss stop).2 = None <-> (scrape_body ss stop).1.1 <> [].
Proof.
  pose proof (scrape_body_error ss stop) as Herr.
  destruct (scrape_body ss stop) as [[[|d ds] name] err]; cbn [fst snd].
  - destruct Herr as (msg & -> & _). split; [discriminate | contradiction].
  - rewrite Herr. split; [discriminate | reflexivity].
Qed.

(** X17.  The shape of what a scrape returns, when the readings of the
    clock are times of day.  There are at most ten departures; each has a
    route that is not empty, minutes that are not negative and are those its
    time text gives, the time text as both its aimed and its expected time,
    and a status among Late, Early, On time and Scheduled.  The result
    carries the stop code it was asked for, is not marked as cached, and has
    an error text exactly when it has no departure. *)
Theorem scrape_result_shape (ss : session) (stop : string) (r : StopDepartures) :
  (forall i, wf (row_clock ss i)) ->
  scrape_lothian_stop ss stop = inr r ->
  (length (departures r) <= 10)%nat
  /\ Forall
       (fun d =>
          Py.truthy (route d) = true
          /\ 0 <= due_mins d
          /\ aimed d = expected d
          /\ (exists i, Some (due_mins d) = due_mins_of_text (row_clock ss i) (aimed d))
          /\ In (status d) ["Late"; "Early"; "On time"; "Scheduled"])
       (departures r)
  /\ stop_code r = stop
  /\ cached r = false
  /\ (error r = None <-> departures r <> []).
Proof.
  intros Hwf Hr. rewrite (scrape_result_fields ss stop r Hr).
  cbn [departures stop_code cached error].
  destruct (scrape_body_shape ss stop Hwf) as [Hlen Hall].
  split; [exact Hlen|]. split; [exact Hall|]. split; [reflexivity|].
  split; [reflexivity | apply scrape_error_iff].
Qed.

End ShapeFacts.

Section ShapeSamples.
Import DateTime Scraper ScraperSample ServiceSample.

(** Two rows, one of them with an unreadable time. *)
Lemma scrape_result_shape_sample :
  (forall i, wf (row_clock session_two_rows i))
  /\ exists r,
       scrape_lothian_stop session_two_rows "62002ABC" = inr r
       /\ map route (departures r) = ["26"; "12"]
       /\ map status (departures r) = ["Late"; "Scheduled"]
       /\ error r = None.
Proof.
  assert (Hwf : forall i, wf (row_clock session_two_rows i))
    by (intros i; unfold wf; cbn; lia).
  split; [exact Hwf|].
  eexists. split; [reflexivity|]. split; [reflexivity|]. split; [reflexivity|].
  destruct (scrape_result_shape session_two_rows "62002ABC" _ Hwf eq_refl)
    as (_ & _ & _ & _ & Herr).
  apply Herr. discriminate.
Defined.

End ShapeSamples.

(* ===================================================================== *)
(** * The fall-back, from the page to the sensors *)
(* ===================================================================== *)

Section WireFacts.
Import DateTime Coordinator Entry Wire.

Variable w : world.
Variable cfg : Config.

Local Abbreviation url := (default DEFAULT_SCRAPER_URL (scraper_url cfg)).

Lemma fetch_scraper_answer (stop : string) (s : state) (body : scraper_payload) :
  Py.truthy url = true ->
  scraper w (scraper_requests s) url stop = Response 200 body ->
  fst (_fetch_scraper w cfg stop s) = Some body.
Proof.
  intros Hurl Hans. unfold _fetch_scraper. rewrite Hurl. cbn [negb].
  rewrite !bind_eq. cbn [gets modify fst snd]. rewrite Hans. reflexivity.
Qed.

(** X18.  The fall-back end to end.  Let the scraper service answer the
    coordinator with the result [r] of a scrape (whose readings of the clock
    are times of day).  When [r] carries an error it has no departure, and
    the coordinator takes it as no data: the snapshot stays as the primary
    source left it.  Otherwise the snapshot names the scraper as its source
    and holds the departures of [r] whose route passes the filter, sorted.
    Either way every departure taken from the service has its minutes, not
    negative, so the potential-issue sensor is defined on the data a refresh
    publishes from it. *)
Theorem fall_back_reads_scrape (ss : Scraper.session) (stop : string)
    (r : Scraper.StopDepartures) (src : string) (s : state) :
  (forall i, wf (Scraper.row_clock ss i)) ->
  Scraper.scrape_lothian_stop ss stop = inr r ->
  Py.truthy url = true ->
  scraper w (scraper_requests s) url stop = Response 200 (to_payload r) ->
  let snap := fst (fall_back w cfg stop (mk_snapshot [] src) s) in
  (Scraper.error r <> None -> snap = mk_snapshot [] src)
  /\ (Scraper.error r = None ->
      source snap = SOURCE_SCRAPER
      /\ Permutation (departures snap)
           (List.filter (fun x => allowed cfg (route x))
              (map to_record (Scraper.departures r))))
  /\ StronglySorted by_sort_key (departures snap)
  /\ Forall (fun x => exists n, due_mins x = Some n /\ 0 <= n) (departures snap)
  /\ (forall traffic threshold commute calls auto checked,
        potential_issue traffic threshold
          (Some (mk_update snap
                   (Some (mk_details (hd_error (departures snap)) commute calls auto
                            checked))))
        <> None).
Proof.
  intros Hwf Hscrape Hurl Hans snap.
  assert (Hall : Forall (fun d => 0 <= Scraper.due_mins d) (Scraper.departures r)).
  { rewrite (scrape_result_fields ss stop r Hscrape). cbn [Scraper.departures].
    eapply List.Forall_impl; [|apply (scrape_body_shape ss stop Hwf)].
    intros d (_ & H & _). exact H. }
  assert (Herr : Scraper.error r = None <-> Scraper.departures r <> []).
  { rewrite (scrape_result_fields ss stop r Hscrape).
    cbn [Scraper.departures Scraper.error]. apply scrape_error_iff. }
  assert (Hfetch : fst (_fetch_scraper w cfg stop s) = Some (to_payload r))
    by (apply fetch_scraper_answer; assumption).
  assert (Hsnap : snap = if has_scr_departures (Some (to_payload r))
                         then mk_snapshot (_parse_scraper_departures cfg (to_payload r))
                                SOURCE_SCRAPER
                         else mk_snapshot [] src).
  { subst snap. unfold fall_back. cbn [departures]. rewrite bind_eq, Hfetch.
    destruct (has_scr_departures _); reflexivity. }
  assert (Hhas : has_scr_departures (Some (to_payload r)) = true
                 <-> Scraper.error r = None).
  { rewrite Herr. unfold to_payload. cbn [has_scr_departures].
    destruct (Scraper.departures r); cbn [map]; split; congruence. }
  assert (Hdue : Forall (fun x => exists n, due_mins x = Some n /\ 0 <= n)
                   (departures snap)).
  { rewrite Hsnap. destruct (has_scr_departures _); cbn [departures]; [|constructor].
    unfold _parse_scraper_departures.
    eapply Permutation.Permutation_Forall; [symmetry; apply sort_perm|].
    rewrite scraper_records_filter. cbn [to_payload scr_departures default from_option id].
    apply List.Forall_forall. intros x Hx. apply List.filter_In in Hx as [Hx _].
    apply in_map_iff in Hx as (d & <- & Hd).
    rewrite List.Forall_forall in Hall.
    exists (Scraper.due_mins d). split; [reflexivity | apply Hall, Hd]. }
  split; [|split; [|split; [|split; [exact Hdue|]]]].
  - intros He. rewrite Hsnap.
    destruct (has_scr_departures _); [|reflexivity].
    exfalso. apply He, Hhas. reflexivity.
  - intros He. apply Hhas in He. rewrite Hsnap, He. cbn [source departures].
    split; [reflexivity|]. unfold _parse_scraper_departures.
    rewrite sort_perm, scraper_records_filter. reflexivity.
  - rewrite Hsnap. destruct (has_scr_departures _); cbn [departures]; [|constructor].
    apply (sort_sorted sort_key).
  - intros traffic threshold commute calls auto checked.
    unfold potential_issue, next_bus_of, details_of. cbn [ud_details next_bus].
    destruct traffic; [discriminate|].
    destruct (departures snap) as [|nb rest]; cbn [hd_error]; [discriminate|].
    apply List.Forall_inv in Hdue as (n & -> & _). discriminate.
Qed.

End WireFacts.

Section WireSamples.
Import DateTime Coordinator Entry Wire Sample ServiceSample.

(** The page of two rows, read by a coordinator whose primary source is
    down. *)
Lemma fall_back_reads_scrape_sample :
  (forall i, wf (Scraper.row_clock session_two_rows i))
  /\ exists r,
       Scraper.scrape_lothian_stop session_two_rows "6200206420" = inr r
       /\ scraper world_scraper_up 0 DEFAULT_SCRAPER_URL "6200206420"
          = Response 200 (to_payload r)
       /\ map due_mins
            (departures
               (fst (fall_back world_scraper_up config_stop "6200206420"
                       (mk_snapshot [] SOURCE_NONE) init)))
          = [Some 5; Some 0]
       /\ source (fst (fall_back world_scraper_up config_stop "6200206420"
                         (mk_snapshot [] SOURCE_NONE) init))
          = SOURCE_SCRAPER.
Proof.
  assert (Hwf : forall i, wf (Scraper.row_clock session_two_rows i))
    by (intros i; unfold wf; cbn; lia).
  split; [exact Hwf|].
  eexists. split; [reflexivity|]. split; [reflexivity|]. split; [reflexivity|].
  destruct (fall_back_reads_scrape world_scraper_up config_stop session_two_rows
              "6200206420" _ SOURCE_NONE init Hwf eq_refl eq_refl eq_refl)
    as (_ & Hsrc & _).
  apply Hsrc. reflexivity.
Defined.

End WireSamples.

Section RowFacts.
Import DateTime Scraper Service.

(** The loop over the selectors of a field, started with a value that is
    not truthy: its result is truthy exactly when some selector gives a text
    that is not blank, and is then the first such text. *)
Lemma first_text_first_nonblank (e : element) (sels : list string)
    (cur : option string) :
  Py.truthy_opt cur = false ->
  match first_nonblank e sels with
  | Some t => first_text e sels cur = Some t /\ Py.truthy t = true
  | None => Py.truthy_opt (first_text e sels cur) = false
  end.
Proof.
  revert cur. induction sels as [|sel rest IH]; intros cur Hcur;
    cbn [first_nonblank first_text]; [exact Hcur|].
  unfold text_at. destruct (e sel) as [| |x]; try (apply IH; exact Hcur).
  destruct (stripped x) as [t|] eqn:Hx; cbn [Py.truthy_opt].
  - destruct (Py.truthy t) eqn:Ht; [auto|]. apply IH. exact Ht.
  - apply IH. reflexivity.
Qed.

(** The first text that is not blank is the one the minutes are read
    from; without one the minutes are 0. *)
Lemma due_mins_of_first_text (now : datetime) (tx : option string)
    (tx' : option string) :
  match tx' with
  | Some t => tx = Some t /\ Py.truthy t = true
  | None => Py.truthy_opt tx = false
  end ->
  due_mins_of_text now tx = due_mins_of_text now tx'
  /\ (tx' = None -> due_mins_of_text now tx = Some 0).
Proof.
  destruct tx' as [t|].
  - intros [-> _]. split; [reflexivity | discriminate].
  - intros H. destruct tx as [[|c r]|]; try discriminate H; split; reflexivity.
Qed.

(** X19.  Which rows of the page are kept, and with what.  A row is
    dropped in two cases only: when none of the route selectors gives a text
    that is not blank; and when its time text makes [int] raise, which a
    text does in which "min" occurs, "due" and "now" do not, and the first
    run of digits has more than 4300 of them.  The route of a row that is
    kept is the first text that is not blank, stripped, in the order of the
    route selectors, a selector whose query raises or matches nothing being
    passed over.  Its aimed time and its destination are found in the same
    way; and a row without any time text is kept with 0 minutes. *)
Theorem kept_rows (now : datetime) (e : element) :
  wf now ->
  (parse_row now e = None
   <-> first_nonblank e route_selectors = None
       \/ overlong_minutes (first_nonblank e time_selectors))
  /\ (forall d, parse_row now e = Some d ->
        first_nonblank e route_selectors = Some (route d)
        /\ (forall t, first_nonblank e time_selectors = Some t -> aimed d = Some t)
        /\ (first_nonblank e time_selectors = None -> due_mins d = 0)
        /\ (forall t, first_nonblank e dest_selectors = Some t ->
              destination d = Some t)).
Proof.
  intros Hwf. unfold parse_row.
  pose proof (first_text_first_nonblank e route_selectors None eq_refl) as Hroute.
  pose proof (first_text_first_nonblank e time_selectors None eq_refl) as Htime.
  pose proof (first_text_first_nonblank e dest_selectors None eq_refl) as Hdest.
  revert Hroute Htime Hdest.
  generalize (status_chain e status_selectors) as st.
  generalize (first_text e route_selectors None) as rt.
  generalize (first_text e time_selectors None) as tx.
  generalize (first_text e dest_selectors None) as dest.
  generalize (first_nonblank e route_selectors) as rt'.
  generalize (first_nonblank e time_selectors) as tx'.
  generalize (first_nonblank e dest_selectors) as dest'.
  intros dest' tx' rt' dest tx rt st Hroute Htime Hdest.
  destruct (due_mins_of_first_text now tx tx' Htime) as [Hsame Hnone].
  pose proof (due_mins_of_text_raises now tx') as Hraises.
  rewrite <- Hsame in Hraises.
  destruct rt' as [r|].
  - destruct Hroute as [-> Hr]. cbn [Py.truthy_opt]. rewrite Hr. cbn [negb].
    destruct (due_mins_of_text now tx) as [due|] eqn:Hdue.
    + split.
      * split; [discriminate|]. intros [H|H]; [discriminate|].
        apply Hraises in H. discriminate H.
      * intros d Hd. injection Hd as <-.
        cbn [route aimed due_mins destination default from_option id].
        split; [reflexivity|]. split; [|split].
        -- intros t ->. destruct Htime as [-> _]. reflexivity.
        -- intros ->. specialize (Hnone eq_refl). congruence.
        -- intros t ->. destruct Hdest as [-> _]. reflexivity.
    + split; [|discriminate].
      split; [intros _; right; apply Hraises; reflexivity | reflexivity].
  - rewrite Hroute. cbn [negb]. split; [|discriminate].
    split; [intros _; left; reflexivity | reflexivity].
Qed.

End RowFacts.

Section RowSamples.
Import DateTime Scraper Service ScraperSample ServiceSample.

(** A row that is kept, and a row that is dropped for its time text. *)
Lemma kept_rows_sample :
  wf morning
  /\ first_nonblank row_5_min route_selectors = Some "26"
  /\ (exists d, parse_row morning row_5_min = Some d /\ aimed d = Some "5 min")
  /\ first_nonblank row_overlong route_selectors = Some "12"
  /\ parse_row morning row_overlong = None.
Proof.
  assert (Hwf : wf morning) by (unfold wf; cbn; lia).
  split; [exact Hwf|]. split; [reflexivity|]. split.
  - eexists. split; [reflexivity|].
    destruct (kept_rows morning row_5_min Hwf) as [_ H].
    destruct (H _ eq_refl) as (_ & Ht & _).
    apply Ht. reflexivity.
  - split; [reflexivity|].
    destruct (kept_rows morning row_overlong Hwf) as [[_ H] _].
    apply H. right. exists (nines +:+ " min"), nines.
    split; [vm_compute; reflexivity|].
    split; [apply no_word; vm_compute; reflexivity|].
    split; [apply no_word; vm_compute; reflexivity|].
    split.
    { apply occurs_ignoring_case_spec. vm_compute. reflexivity. }
    split; vm_compute; reflexivity.
Defined.

End RowSamples.

(* ===================================================================== *)
(** * The reservation, and the settings the form accepts *)
(* ===================================================================== *)

Section Reservation.
Import DateTime Coordinator Entry.

Variable w : world.
Variable cfg : Config.

(** X20.  The calls reserved for manual use stay free.  Take any sequence
    of entry points without a manual refresh: timer refreshes, resets of the
    counters, notifications, reads of the sensors and of the counters.  If
    the calls counted are within the part of the quota that is not reserved,
    they still are afterwards; so, when the reservation fits in the quota,
    at least the reserved number of calls is left, and with a reservation of
    one call or more a manual refresh is admitted. *)
Theorem reserved_calls_stay_free (l : list action) (s : state) :
  ~ In RefreshCommute l ->
  0 <= _calls_today s <= unreserved cfg ->
  let s' := after w cfg l s in
  0 <= _calls_today s' <= unreserved cfg
  /\ (reserved_of cfg <= quota_of cfg ->
      reserved_of cfg <= quota_of cfg - _calls_today s')
  /\ (0 < reserved_of cfg <= quota_of cfg ->
      admits cfg Manual (_calls_today s') (_auto_calls_today s') = true).
Proof.
  intros Hl Hs s'.
  assert (H : 0 <= _calls_today s' <= unreserved cfg).
  { revert Hs.
    apply (respects_perform_some w cfg (fun k => k = Automatic)
             (fun a b => 0 <= l_calls a <= unreserved cfg ->
                         0 <= l_calls b <= unreserved cfg)).
    - auto.
    - auto.
    - intros c a p q _. cbn [l_calls]. unfold unreserved. lia.
    - intros c a p q H. exact H.
    - intros k c a p q -> Hadm. cbn [admits] in Hadm.
      apply andb_true_iff in Hadm as [Hadm _]. apply Z.ltb_lt in Hadm.
      cbn [l_calls]. unfold unreserved. repeat split; intros; lia.
    - apply List.Forall_forall. intros a Ha.
      destruct a; cbn [kinds_of]; repeat constructor.
      contradiction. }
  split; [exact H|]. unfold unreserved in H. split.
  - intros Hfit. lia.
  - intros Hfit. cbn [admits]. apply Z.ltb_lt. lia.
Qed.

(** X21.  With the three quota settings as the form of the quota step
    accepts them, from the fresh coordinator on, the calls counted never
    exceed the daily quota and the automatic calls never exceed their cap,
    whatever entry points are run; a manual call is admitted on a ledger of
    zeroes, and an automatic one exactly when the reservation is below the
    quota. *)
Theorem accepted_quota_is_kept (l : list action) :
  accepted_quota cfg ->
  let s' := after w cfg l init in
  0 <= _auto_calls_today s' <= _calls_today s'
  /\ _calls_today s' <= quota_of cfg
  /\ _auto_calls_today s' <= max_auto_of cfg
  /\ admits cfg Manual 0 0 = true
  /\ (admits cfg Automatic 0 0 = true <-> reserved_of cfg < quota_of cfg).
Proof.
  intros (q & r & m & Hq & Hqr & Hr & Hrr & Hm & Hmr) s'.
  assert (Hquota : quota_of cfg = q) by (unfold quota_of; rewrite Hq; reflexivity).
  assert (Hres : reserved_of cfg = r) by (unfold reserved_of; rewrite Hr; reflexivity).
  assert (Hmax : max_auto_of cfg = m) by (unfold max_auto_of; rewrite Hm; reflexivity).
  assert (Hb : within_budget cfg (ledger_of s')).
  { apply (respects_perform_all w cfg
             (fun a b => within_budget cfg a -> within_budget cfg b)).
    - auto.
    - auto.
    - intros a b. apply event_within_budget. lia.
    - unfold within_budget. cbn. lia. }
  destruct Hb as (H1 & H2 & H3 & _). cbn [ledger_of l_calls l_auto] in H1, H2, H3.
  rewrite Hquota, Hres, Hmax in *.
  split; [exact H1|]. split; [lia|]. split; [lia|].
  cbn [admits]. rewrite Hquota, Hres, Hmax. split.
  - apply Z.ltb_lt. lia.
  - rewrite andb_true_iff, !Z.ltb_lt. lia.
Qed.

End Reservation.

Section ReservationSamples.
Import DateTime Coordinator Entry Sample.

Lemma reserved_calls_stay_free_sample :
  let l := [Tick; Tick; ResetCounters; CanAutoSensor; Tick] in
  ~ In RefreshCommute l
  /\ 0 <= _calls_today init <= unreserved config_stop
  /\ reserved_of config_stop
     <= quota_of config_stop - _calls_today (after world_X4 config_stop l init).
Proof.
  intros l.
  assert (Hl : ~ In RefreshCommute l)
    by (intros [H|[H|[H|[H|[H|[]]]]]]; discriminate).
  assert (Hs : 0 <= _calls_today init <= unreserved config_stop)
    by (split; vm_compute; discriminate).
  split; [exact Hl|]. split; [exact Hs|].
  destruct (reserved_calls_stay_free world_X4 config_stop l init Hl Hs) as (_ & H & _).
  apply H. vm_compute; discriminate.
Defined.

(** The settings of the form left at their defaults. *)
Lemma accepted_quota_is_kept_sample :
  let cfg := mk_config (Some "6200206420") None (Some 30) (Some 6) (Some 10)
               None None None None None in
  accepted_quota cfg
  /\ _calls_today (after world_X4 cfg [Tick; RefreshCommute; RefreshCommute] init)
     <= 30.
Proof.
  intros cfg.
  assert (Hacc : accepted_quota cfg).
  { exists 30, 6, 10. repeat split; try reflexivity; vm_compute; discriminate. }
  split; [exact Hacc|].
  destruct (accepted_quota_is_kept world_X4 cfg [Tick; RefreshCommute; RefreshCommute]
              Hacc) as (_ & H & _).
  exact H.
Defined.

End ReservationSamples.

(* ===================================================================== *)
(** * Departures with the same minutes *)
(* ===================================================================== *)

Section StableFacts.
Import DateTime Coordinator Entry.

Variable w : world.
Variable cfg : Config.

Lemma sort_head_first {A} (key : A -> Z) (recs : list A) (nb : A) (rest : list A) :
  Py.sort key recs = nb :: rest ->
  hd_error (List.filter (fun x => key x =? key nb) recs) = Some nb.
Proof.
  intros Hout. rewrite <- (sort_stable key recs (key nb)), Hout.
  cbn [List.filter]. rewrite Z.eqb_refl. reflexivity.
Qed.

(** X22.  The sort of the two normalizers is stable.  The records of one
    sort key come out in the order in which the source listed them; and the
    first record that is returned, which becomes the next bus, is the first
    that the source listed among those of its key. *)
Theorem normalizers_keep_source_order (api : api_payload) (scr : scraper_payload)
    (s : state) (recs out : list departure) :
  (recs = (transportapi_records w cfg api s).1
   /\ out = (_parse_transportapi_departures w cfg api s).1)
  \/ (recs = scraper_records cfg scr /\ out = _parse_scraper_departures cfg scr) ->
  (forall v, List.filter (fun x => sort_key x =? v) out
             = List.filter (fun x => sort_key x =? v) recs)
  /\ (forall nb, hd_error out = Some nb ->
        hd_error (List.filter (fun x => sort_key x =? sort_key nb) recs) = Some nb
        /\ forall x, In x recs -> sort_key nb <= sort_key x).
Proof.
  intros Hwhich.
  assert (Hout : out = Py.sort sort_key recs).
  { destruct Hwhich as [[-> ->]|[-> ->]];
      [apply parse_transportapi_is_sort | reflexivity]. }
  split.
  - intros v. rewrite Hout. apply sort_stable.
  - intros nb Hnb. destruct out as [|nb' rest]; [discriminate|].
    injection Hnb as ->. split.
    + apply (sort_head_first sort_key recs nb rest). symmetry. exact Hout.
    + intros x Hx.
      assert (Hs : StronglySorted by_sort_key (nb :: rest))
        by (rewrite Hout; apply (sort_sorted sort_key)).
      assert (Hin : In x (nb :: rest)).
      { rewrite Hout. eapply Permutation_in; [symmetry; apply sort_perm|exact Hx]. }
      destruct (sorted_head_least (nb :: rest) x Hs Hin) as (nb' & Hhd & Hle).
      injection Hhd as <-. exact Hle.
Qed.

End StableFacts.

Section StableSamples.
Import DateTime Coordinator Entry Sample.

(** Two buses in five minutes, of routes X4 and 26, sent in that order. *)
Lemma normalizers_keep_source_order_sample :
  let other := mk_departure "26" (Some 5) None None None "Scheduled" None in
  let scr := mk_scr (Some [due_now; due_in_5; other]) in
  map route (_parse_scraper_departures config_stop scr) = ["X4"; "26"; "X4"]
  /\ hd_error (List.filter (fun x => sort_key x =? 5) (scraper_records config_stop scr))
     = Some due_in_5.
Proof.
  intros other scr. split; [reflexivity|].
  destruct (normalizers_keep_source_order world_X4 config_stop (mk_api None) scr init
              (scraper_records config_stop scr)
              (_parse_scraper_departures config_stop scr)
              (or_intror (conj eq_refl eq_refl))) as [_ Hfirst].
  destruct (Hfirst due_in_5 eq_refl) as [H _]. exact H.
Defined.

End StableSamples.

(* ===================================================================== *)
(** * The reset of the counters *)
(* ===================================================================== *)

Section ResetFacts.
Import DateTime Coordinator Entry.

Variable w : world.
Variable cfg : Config.

(** X23.  The reset service and button.  Whatever the counters were, after
    a reset of the counters they stand at what the refresh it ends with has
    counted: at most one call, the automatic calls among the calls; and a
    call is counted only if a request was sent to the primary source. *)
Theorem reset_gives_budget_back (s : state) :
  let s' := snd (async_reset_daily_counters w cfg s) in
  0 <= _auto_calls_today s' <= _calls_today s'
  /\ _calls_today s' <= 1
  /\ (api_requests s <= api_requests s' <= api_requests s + 1)%nat
  /\ (_calls_today s' = 1 -> api_requests s' = S (api_requests s)).
Proof.
  cbv zeta. unfold async_reset_daily_counters.
  rewrite !bind_eq. cbn [modify now fst snd].
  match goal with
  | |- context [async_refresh w cfg ?x] => set (s0 := x)
  end.
  assert (H0 : ledger_of s0 = mk_ledger 0 0 (api_requests s) (scraper_requests s))
    by reflexivity.
  set (L := fun a b : ledger =>
              0 <= l_auto a <= l_calls a ->
              0 <= l_auto b <= l_calls b
              /\ l_calls b - l_calls a <= Z.of_nat (l_api b) - Z.of_nat (l_api a)).
  assert (L_refl : forall l, L l l) by (unfold L; intros; lia).
  assert (L_trans : forall a b c, L a b -> L b c -> L a c).
  { unfold L. intros a b c Hab Hbc Ha. destruct (Hab Ha) as [Hb ?].
    destruct (Hbc Hb). lia. }
  assert (L_zeroed : forall c a p q, L (mk_ledger c a p q) (mk_ledger 0 0 p q))
    by (unfold L; intros; cbn in *; lia).
  assert (L_scraped : forall c a p q, L (mk_ledger c a p q) (mk_ledger c a p (S q)))
    by (unfold L; intros; cbn in *; lia).
  assert (L_requested : forall k c a p q,
            True -> admits cfg k c a = true ->
            L (mk_ledger c a p q) (mk_ledger c a (S p) q)
            /\ L (mk_ledger c a p q) (mk_ledger (c + 1) a (S p) q)
            /\ (k = Automatic ->
                L (mk_ledger c a p q) (mk_ledger (c + 1) (a + 1) (S p) q)))
    by (unfold L; intros; cbn; repeat split; intros; lia).
  pose proof (respects_refresh w cfg (fun _ => True) L L_refl L_trans L_zeroed
                L_scraped L_requested I s0) as Hr.
  unfold L in Hr. rewrite H0 in Hr. cbn [l_auto l_calls l_api ledger_of] in Hr.
  specialize (Hr ltac:(lia)).
  pose proof (refresh_costs_api w cfg s0) as Hc.
  change (api_requests s0) with (api_requests s) in Hc.
  destruct Hr as [Hshape Hcount]. repeat split; lia.
Qed.

End ResetFacts.

(* ===================================================================== *)
(** * A clock text with something after it *)
(* ===================================================================== *)

Section SuffixFacts.
Import DateTime Scraper.

(** Two digits, a colon, two digits. *)
Lemma clock_text_shapes :
  forallb
    (fun h =>
       forallb
         (fun m =>
            match clock_text h m with
            | String a (String b (String ":" (String c (String d EmptyString)))) =>
                Py.is_digit a && Py.is_digit b && Py.is_digit c && Py.is_digit d
            | _ => false
            end)
         (seq 0 60))
    (seq 0 24) = true.
Proof. vm_compute. reflexivity. Qed.

Lemma clock_text_shape (h m : nat) :
  (h < 24)%nat -> (m < 60)%nat ->
  exists a b c d,
    clock_text h m = String a (String b (String ":" (String c (String d EmptyString))))
    /\ Py.is_digit a = true /\ Py.is_digit b = true
    /\ Py.is_digit c = true /\ Py.is_digit d = true.
Proof.
  intros Hh Hm. pose proof clock_text_shapes as H.
  rewrite forallb_forall in H. specialize (H h). rewrite in_seq in H.
  specialize (H ltac:(lia)). rewrite forallb_forall in H. specialize (H m).
  rewrite in_seq in H. specialize (H ltac:(lia)).
  destruct (clock_text h m) as [|a [|b [|c0 [|c [|d [|]]]]]]; try discriminate;
    destruct c0 as [[|] [|] [|] [|] [|] [|] [|] [|]]; try discriminate.
  cbv beta iota in H. rewrite !andb_true_iff in H. destruct H as [[[Ha Hb] Hc] Hd].
  exists a, b, c, d. auto.
Qed.

Lemma digit_not_colon (a : ascii) : Py.is_digit a = true -> Ascii.eqb a ":" = false.
Proof.
  intros Ha. destruct (Ascii.eqb_spec a ":") as [->|]; [discriminate|reflexivity].
Qed.

Lemma contains_skip_char (c0 a : ascii) (sub s : string) :
  c0 <> a ->
  Py.contains (String c0 sub) (String a s) = Py.contains (String c0 sub) s.
Proof.
  intros Hne. cbn [Py.contains String.prefix].
  destruct (Ascii.ascii_dec c0 a) as [->|_]; [contradiction|reflexivity].
Qed.

Lemma digit_is_not (c0 a : ascii) :
  Py.is_digit c0 = false -> Py.is_digit a = true -> c0 <> a.
Proof. intros H0 Ha ->. congruence. Qed.

Lemma split_head (s : string) : exists h t, Py.split ":" s = h :: t.
Proof.
  induction s as [|c r (h & t & IH)]; cbn [Py.split]; [eauto|].
  destruct (Ascii.eqb c ":"); [eauto|]. rewrite IH. eauto.
Qed.

(** X24.  What comes after a clock text is not read.  For a time text
    that is a clock text [HH:MM] followed by anything in which none of
    "due", "now" and "min" occurs, case disregarded, such as an "am" or a
    "pm", the minutes are those of the clock text alone. *)
Theorem clock_suffix_ignored (now : datetime) (h m : nat) (suffix : string) :
  (h < 24)%nat -> (m < 60)%nat ->
  Py.contains "due" (Py.lower suffix) = false ->
  Py.contains "now" (Py.lower suffix) = false ->
  Py.contains "min" (Py.lower suffix) = false ->
  due_mins_of_text now (Some (clock_text h m +:+ suffix))
  = due_mins_of_text now (Some (clock_text h m)).
Proof.
  intros Hh Hm Hdue Hnow Hmin.
  rewrite (clock_text_parsed now h m Hh Hm).
  pose proof clock_texts_read as Hread.
  rewrite forallb_forall in Hread. specialize (Hread h). rewrite in_seq in Hread.
  specialize (Hread ltac:(lia)). rewrite forallb_forall in Hread.
  specialize (Hread m). rewrite in_seq in Hread. specialize (Hread ltac:(lia)).
  cbv zeta in Hread. rewrite !andb_true_iff in Hread.
  destruct Hread as (_ & Hparts).
  destruct (clock_text_shape h m Hh Hm) as (a & b & c & d & Heq & Ha & Hb & Hc & Hd).
  rewrite Heq in *. rewrite !append_cons, append_nil.
  assert (Hlow : forall x, Py.is_digit x = true -> Py.lower_char x = x)
    by (intros x Hx; apply digit_chars in Hx as (_ & Hl & _); exact Hl).
  assert (Hkw : forall k0 kw,
            Py.is_digit k0 = false -> k0 <> ":"%char ->
            Py.contains (String k0 kw)
              (String a (String b (String ":" (String c (String d (Py.lower suffix))))))
            = Py.contains (String k0 kw) (Py.lower suffix)).
  { intros k0 kw Hk Hcolon.
    rewrite !contains_skip_char; auto using digit_is_not. }
  unfold due_mins_of_text. cbn [Py.lower].
  change (Py.lower_char ":") with ":"%char. rewrite !Hlow by assumption.
  rewrite !Hkw by (try reflexivity; discriminate).
  rewrite Hdue, Hnow, Hmin. cbn [orb].
  assert (Hcontains : Py.contains ":"
                        (String a (String b (String ":" (String c (String d suffix)))))
                      = true).
  { cbn [Py.contains]. rewrite !orb_true_iff. right. right. left.
    destruct suffix; reflexivity. }
  rewrite Hcontains. f_equal.
  (* the two parts that are read *)
  unfold clock_branch in *. cbn [Py.split] in *.
  change (Ascii.eqb ":" ":") with true in *.
  rewrite (digit_not_colon a Ha), (digit_not_colon b Hb), (digit_not_colon c Hc),
    (digit_not_colon d Hd) in *.
  cbv iota in *.
  destruct (split_head suffix) as (h0 & t0 & Hsplit). rewrite Hsplit.
  cbn [Py.split] in Hparts |- *.
  cbn [Py.take] in *.
  destruct (Py.int (String a (String b EmptyString))) as [x|]; [|discriminate].
  destruct (Py.int (String c (String d EmptyString))) as [y|]; [|discriminate].
  apply andb_true_iff in Hparts as [Hx Hy]. apply Z.eqb_eq in Hx, Hy. subst x y.
  reflexivity.
Qed.

End SuffixFacts.

Section SuffixSamples.
Import DateTime Scraper ScraperSample.

(** A quarter to nine "pm", read at ten past eight in the morning. *)
Lemma clock_suffix_ignored_sample :
  (8 < 24)%nat /\ (45 < 60)%nat
  /\ due_mins_of_text morning (Some "08:45pm") = Some 35.
Proof.
  assert (H8 : (8 < 24)%nat) by lia.
  assert (H45 : (45 < 60)%nat) by lia.
  split; [exact H8|]. split; [exact H45|].
  exact (eq_trans
           (clock_suffix_ignored morning 8 45 "pm" H8 H45 eq_refl eq_refl eq_refl)
           eq_refl).
Defined.

End SuffixSamples.

(* ===================================================================== *)
(** * The source a snapshot names *)
(* ===================================================================== *)

Section SourceFacts.
Import DateTime Coordinator Entry.

Variable w : world.
Variable cfg : Config.

Local Abbreviation stop := (default EmptyString (bus_stop_primary cfg)).
Local Abbreviation url := (default DEFAULT_SCRAPER_URL (scraper_url cfg)).

Lemma fetch_scraper_result (st : string) (s : state) :
  fst (_fetch_scraper w cfg st s)
  = if Py.truthy url then
      match scraper w (scraper_requests s) url st with
      | Response code body => if code =? 200 then Some body else None
      | ClientError _ => None
      end
    else None.
Proof.
  unfold _fetch_scraper. destruct (Py.truthy url); cbn [negb]; [|reflexivity].
  rewrite !bind_eq. cbn [gets modify fst snd].
  destruct (scraper w _ _ _) as [code body|e]; [destruct (code =? 200)|];
    rewrite ?bind_eq; reflexivity.
Qed.

(** X25.  The source a snapshot names did answer.  After a fetch cycle
    with a stop configured: a snapshot that names TransportAPI comes from a
    cycle that was admitted and whose request was answered with status 200
    and departures; one that names the scraper service comes from a scraper
    answer with status 200 and departures, of which it holds those that pass
    the filter, sorted; and one that names no source has no departure. *)
Theorem source_names_who_answered (k : kind) (s : state) (snap : snapshot) :
  Py.truthy_opt (bus_stop_primary cfg) = true ->
  _bus_data (snd (cycle w cfg k s)) = Some snap ->
  (source snap = SOURCE_TRANSPORTAPI ->
     fst (can_call w cfg k (entering w s)) = true
     /\ exists body,
          transportapi w (api_requests s) stop = Response 200 body
          /\ has_api_departures (Some body) = true)
  /\ (source snap = SOURCE_SCRAPER ->
      Py.truthy url = true
      /\ exists body,
           scraper w (scraper_requests s) url stop = Response 200 body
           /\ has_scr_departures (Some body) = true
           /\ departures snap = _parse_scraper_departures cfg body)
  /\ (source snap = SOURCE_NONE -> departures snap = []).
Proof.
  intros Hstop Hsnap. rewrite (cycle_unfold w cfg k s Hstop) in Hsnap.
  cbn [set_bus_data _bus_data] in Hsnap. injection Hsnap as <-.
  set (s1 := entering w s).
  set (r1 := primary w cfg k stop s1).
  pose proof (entering_keeps_requests w s) as He. fold (entering w s) in He.
  fold s1 in He. injection He as Hea Hes.
  destruct (primary_requests w cfg k s1) as (_ & Hps & _). fold r1 in Hps.
  (* what the primary source left *)
  assert (Hprim :
    fst r1 = mk_snapshot [] SOURCE_NONE
    \/ (source (fst r1) = SOURCE_TRANSPORTAPI
        /\ fst (can_call w cfg k s1) = true
        /\ exists body,
             transportapi w (api_requests s) stop = Response 200 body
             /\ has_api_departures (Some body) = true)).
  { destruct (primary_effect w cfg k stop s1) as [Hno Hyes]. fold r1 in Hno, Hyes.
    destruct (fst (can_call w cfg k s1)) eqn:Hadm.
    - destruct (Hyes eq_refl) as [_ Hr].
      pose proof (fetch_transportapi_counters w stop (snd (_check_daily_reset w s1)))
        as (_ & _ & _ & Hd).
      rewrite check_api_requests, Hea in Hd.
      destruct (has_api_departures _) eqn:Hh; [|left; exact Hr].
      right. rewrite Hr. split; [reflexivity|]. split; [reflexivity|].
      rewrite Hd in Hh.
      destruct (transportapi w (api_requests s) stop) as [code body|e];
        [|discriminate].
      destruct (Z.eqb_spec code 200) as [->|]; [|discriminate].
      exists body. split; [reflexivity | exact Hh].
    - left. apply Hno. reflexivity. }
  (* what the fall-back made of it *)
  assert (Hfall :
    fst (fall_back w cfg stop (fst r1) (snd r1)) = fst r1
    \/ (departures (fst r1) = []
        /\ Py.truthy url = true
        /\ exists body,
             scraper w (scraper_requests s) url stop = Response 200 body
             /\ has_scr_departures (Some body) = true
             /\ fst (fall_back w cfg stop (fst r1) (snd r1))
                = mk_snapshot (_parse_scraper_departures cfg body) SOURCE_SCRAPER)).
  { unfold fall_back. destruct (departures (fst r1)) eqn:Hd; [|left; reflexivity].
    rewrite bind_eq, fetch_scraper_result, Hps, Hes.
    destruct (Py.truthy url); [|left; reflexivity].
    destruct (scraper w (scraper_requests s) url stop) as [code body|e];
      [|left; reflexivity].
    destruct (Z.eqb_spec code 200) as [->|]; [|left; reflexivity].
    destruct (has_scr_departures (Some body)) eqn:Hh; [|left; reflexivity].
    right. split; [reflexivity|]. split; [reflexivity|].
    exists body. auto. }
  destruct Hfall as [-> | (Hd & Hurl & body & Hans & Hh & ->)].
  - destruct Hprim as [-> | (Hsrc & Hadm & Hbody)]; cbn [source departures].
    + repeat split; try discriminate.
    + rewrite Hsrc. split; [auto|]. split; discriminate.
  - cbn [source departures]. split; [discriminate|]. split; [|discriminate].
    intros _. split; [exact Hurl|]. exists body. auto.
Qed.

End SourceFacts.

Section SourceSamples.
Import DateTime Coordinator Entry Sample Wire.

(** The primary source is down and the scraper service answers. *)
Lemma source_names_who_answered_sample :
  Py.truthy_opt (bus_stop_primary config_stop) = true
  /\ exists snap,
       _bus_data (snd (cycle world_scraper_up config_stop Automatic init)) = Some snap
       /\ source snap = SOURCE_SCRAPER
       /\ exists body,
            scraper world_scraper_up 0 DEFAULT_SCRAPER_URL "6200206420"
            = Response 200 body.
Proof.
  split; [reflexivity|].
  eexists. split; [reflexivity|]. split; [reflexivity|].
  destruct (source_names_who_answered world_scraper_up config_stop Automatic init _
              eq_refl eq_refl) as (_ & H & _).
  destruct (H eq_refl) as (_ & body & Hans & _).
  exists body. exact Hans.
Defined.

End SourceSamples.
